(** * Cart handlers of the e-commerce backend: a shallow embedding

    The development follows [package handlers] (cart handlers) and
    [package models] of the repository.  The handlers are Go functions over a
    [*gin.Context] that call the package-level functions of [repository], the
    global Redis client [config.RDB] and the response helpers of [utils].

    - Go values keep their shape: a pointer result is an [option], an [error]
      result is an [option error], a multiple return is a pair, an [int] is a
      [Z] wrapped to 64 bits.
    - A handler is a state transformer over the backend world, the responses
      written to the gin context and the log of calls that left the handler;
      [return] and a nil-pointer panic stop it.
    - The functions of [repository] and the Redis client are not part of the
      handlers' package: the handlers are written against the interface
      [Backend], and [MemStore] gives an in-memory instance of it. *)

From Stdlib Require Import ZArith NArith Ascii String List Bool Lia.
From stdpp Require Import base option list strings gmap pretty.

Local Open Scope string_scope.
Local Open Scope Z_scope.

(** ** Go's [int] (64 bits on the platforms the server targets) *)

Module goint.

Definition min_int : Z := - 2 ^ 63.
Definition max_int : Z := 2 ^ 63 - 1.

Definition in_range (z : Z) : Prop := min_int <= z <= max_int.

Definition in_rangeb (z : Z) : bool := (min_int <=? z) && (z <=? max_int).

(** Two's complement wrap-around of a mathematical result. *)
Definition wrap (z : Z) : Z := (z + 2 ^ 63) mod 2 ^ 64 - 2 ^ 63.

(** [a + b] on [int]. *)
Definition add (a b : Z) : Z := wrap (a + b).

End goint.

(** ** [net/http] status codes used by the handlers *)

Module http.
Definition StatusOK : Z := 200.
Definition StatusCreated : Z := 201.
Definition StatusBadRequest : Z := 400.
Definition StatusUnauthorized : Z := 401.
Definition StatusInternalServerError : Z := 500.
End http.

(** ** [time] durations, in nanoseconds *)

Module time.
Definition Hour : Z := 3600 * 1000000000.
End time.

(** ** Errors

    The three kinds of [error] values the handlers tell apart:
    [gorm.ErrRecordNotFound], [redis.Nil], and any other error. *)

Inductive error : Type :=
| gorm_ErrRecordNotFound
| redis_Nil
| errors_New (msg : string).

#[global] Instance error_eq_dec : EqDecision error.
Proof. solve_decision. Defined.

Module errors.
(** [errors.Is(err, target)] on the flat errors above. *)
Definition Is (err : option error) (target : error) : bool :=
  match err with
  | Some e => bool_decide (e = target)
  | None => false
  end.
End errors.

(** [x != nil] and [x == nil] for pointers and errors. *)
Definition not_nil {A : Type} (x : option A) : bool :=
  match x with Some _ => true | None => false end.

Definition is_nil {A : Type} (x : option A) : bool := negb (not_nil x).

(** ** [uuid.UUID]

    A UUID is identified with its canonical text, which is what [String()]
    returns. *)

Record UUID : Type := mkUUID { uuid_String : string }.

#[global] Instance UUID_eq_dec : EqDecision UUID.
Proof. solve_decision. Defined.

Module uuid.
Definition Nil : UUID := mkUUID "00000000-0000-0000-0000-000000000000".
End uuid.

(** ** [package models] *)

Module models.

(** [models.Cart]; the timestamps [AddedAt] and [UpdatedAt] and the preloaded
    associations are not read by any handler and are left out;
    [DeletedAt] is the soft-delete marker (a nullable time). *)
Record Cart : Type := mkCart {
  Cart_ID : UUID;
  Cart_UserID : UUID;
  Cart_DeletedAt : option Z
}.

(** [models.CartItems], with the same omissions. *)
Record CartItems : Type := mkCartItems {
  ID : UUID;
  CartID : UUID;
  ProductID : UUID;
  Quantity : Z;
  DeletedAt : option Z
}.

(** [models.Product]: the handlers read [NumberOfStock] only. *)
Record Product : Type := mkProduct {
  Product_ID : UUID;
  NumberOfStock : Z
}.

#[global] Instance Cart_eq_dec : EqDecision Cart.
Proof. solve_decision. Defined.

#[global] Instance CartItems_eq_dec : EqDecision CartItems.
Proof. solve_decision. Defined.

#[global] Instance Product_eq_dec : EqDecision Product.
Proof. solve_decision. Defined.

(** [it.Quantity = q]. *)
Definition set_Quantity (q : Z) (it : CartItems) : CartItems :=
  mkCartItems (ID it) (CartID it) (ProductID it) q (DeletedAt it).

End models.

Import models.

(** ** External libraries

    [uuid.Parse] and [encoding/json] on [[]models.CartItems] are library code;
    the handlers are parametric in them. *)

Class Libs : Type := {
  (** [uuid.Parse(s)]: the UUID and a nil error, or [uuid.Nil] and an error. *)
  uuid_Parse : string -> UUID * option error;
  (** [json.Marshal(cartItems)]. *)
  json_Marshal : list CartItems -> string;
  (** [json.Unmarshal([]byte(s), &cartItems)]: the decoded slice, or an error. *)
  json_Unmarshal : string -> list CartItems * option error
}.

(** ** The request: what a handler reads from its [*gin.Context] *)

(** [AddCartItemRequest]. *)
Record AddCartItemRequest : Type := mkAddCartItemRequest {
  req_ProductID : UUID;
  req_Quantity : Z
}.

Module gin.

Record Context : Type := mkContext {
  (** the value stored under the key ["userId"] by the authentication
      middleware, if any *)
  keys_userId : option string;
  (** the JSON body decoded into the fields of [AddCartItemRequest];
      [None] when the body is not JSON of that shape *)
  body : option AddCartItemRequest;
  (** the path parameter [product_id] *)
  param_product_id : string
}.

(** [c.Get("userId")] followed by the assertion [val.(string)]. *)
Definition Get_userId (c : Context) : string * bool :=
  match keys_userId c with
  | Some v => (v, true)
  | None => ("", false)
  end.

(** [c.Param("product_id")]. *)
Definition Param_product_id (c : Context) : string := param_product_id c.

(** [c.ShouldBindJSON(&req)]: decoding, then the [binding] tags of
    [AddCartItemRequest]: [product_id] is [required] (not the zero UUID),
    [quantity] is [required,min=1]; a number that does not fit [int] is a
    decoding error. *)
Definition ShouldBindJSON (c : Context) : AddCartItemRequest * option error :=
  let zero := mkAddCartItemRequest uuid.Nil 0 in
  match body c with
  | None => (zero, Some (errors_New "invalid JSON body"))
  | Some req =>
      if negb (goint.in_rangeb (req_Quantity req)) then
        (zero, Some (errors_New "cannot unmarshal number into Go struct field"))
      else if bool_decide (req_ProductID req = uuid.Nil) then
        (req, Some (errors_New "Field validation for 'ProductID' failed on the 'required' tag"))
      else if req_Quantity req <? 1 then
        (req, Some (errors_New "Field validation for 'Quantity' failed on the 'min' tag"))
      else (req, None)
  end.

End gin.

(** ** Responses *)

(** The [data] argument of [utils.ResponseSuccess]. *)
Inductive Data : Type :=
| DataNil
| DataCart (cart : Cart)
| DataCartItems (items : list CartItems).

(** What a handler writes to the client. *)
Inductive Response : Type :=
| ErrorResponse (code : Z) (message : string) (detail : option error)
| SuccessResponse (code : Z) (message : string) (data : Data)
| JSONResponse (code : Z) (key : string) (detail : option error).

Definition is_success (r : Response) : bool :=
  match r with SuccessResponse _ _ _ => true | _ => false end.

(** ** Calls that leave the handler *)

Inductive Event : Type :=
| EvGetCartByUserId (userId : UUID)
| EvCreateCart (userId : UUID)
| EvGetProductByUUID (productID : UUID)
| EvGetCartItem (cartID productID : UUID)
| EvUpdateCartItem (item : CartItems)
| EvCreateCartItem (item : CartItems)
| EvGetCartItems (cartID : UUID)
| EvRemoveCartItemFrom (cartID productID : UUID)
| EvRedisGet (key : string)
| EvRedisSet (key value : string) (expiration : Z)
| EvRedisDel (key : string)
| EvPrintln (msg : string).

(** Calls that write to the Cart Store. *)
Definition is_store_write (e : Event) : bool :=
  match e with
  | EvCreateCart _ | EvUpdateCartItem _ | EvCreateCartItem _
  | EvRemoveCartItemFrom _ _ => true
  | _ => false
  end.

(** Calls that read cart items from the Cart Store. *)
Definition is_store_load (e : Event) : bool :=
  match e with EvGetCartItems _ => true | _ => false end.

Definition is_cache_set (e : Event) : bool :=
  match e with EvRedisSet _ _ _ => true | _ => false end.

(** ** The backend interface

    The signatures of the functions of [package repository] and of the Redis
    commands, as the handlers call them, over a backend world [W]. *)

Class Backend (W : Type) : Type := {
  db_GetCartByUserId : UUID -> W -> (option Cart * option error) * W;
  db_CreateCart : UUID -> W -> option error * W;
  db_GetProductByUUID : UUID -> W -> (option Product * option error) * W;
  db_GetCartItem : UUID -> UUID -> W -> (option CartItems * option error) * W;
  db_UpdateCartItem : CartItems -> W -> option error * W;
  db_CreateCartItem : CartItems -> W -> option error * W;
  db_GetCartItems : UUID -> W -> (list CartItems * option error) * W;
  db_RemoveCartItemFrom : UUID -> UUID -> W -> option error * W;
  rdb_Get : string -> W -> (string * option error) * W;
  rdb_Set : string -> string -> Z -> W -> option error * W;
  rdb_Del : string -> W -> option error * W
}.

(** ** The handler monad *)

Record HState (W : Type) : Type := mkHState {
  world : W;
  written : list Response;
  calls : list Event
}.
Arguments mkHState {W} _ _ _.
Arguments world {W} _.
Arguments written {W} _.
Arguments calls {W} _.

(** How a piece of handler code ends: it falls through with a value, it
    executes [return], or it panics. *)
Inductive Flow (A : Type) : Type :=
| Next (a : A)
| Returned
| Panicked (msg : string).
Arguments Next {A} _.
Arguments Returned {A}.
Arguments Panicked {A} _.

Definition Handler (W A : Type) : Type := HState W -> Flow A * HState W.

Definition ret {W A} (a : A) : Handler W A := fun s => (Next a, s).

Definition bind {W A B} (m : Handler W A) (k : A -> Handler W B) : Handler W B :=
  fun s =>
    match m s with
    | (Next a, s') => k a s'
    | (Returned, s') => (Returned, s')
    | (Panicked msg, s') => (Panicked msg, s')
    end.

Declare Scope handler_scope.
Delimit Scope handler_scope with handler.
Bind Scope handler_scope with Handler.

Notation "x <- c1 ;; c2" := (bind c1 (fun x => c2))
  (at level 20, c1 at level 99, c2 at level 200, only parsing) : handler_scope.
Notation "' pat <- c1 ;; c2" := (bind c1 (fun pat => c2))
  (at level 20, pat pattern, c1 at level 99, c2 at level 200, only parsing) : handler_scope.
Notation "c1 ;; c2" := (bind c1 (fun _ => c2))
  (at level 100, c2 at level 200, only parsing, right associativity) : handler_scope.

Local Open Scope handler_scope.

(** The [return] statement. *)
Definition Return {W A} : Handler W A := fun s => (Returned, s).

(** [if b { body }] with no [else]. *)
Definition when {W} (b : bool) (body : Handler W unit) : Handler W unit :=
  if b then body else ret tt.

(** [p.f] on a pointer [p]: a nil pointer panics. *)
Definition deref {W A} (p : option A) : Handler W A :=
  match p with
  | Some a => ret a
  | None =>
      fun s => (Panicked "runtime error: invalid memory address or nil pointer dereference", s)
  end.

(** A call into the backend: logged, then run on the world. *)
Definition call {W A} (ev : Event) (op : W -> A * W) : Handler W A :=
  fun s =>
    let '(a, w') := op (world s) in
    (Next a, mkHState w' (written s) (calls s ++ [ev])).

Definition respond {W} (r : Response) : Handler W unit :=
  fun s => (Next tt, mkHState (world s) (written s ++ [r]) (calls s)).

(** Running a handler on a request from a world. *)
Definition run {W A} (h : Handler W A) (w : W) : Flow A * HState W :=
  h (mkHState w [] []).

Module utils.
(** Modelled from the spec: [utils.ResponseError] and [utils.ResponseSuccess]
    (package [utils] is not among the handlers' sources).  A failure
    response carries a status code, a message and an optional error detail;
    a success response a status code, a message and a data payload. *)
Definition ResponseError {W} (code : Z) (message : string) (err : option error)
  : Handler W unit := respond (ErrorResponse code message err).

Definition ResponseSuccess {W} (code : Z) (message : string) (data : Data)
  : Handler W unit := respond (SuccessResponse code message data).
End utils.

(** [c.JSON(code, gin.H{key: err})]. *)
Definition c_JSON {W} (code : Z) (key : string) (err : option error) : Handler W unit :=
  respond (JSONResponse code key err).

Module fmt.
(** [fmt.Println(msg, err)]. *)
Definition Println {W} (msg : string) : Handler W unit :=
  fun s => (Next tt, mkHState (world s) (written s) (calls s ++ [EvPrintln msg])).

(** [fmt.Sprintf("cart:%s", id.String())]. *)
Definition Sprintf_cart (id : UUID) : string := "cart:" ++ uuid_String id.
End fmt.

Module repository.
Section Repository.
Context {W : Type} `{Backend W}.

Definition GetCartByUserId (userId : UUID) : Handler W (option Cart * option error) :=
  call (EvGetCartByUserId userId) (db_GetCartByUserId userId).
Definition CreateCart (userId : UUID) : Handler W (option error) :=
  call (EvCreateCart userId) (db_CreateCart userId).
Definition GetProductByUUID (productID : UUID) : Handler W (option Product * option error) :=
  call (EvGetProductByUUID productID) (db_GetProductByUUID productID).
Definition GetCartItem (cartID productID : UUID) : Handler W (option CartItems * option error) :=
  call (EvGetCartItem cartID productID) (db_GetCartItem cartID productID).
Definition UpdateCartItem (item : CartItems) : Handler W (option error) :=
  call (EvUpdateCartItem item) (db_UpdateCartItem item).
Definition CreateCartItem (item : CartItems) : Handler W (option error) :=
  call (EvCreateCartItem item) (db_CreateCartItem item).
Definition GetCartItems (cartID : UUID) : Handler W (list CartItems * option error) :=
  call (EvGetCartItems cartID) (db_GetCartItems cartID).
Definition RemoveCartItemFrom (cartID productID : UUID) : Handler W (option error) :=
  call (EvRemoveCartItemFrom cartID productID) (db_RemoveCartItemFrom cartID productID).
End Repository.
End repository.

(** [config.RDB]. *)
Module RDB.
Section Redis.
Context {W : Type} `{Backend W}.

(** [config.RDB.Get(ctx, key).Result()]. *)
Definition Get (key : string) : Handler W (string * option error) :=
  call (EvRedisGet key) (rdb_Get key).
(** [config.RDB.Set(ctx, key, value, expiration).Err()]. *)
Definition Set_ (key value : string) (expiration : Z) : Handler W (option error) :=
  call (EvRedisSet key value expiration) (rdb_Set key value expiration).
(** [config.RDB.Del(ctx, key).Err()]. *)
Definition Del (key : string) : Handler W (option error) :=
  call (EvRedisDel key) (rdb_Del key).
End Redis.
End RDB.

(** [data] built from a [*models.Cart]. *)
Definition data_of_cart (cart : option Cart) : Data :=
  match cart with
  | Some c => DataCart c
  | None => DataNil
  end.

(** ** [package handlers]: the cart handlers *)

Module handlers.
Section Handlers.
Context `{Libs} {W : Type} `{Backend W}.

Definition CreateCart (c : gin.Context) : Handler W unit :=
  let '(val, ok) := gin.Get_userId c in
  when (negb ok)
    (utils.ResponseError http.StatusUnauthorized "Unauthorized" None ;; Return) ;;
  let '(userId, err) := uuid_Parse val in
  when (not_nil err)
    (c_JSON http.StatusBadRequest "invalid userid" err ;; Return) ;;
  '(cart, err) <- repository.GetCartByUserId userId ;;
  (* cart already exists *)
  when (is_nil err && not_nil cart)
    (utils.ResponseSuccess http.StatusOK "Cart already exists" (data_of_cart cart) ;;
     Return) ;;
  (* real DB error (not record not found) *)
  when (not_nil err && negb (errors.Is err gorm_ErrRecordNotFound))
    (utils.ResponseError http.StatusInternalServerError "Failed to fetch cart" None ;;
     Return) ;;
  (* create cart *)
  err <- repository.CreateCart userId ;;
  when (not_nil err)
    (utils.ResponseError http.StatusInternalServerError "Failed to create cart" None ;;
     Return) ;;
  utils.ResponseSuccess http.StatusCreated "Cart created" DataNil.

Definition AddOrUpdateCartItem (c : gin.Context) : Handler W unit :=
  let '(req, err) := gin.ShouldBindJSON c in
  when (not_nil err)
    (utils.ResponseError http.StatusBadRequest "Invalid request body" err ;; Return) ;;
  let '(val, ok) := gin.Get_userId c in
  when (negb ok)
    (utils.ResponseError http.StatusUnauthorized "Unauthorized" None ;; Return) ;;
  let '(userId, err) := uuid_Parse val in
  when (not_nil err)
    (c_JSON http.StatusBadRequest "error" err ;; Return) ;;
  '(cart, err) <- repository.GetCartByUserId userId ;;
  cart <- (if not_nil err then
             if errors.Is err gorm_ErrRecordNotFound then
               err <- repository.CreateCart userId ;;
               when (not_nil err)
                 (utils.ResponseError http.StatusInternalServerError
                    "Failed to create cart" err ;; Return) ;;
               (* fetch newly created cart *)
               '(cart, err) <- repository.GetCartByUserId userId ;;
               when (not_nil err)
                 (utils.ResponseError http.StatusInternalServerError
                    "Failed to fetch cart" err ;; Return) ;;
               ret cart
             else
               (* real internal error *)
               utils.ResponseError http.StatusInternalServerError
                 "Internal server error" None ;; Return
           else ret cart) ;;
  '(product, err) <- repository.GetProductByUUID (req_ProductID req) ;;
  when (not_nil err)
    (utils.ResponseError http.StatusBadRequest "Product does not exist" None ;; Return) ;;
  cartv <- deref cart ;;
  '(cartItem, err) <- repository.GetCartItem (Cart_ID cartv) (req_ProductID req) ;;
  let currentQtyInCart := 0 in
  (if is_nil err then
     (* Update quantity *)
     item <- deref cartItem ;;
     let currentQtyInCart := Quantity item in
     let item := set_Quantity (goint.add (Quantity item) (req_Quantity req)) item in
     productv <- deref product ;;
     when (NumberOfStock productv <? goint.add (req_Quantity req) currentQtyInCart)
       (utils.ResponseError http.StatusBadRequest "Product out of stock" None ;; Return) ;;
     err <- repository.UpdateCartItem item ;;
     when (not_nil err)
       (utils.ResponseError http.StatusInternalServerError
          "Failed to update cart item" err ;; Return)
   else if errors.Is err gorm_ErrRecordNotFound then
     (* Add new cart item *)
     productv <- deref product ;;
     when (goint.add currentQtyInCart (req_Quantity req) >? NumberOfStock productv)
       (utils.ResponseError http.StatusBadRequest "Product out of stock" None ;; Return) ;;
     err <- repository.CreateCartItem
              (mkCartItems uuid.Nil (Cart_ID cartv) (req_ProductID req)
                 (req_Quantity req) None) ;;
     when (not_nil err)
       (utils.ResponseError http.StatusInternalServerError
          "Failed to add cart item" err ;; Return)
   else
     utils.ResponseError http.StatusInternalServerError
       "Failed to fetch cart item" err ;; Return) ;;
  let cacheKey := fmt.Sprintf_cart (Cart_ID cartv) in
  (* It's okay if this fails (Redis might be down), so just log it. *)
  err <- RDB.Del cacheKey ;;
  when (not_nil err) (fmt.Println "Failed to clear cache:").

Definition GetAllCartItems (c : gin.Context) : Handler W unit :=
  let '(val, ok) := gin.Get_userId c in
  when (negb ok)
    (utils.ResponseError http.StatusUnauthorized "Unauthorized" None ;; Return) ;;
  let '(userId, err) := uuid_Parse val in
  when (not_nil err)
    (c_JSON http.StatusBadRequest "error" err ;; Return) ;;
  '(cart, err) <- repository.GetCartByUserId userId ;;
  when (not_nil err)
    (if errors.Is err gorm_ErrRecordNotFound then
       utils.ResponseError http.StatusInternalServerError "Cart does not exist" err ;;
       Return
     else
       utils.ResponseError http.StatusInternalServerError "Failed to fetch cart" err) ;;
  cartv <- deref cart ;;
  let cacheKey := fmt.Sprintf_cart (Cart_ID cartv) in
  '(cachedData, err) <- RDB.Get cacheKey ;;
  if bool_decide (err = Some redis_Nil) then
    '(cartItems, err) <- repository.GetCartItems (Cart_ID cartv) ;;
    when (not_nil err)
      (utils.ResponseError http.StatusUnauthorized "Failed to fetch" err ;; Return) ;;
    (* Serialize data to JSON to store in Redis *)
    let jsonData := json_Marshal cartItems in
    err <- RDB.Set_ cacheKey jsonData (24 * time.Hour) ;;
    when (not_nil err) (fmt.Println "Failed to set cache:") ;;
    utils.ResponseSuccess http.StatusOK "data fetch successfully"
      (DataCartItems cartItems) ;;
    Return
  else if not_nil err then
    fmt.Println "Redis Error:" ;;
    '(cartItems, err) <- repository.GetCartItems (Cart_ID cartv) ;; (* Fallback *)
    when (not_nil err)
      (utils.ResponseError http.StatusUnauthorized "Failed to fetch" err ;; Return) ;;
    utils.ResponseSuccess http.StatusOK "data fetched from DB (Redis down)"
      (DataCartItems cartItems) ;;
    Return
  else
    let '(cartItems, err) := json_Unmarshal cachedData in
    when (not_nil err)
      (utils.ResponseError http.StatusInternalServerError "Failed to parse cache" err ;;
       Return) ;;
    utils.ResponseSuccess http.StatusOK "data fetched from Redis"
      (DataCartItems cartItems).

Definition GetCart (c : gin.Context) : Handler W unit := ret tt.

Definition DeleteCart (c : gin.Context) : Handler W unit := ret tt.

Definition RemoveCartItemFromCart (c : gin.Context) : Handler W unit :=
  let '(val, ok) := gin.Get_userId c in
  when (negb ok)
    (utils.ResponseError http.StatusUnauthorized "Unauthorized" None ;; Return) ;;
  let '(userId, err) := uuid_Parse val in
  when (not_nil err)
    (c_JSON http.StatusBadRequest "error" err ;; Return) ;;
  '(cart, err) <- repository.GetCartByUserId userId ;;
  when (not_nil err)
    (utils.ResponseError http.StatusInternalServerError "Failed to fetch cart" err ;;
     Return) ;;
  let productIDStr := gin.Param_product_id c in
  let '(productID, err) := uuid_Parse productIDStr in
  when (not_nil err)
    (utils.ResponseError http.StatusBadRequest "Invalid product ID" err ;; Return) ;;
  cartv <- deref cart ;;
  err <- repository.RemoveCartItemFrom (Cart_ID cartv) productID ;;
  when (not_nil err)
    (utils.ResponseError http.StatusInternalServerError
       "Failed to remove cart item" err ;; Return) ;;
  let cacheKey := fmt.Sprintf_cart userId in
  (* We ignore errors here because if the key doesn't exist, it's fine. *)
  RDB.Del cacheKey ;;
  ret tt.

End Handlers.
End handlers.

(** The request carries the identity of [userId]: the middleware stored a
    value under ["userId"] and [uuid.Parse] accepts it. *)
Definition authenticated_as `{Libs} (c : gin.Context) (userId : UUID) : Prop :=
  exists val, gin.keys_userId c = Some val /\ uuid_Parse val = (userId, None).

(** ** An in-memory backend *)

Module MemStore.

(** The operations of the backend, to describe an outage. *)
Inductive Op : Type :=
| OpGetCartByUserId | OpCreateCart | OpGetProductByUUID | OpGetCartItem
| OpUpdateCartItem | OpCreateCartItem | OpGetCartItems | OpRemoveCartItemFrom
| OpRedisGet | OpRedisSet | OpRedisDel.

#[global] Instance Op_eq_dec : EqDecision Op.
Proof. solve_decision. Defined.

(** Modelled from the spec: the Cart Store, the Stock Ledger and the Cart
    Cache behind [package repository] and [config.RDB], which are not among
    the handlers' sources.  The tables hold the rows of [models]; a row
    whose [DeletedAt] is set is soft-deleted and no longer live.  A cache
    entry holds its payload and the time it expires.  [failing] lists the
    operations that currently fail (store or cache unreachable), [now] is
    the current time, and [gen_random_uuid] at [rng] is the next value of
    the database default [gen_random_uuid()]. *)
Record World : Type := mkWorld {
  carts : list Cart;
  cart_items : list CartItems;
  products : list Product;
  redis : gmap string (string * Z);
  failing : list Op;
  now : Z;
  rng : nat;
  gen_random_uuid : nat -> UUID
}.

Definition set_carts (l : list Cart) (w : World) : World :=
  mkWorld l (cart_items w) (products w) (redis w) (failing w) (now w) (rng w)
    (gen_random_uuid w).

Definition set_cart_items (l : list CartItems) (w : World) : World :=
  mkWorld (carts w) l (products w) (redis w) (failing w) (now w) (rng w)
    (gen_random_uuid w).

Definition set_redis (m : gmap string (string * Z)) (w : World) : World :=
  mkWorld (carts w) (cart_items w) (products w) m (failing w) (now w) (rng w)
    (gen_random_uuid w).

Definition set_failing (ops : list Op) (w : World) : World :=
  mkWorld (carts w) (cart_items w) (products w) (redis w) ops (now w) (rng w)
    (gen_random_uuid w).

Definition tick (w : World) : World :=
  mkWorld (carts w) (cart_items w) (products w) (redis w) (failing w) (now w)
    (S (rng w)) (gen_random_uuid w).

Definition is_down (op : Op) (w : World) : bool := bool_decide (op ∈ failing w).

(** Only the cache may be unreachable. *)
Definition store_reachable (w : World) : Prop :=
  forall op, In op (failing w) -> In op [OpRedisGet; OpRedisSet; OpRedisDel].

Definition unreachable : error := errors_New "connection refused".

Definition duplicate_key : error :=
  errors_New "duplicate key value violates unique constraint".

Definition live_cart (c : Cart) : bool := is_nil (Cart_DeletedAt c).

Definition live_item (it : CartItems) : bool := is_nil (DeletedAt it).

Definition cart_of_user (userId : UUID) (c : Cart) : bool :=
  live_cart c && bool_decide (Cart_UserID c = userId).

Definition item_of (cartID productID : UUID) (it : CartItems) : bool :=
  live_item it && bool_decide (CartID it = cartID) && bool_decide (ProductID it = productID).

Definition is_product (productID : UUID) (p : Product) : bool :=
  bool_decide (Product_ID p = productID).

(** The live carts of a user and the live rows of a (cart, product) pair. *)
Definition live_carts_of (userId : UUID) (w : World) : list Cart :=
  List.filter (cart_of_user userId) (carts w).

Definition live_items_of (cartID productID : UUID) (w : World) : list CartItems :=
  List.filter (item_of cartID productID) (cart_items w).

(** Modelled from the spec: [getCartByUser(userId) -> Cart | notFound]. *)
Definition GetCartByUserId (userId : UUID) (w : World)
  : (option Cart * option error) * World :=
  if is_down OpGetCartByUserId w then ((None, Some unreachable), w)
  else match List.find (cart_of_user userId) (carts w) with
       | Some c => ((Some c, None), w)
       | None => ((None, Some gorm_ErrRecordNotFound), w)
       end.

(** Modelled from the spec: [createCart(userId) -> ()]; the row gets the
    database default for its key, and the primary key and the unique
    constraint on the owning user (the [gorm] tags of [models.Cart]) are
    enforced. *)
Definition CreateCart (userId : UUID) (w : World) : option error * World :=
  if is_down OpCreateCart w then (Some unreachable, w)
  else
    let id := gen_random_uuid w (rng w) in
    let w' := tick w in
    if existsb (fun c => bool_decide (Cart_ID c = id)) (carts w) then
      (Some duplicate_key, w')
    else if existsb (fun c => bool_decide (Cart_UserID c = userId)) (carts w) then
      (Some duplicate_key, w')
    else (None, set_carts (carts w ++ [mkCart id userId None]) w').

(** Modelled from the spec: [getProduct(productId) -> (availableStock, found)]. *)
Definition GetProductByUUID (productID : UUID) (w : World)
  : (option Product * option error) * World :=
  if is_down OpGetProductByUUID w then ((None, Some unreachable), w)
  else match List.find (is_product productID) (products w) with
       | Some p => ((Some p, None), w)
       | None => ((None, Some gorm_ErrRecordNotFound), w)
       end.

(** Modelled from the spec: [getItem(cartId, productId) -> CartItem | notFound]. *)
Definition GetCartItem (cartID productID : UUID) (w : World)
  : (option CartItems * option error) * World :=
  if is_down OpGetCartItem w then ((None, Some unreachable), w)
  else match List.find (item_of cartID productID) (cart_items w) with
       | Some it => ((Some it, None), w)
       | None => ((None, Some gorm_ErrRecordNotFound), w)
       end.

(** Modelled from the spec: [updateItem(item) -> ()]: the row with the
    item's primary key is replaced by the item. *)
Definition UpdateCartItem (item : CartItems) (w : World) : option error * World :=
  if is_down OpUpdateCartItem w then (Some unreachable, w)
  else
    (None,
     set_cart_items
       (List.map (fun r => if bool_decide (ID r = ID item) then item else r) (cart_items w))
       w).

(** Modelled from the spec: [createItem(item) -> ()]: a zero key is replaced
    by the database default, and the primary key is enforced. *)
Definition CreateCartItem (item : CartItems) (w : World) : option error * World :=
  if is_down OpCreateCartItem w then (Some unreachable, w)
  else
    let id := if bool_decide (ID item = uuid.Nil) then gen_random_uuid w (rng w)
              else ID item in
    let w' := tick w in
    if existsb (fun r => bool_decide (ID r = id)) (cart_items w) then
      (Some duplicate_key, w')
    else
      (None,
       set_cart_items
         (cart_items w ++
            [mkCartItems id (CartID item) (ProductID item) (Quantity item) (DeletedAt item)])
         w').

(** Modelled from the spec: [listItems(cartId) -> [CartItem]]. *)
Definition GetCartItems (cartID : UUID) (w : World)
  : (list CartItems * option error) * World :=
  if is_down OpGetCartItems w then (([], Some unreachable), w)
  else
    ((List.filter (fun it => live_item it && bool_decide (CartID it = cartID)) (cart_items w),
      None), w).

(** Modelled from the spec: [deleteItem(cartId, productId) -> ()]: the live
    rows of the pair are soft-deleted; deleting no row is not an error. *)
Definition RemoveCartItemFrom (cartID productID : UUID) (w : World)
  : option error * World :=
  if is_down OpRemoveCartItemFrom w then (Some unreachable, w)
  else
    (None,
     set_cart_items
       (List.map
          (fun r =>
             if item_of cartID productID r then
               mkCartItems (ID r) (CartID r) (ProductID r) (Quantity r) (Some (now w))
             else r)
          (cart_items w))
       w).

(** Modelled from the spec: [get(key) -> payload | miss | error]; an entry
    past its expiration is a miss. *)
Definition RedisGet (key : string) (w : World) : (string * option error) * World :=
  if is_down OpRedisGet w then (("", Some unreachable), w)
  else match redis w !! key with
       | Some (payload, expires) =>
           if now w <? expires then ((payload, None), w)
           else (("", Some redis_Nil), w)
       | None => (("", Some redis_Nil), w)
       end.

(** Modelled from the spec: [set(key, payload, ttl) -> ok | error]. *)
Definition RedisSet (key value : string) (expiration : Z) (w : World)
  : option error * World :=
  if is_down OpRedisSet w then (Some unreachable, w)
  else (None, set_redis (<[key := (value, now w + expiration)]> (redis w)) w).

(** Modelled from the spec: [delete(key) -> ok | error]. *)
Definition RedisDel (key : string) (w : World) : option error * World :=
  if is_down OpRedisDel w then (Some unreachable, w)
  else (None, set_redis (delete key (redis w)) w).

#[global] Instance backend : Backend World := {
  db_GetCartByUserId := GetCartByUserId;
  db_CreateCart := CreateCart;
  db_GetProductByUUID := GetProductByUUID;
  db_GetCartItem := GetCartItem;
  db_UpdateCartItem := UpdateCartItem;
  db_CreateCartItem := CreateCartItem;
  db_GetCartItems := GetCartItems;
  db_RemoveCartItemFrom := RemoveCartItemFrom;
  rdb_Get := RedisGet;
  rdb_Set := RedisSet;
  rdb_Del := RedisDel
}.

(** The cached payload of a key that a read would be served. *)
Definition cached (key : string) (w : World) : option string :=
  match redis w !! key with
  | Some (payload, expires) => if now w <? expires then Some payload else None
  | None => None
  end.

End MemStore.

(** ** A concrete instance of the libraries, to run the handlers on examples *)

Module Fixture.

Local Open Scope nat_scope.

Definition is_hex (a : ascii) : bool :=
  let n := nat_of_ascii a in
  ((48 <=? n) && (n <=? 57)) || ((97 <=? n) && (n <=? 102)).

(** The canonical form [xxxxxxxx-xxxx-xxxx-xxxx-xxxxxxxxxxxx] in lower case
    (one of the forms [uuid.Parse] accepts). *)
Fixpoint canonical_from (i : nat) (s : string) : bool :=
  match s with
  | EmptyString => i =? 36
  | String a s' =>
      (if (i =? 8) || (i =? 13) || (i =? 18) || (i =? 23)
       then bool_decide (a = "-"%char) else is_hex a)
      && canonical_from (S i) s'
  end.

Definition Parse (s : string) : UUID * option error :=
  if canonical_from 0 s then (mkUUID s, None)
  else (uuid.Nil, Some (errors_New "invalid UUID format")).

(** The pieces of [s] between occurrences of [sep]. *)
Fixpoint fields (sep : ascii) (s : string) : list string :=
  match s with
  | EmptyString => [EmptyString]
  | String a s' =>
      let r := fields sep s' in
      if bool_decide (a = sep) then EmptyString :: r
      else match r with
           | f :: fs => String a f :: fs
           | [] => [String a EmptyString]
           end
  end.

Fixpoint digits (s : string) (acc : N) : option N :=
  match s with
  | EmptyString => Some acc
  | String a s' =>
      let n := N_of_ascii a in
      if ((48 <=? n) && (n <=? 57))%N then digits s' (10 * acc + (n - 48))%N
      else None
  end.

Definition parse_Z (s : string) : option Z :=
  match s with
  | EmptyString => None
  | String "-" (String a s' as t) => Z.opp <$> (Z.of_N <$> digits t 0%N)
  | String "-" EmptyString => None
  | _ => Z.of_N <$> digits s 0%N
  end.

Definition encode_time (t : option Z) : string :=
  match t with
  | None => "null"
  | Some z => pretty z
  end.

Definition parse_time (s : string) : option (option Z) :=
  if bool_decide (s = "null") then Some None else Some <$> parse_Z s.

(** A row as [ID,CartID,ProductID,Quantity,DeletedAt;]. *)
Definition encode_item (it : CartItems) : string :=
  uuid_String (ID it) ++ "," ++ uuid_String (CartID it) ++ "," ++
  uuid_String (ProductID it) ++ "," ++ pretty (Quantity it) ++ "," ++
  encode_time (DeletedAt it) ++ ";".

Definition decode_item (s : string) : option CartItems :=
  match fields ","%char s with
  | [i; c; p; q; d] =>
      q' ← parse_Z q; d' ← parse_time d;
      Some (mkCartItems (mkUUID i) (mkUUID c) (mkUUID p) q' d')
  | _ => None
  end.

Fixpoint decode_items (rows : list string) : option (list CartItems) :=
  match rows with
  | [] => None
  | [last] => if bool_decide (last = EmptyString) then Some [] else None
  | r :: rest =>
      it ← decode_item r; its ← decode_items rest; Some (it :: its)
  end.

Definition Marshal (items : list CartItems) : string :=
  String.concat "" (List.map encode_item items).

Definition Unmarshal (s : string) : list CartItems * option error :=
  match decode_items (fields ";"%char s) with
  | Some items => (items, None)
  | None => ([], Some (errors_New "invalid character looking for beginning of value"))
  end.

(** A stand-in for [google/uuid] and [encoding/json]: a row-oriented text
    codec with [Unmarshal (Marshal items) = items] on the rows used below. *)
#[global] Instance libs : Libs := {
  uuid_Parse := Parse;
  json_Marshal := Marshal;
  json_Unmarshal := Unmarshal
}.

End Fixture.

(** ** A scenario: one user, one cart, one product in stock *)

Module Scenario.

Definition U : UUID := mkUUID "11111111-1111-4111-8111-111111111111".
Definition C : UUID := mkUUID "22222222-2222-4222-8222-222222222222".
Definition P : UUID := mkUUID "33333333-3333-4333-8333-333333333333".
Definition R : UUID := mkUUID "44444444-4444-4444-8444-444444444444".

(** The values the database default will produce. *)
Definition gen (n : nat) : UUID :=
  match n with
  | O => mkUUID "a0000000-0000-4000-8000-000000000000"
  | S O => mkUUID "a0000000-0000-4000-8000-000000000001"
  | S (S O) => mkUUID "a0000000-0000-4000-8000-000000000002"
  | _ => mkUUID "a0000000-0000-4000-8000-000000000003"
  end.

Definition cart : Cart := mkCart C U None.
Definition product : Product := mkProduct P 5.
Definition item : CartItems := mkCartItems R C P 3 None.

(** A user who is registered and has nothing yet. *)
Definition w_fresh : MemStore.World :=
  MemStore.mkWorld [] [] [product] ∅ [] 1000 0 gen.

(** The user has a cart holding three units of the product; stock is five. *)
Definition w_cart : MemStore.World :=
  MemStore.mkWorld [cart] [item] [product] ∅ [] 1000 0 gen.

(** The same, with the items of the cart cached. *)
Definition w_cached : MemStore.World :=
  MemStore.mkWorld [cart] [item] [product]
    {[ fmt.Sprintf_cart C := (json_Marshal [item], 1000 + 24 * time.Hour) ]}
    [] 1000 0 gen.

(** The cache holds a payload that is not an encoding of cart items. *)
Definition w_corrupt : MemStore.World :=
  MemStore.mkWorld [cart] [item] [product]
    {[ fmt.Sprintf_cart C := ("<html>502 Bad Gateway</html>", 1000 + 24 * time.Hour) ]}
    [] 1000 0 gen.

(** The user has a cart with nothing in it. *)
Definition w_empty_cart : MemStore.World :=
  MemStore.mkWorld [cart] [] [product] ∅ [] 1000 0 gen.

(** Outages: the cart lookup, the product lookup, the loading of items, and
    the cache. *)
Definition w_lookup_down : MemStore.World :=
  MemStore.set_failing [MemStore.OpGetCartByUserId] w_cart.

Definition w_products_down : MemStore.World :=
  MemStore.set_failing [MemStore.OpGetProductByUUID] w_cart.

Definition w_items_down : MemStore.World :=
  MemStore.set_failing [MemStore.OpGetCartItems] w_cart.

Definition w_redis_down : MemStore.World :=
  MemStore.set_failing [MemStore.OpRedisGet; MemStore.OpRedisSet; MemStore.OpRedisDel]
    w_cart.

(** A request of the user [U]. *)
Definition request (b : option AddCartItemRequest) (product_id : string) : gin.Context :=
  gin.mkContext (Some (uuid_String U)) b product_id.

Definition add (q : Z) : gin.Context :=
  request (Some (mkAddCartItemRequest P q)) "".

Definition list_items : gin.Context := request None "".

Definition remove : gin.Context := request None (uuid_String P).

End Scenario.


(** ** Observations on a run *)

(** The status code of a response. *)
Definition response_code (r : Response) : Z :=
  match r with
  | ErrorResponse code _ _ => code
  | SuccessResponse code _ _ => code
  | JSONResponse code _ _ => code
  end.

(** Calls to the Redis client. *)
Definition is_cache_call (e : Event) : bool :=
  match e with
  | EvRedisGet _ | EvRedisSet _ _ _ | EvRedisDel _ => true
  | _ => false
  end.

Definition is_cache_del (e : Event) : bool :=
  match e with EvRedisDel _ => true | _ => false end.

(** Calls that write a cart-item row. *)
Definition is_item_write (e : Event) : bool :=
  match e with
  | EvUpdateCartItem _ | EvCreateCartItem _ => true
  | _ => false
  end.

Definition is_cart_create (e : Event) : bool :=
  match e with EvCreateCart _ => true | _ => false end.

(** ** More requests and worlds *)

Module Cases.

Import Scenario.

(** A request that did not pass the authentication middleware. *)
Definition anonymous (b : option AddCartItemRequest) : gin.Context :=
  gin.mkContext None b (uuid_String P).

(** A request whose stored identity is not a UUID. *)
Definition forged (b : option AddCartItemRequest) : gin.Context :=
  gin.mkContext (Some "admin") b (uuid_String P).

(** A request of [U] to remove something that is not a product id. *)
Definition remove_garbage : gin.Context := request None "everything".

(** A second product, in stock, that no cart holds. *)
Definition Q : UUID := mkUUID "55555555-5555-4555-8555-555555555555".

Definition product2 : Product := mkProduct Q 7.

Definition w_two_products : MemStore.World :=
  MemStore.mkWorld [cart] [item] [product; product2] ∅ [] 1000 0 gen.

Definition remove_Q : gin.Context := request None (uuid_String Q).

(** The user has no cart; the next database keys are unused. *)
Definition w_no_cart : MemStore.World :=
  MemStore.mkWorld [] [] [product] ∅ [] 1000 0 gen.

(** Outages of single operations. *)
Definition w_create_down : MemStore.World :=
  MemStore.set_failing [MemStore.OpCreateCart] w_no_cart.

Definition w_item_lookup_down : MemStore.World :=
  MemStore.set_failing [MemStore.OpGetCartItem] w_cart.

Definition w_set_down : MemStore.World :=
  MemStore.set_failing [MemStore.OpRedisSet] w_cart.

Definition w_del_down : MemStore.World :=
  MemStore.set_failing [MemStore.OpRedisDel] w_cached.

End Cases.

(** The status code of a response is one of [codes]. *)
Definition has_code (codes : list Z) (r : Response) : bool :=
  existsb (Z.eqb (response_code r)) codes.

(** The status code the client receives for a run.  [main] serves the
    handlers with [gin.Default()]: the reply starts at 200; the first
    response written fixes the status, and a later write only adds a body;
    a handler that ends without writing is answered with the 200 the reply
    started with; a panic raised before anything was written is answered
    500 by the recovery middleware. *)
Definition reply_status {W A : Type} (r : Flow A * HState W) : Z :=
  match written (snd r) with
  | first :: _ => response_code first
  | [] =>
      match fst r with
      | Panicked _ => http.StatusInternalServerError
      | _ => http.StatusOK
      end
  end.

(** A run that completes without writing a response. *)
Definition silent {W : Type} (r : Flow unit * HState W) : Prop :=
  fst r = Next tt /\ written (snd r) = [].

(** The items a read of the in-memory store returns for a cart. *)
Definition stored_items (cartID : UUID) (w : MemStore.World) : list CartItems :=
  List.filter
    (fun it => MemStore.live_item it && bool_decide (CartID it = cartID))
    (MemStore.cart_items w).

(** ** [package handlers]: the user handlers

    The user handlers read other parts of the request and call other
    functions of [repository] and [utils]; as for the cart handlers, those
    functions are an interface, and a handler is a function from the world
    to how it ended, the world it left, what it wrote and what it called. *)

Module users.

(** [http.StatusNotFound] and [http.StatusConflict]. *)
Definition StatusNotFound : Z := 404.
Definition StatusConflict : Z := 409.

(** [models.User]; the timestamps and the preloaded orders are left out. *)
Record User : Type := mkUser {
  User_ID : UUID;
  User_Fullname : string;
  User_Username : string;
  User_Email : string;
  User_Password : string
}.

(** [RegisterRequest] and [LoginRequest]. *)
Record RegisterRequest : Type := mkRegisterRequest {
  reg_Fullname : string;
  reg_Username : string;
  reg_Email : string;
  reg_Password : string
}.

Record LoginRequest : Type := mkLoginRequest {
  login_Email : string;
  login_Password : string
}.

(** [helper.UserFilterParams], with the fields the handler sets. *)
Record UserFilterParams : Type := mkUserFilterParams {
  ProductName : string;
  FullName : string;
  Page : Z;
  Limit : Z
}.

(** [utils.JWTClaims]: [ExpiresAt] and [IssuedAt] hold the times handed to
    [jwt.NewNumericDate], in nanoseconds. *)
Record JWTClaims : Type := mkJWTClaims {
  claims_UserID : string;
  claims_Roles : list string;
  claims_ExpiresAt : Z;
  claims_IssuedAt : Z;
  claims_Issuer : string
}.

(** What the user handlers read from their [*gin.Context]. *)
Record Context : Type := mkContext {
  (** the outcome of [c.ShouldBindJSON(&req)] for a [RegisterRequest] *)
  bind_register : RegisterRequest * option error;
  (** the outcome of [c.ShouldBindJSON(&req)] for a [LoginRequest] *)
  bind_login : LoginRequest * option error;
  (** the path parameter [id] *)
  param_id : string;
  (** the pairs of the query string, in order *)
  query : list (string * string)
}.

(** [c.GetQuery(key)]: the first value of the key. *)
Definition GetQuery (c : Context) (key : string) : string * bool :=
  match List.find (fun kv => bool_decide (fst kv = key)) (query c) with
  | Some kv => (snd kv, true)
  | None => ("", false)
  end.

(** [c.Query(key)]. *)
Definition Query (c : Context) (key : string) : string := fst (GetQuery c key).

(** [c.DefaultQuery(key, defaultValue)]. *)
Definition DefaultQuery (c : Context) (key defaultValue : string) : string :=
  let '(value, ok) := GetQuery c key in
  if ok then value else defaultValue.

(** [err.Error()]. *)
Definition Error (e : error) : string :=
  match e with
  | gorm_ErrRecordNotFound => "record not found"
  | redis_Nil => "redis: nil"
  | errors_New msg => msg
  end.

(** The [data] of a success response. *)
Inductive Data : Type :=
| ToUserResponse (user : option User) (* [utils.ToUserResponse(user)] *)
| TheUser (user : option User) (* the [models.User] itself *)
| TheUsers (users : list User)
| WithToken (userResponse : Data) (token : string) (* [gin.H{"data": .., "token": ..}] *)
| WithMeta (users : list User) (page limit total : Z). (* [gin.H{"users": .., "meta": ..}] *)

(** A value of a [gin.H]. *)
Inductive Field : Type :=
| FString (s : string)
| FError (e : option error).

Inductive Reply : Type :=
| ResponseError (code : Z) (message : string) (detail : option string)
| ResponseSuccess (code : Z) (message : string) (data : Data)
| JSON (code : Z) (h : list (string * Field)).

Definition reply_code (r : Reply) : Z :=
  match r with
  | ResponseError code _ _ => code
  | ResponseSuccess code _ _ => code
  | JSON code _ => code
  end.

Inductive Call : Type :=
| CallHashPassword (password : string)
| CallRegister (user : User)
| CallGetUserByEmail (email : string)
| CallGetAllUsers
| CallGetUserByUUID (id : UUID)
| CallFilterAndSearchUsers (params : UserFilterParams)
| CallCreateToken (claims : JWTClaims).

Definition is_token_call (e : Call) : bool :=
  match e with CallCreateToken _ => true | _ => false end.

Definition is_register_call (e : Call) : bool :=
  match e with CallRegister _ => true | _ => false end.

(** The functions of [repository], [utils], [strconv] and [time] the user
    handlers call.  [HashPassword] salts, and [time.Now] reads the clock:
    both depend on the world. *)
Class Backend (W : Type) : Type := {
  db_Register : User -> W -> (option User * option error) * W;
  db_GetUserByEmail : string -> W -> (option User * option error) * W;
  db_GetAllUsers : W -> (list User * option error) * W;
  db_GetUserByUUID : UUID -> W -> (option User * option error) * W;
  db_FilterAndSearchUsers : UserFilterParams -> W -> (list User * Z * option error) * W;
  utils_HashPassword : string -> W -> (string * option error) * W;
  utils_CheckPassword : string -> string -> bool;
  utils_CreateToken : JWTClaims -> string * option error;
  utils_ParsePostgresError : error -> string * bool;
  strconv_Atoi : string -> Z * option error;
  time_Now : W -> Z * W
}.

Record Outcome (W : Type) : Type := mkOutcome {
  flow : Flow unit;
  left : W;
  replies : list Reply;
  called : list Call
}.
Arguments mkOutcome {W} _ _ _ _.
Arguments flow {W} _.
Arguments left {W} _.
Arguments replies {W} _.
Arguments called {W} _.

Definition nil_dereference : string :=
  "runtime error: invalid memory address or nil pointer dereference".

Section Handlers.
Context `{Libs} {W : Type} `{Backend W}.

Definition Register (c : Context) (w : W) : Outcome W :=
  let '(req, err) := bind_register c in
  match err with
  | Some e =>
      mkOutcome Returned w
        [ResponseError http.StatusBadRequest "Validation failed" (Some (Error e))] []
  | None =>
      (* Business logic *)
      let '((hashedPassword, err), w1) := utils_HashPassword (reg_Password req) w in
      if not_nil err then
        mkOutcome Returned w1 [JSON 500 [("error", FString "failed to hash password")]]
          [CallHashPassword (reg_Password req)]
      else
        let user :=
          mkUser uuid.Nil (reg_Fullname req) (reg_Username req) (reg_Email req)
            hashedPassword in
        let '((userData, err), w2) := db_Register user w1 in
        let log := [CallHashPassword (reg_Password req); CallRegister user] in
        match err with
        | Some e =>
            let '(msg, ok) := utils_ParsePostgresError e in
            if ok then
              mkOutcome Returned w2 [ResponseError StatusConflict msg None] log
            else
              mkOutcome Returned w2
                [ResponseError http.StatusInternalServerError "Something went wrong"
                   (Some (Error e))] log
        | None =>
            mkOutcome (Next tt) w2
              [ResponseSuccess http.StatusOK "user registered successfully"
                 (ToUserResponse userData)] log
        end
  end.

Definition Login (c : Context) (w : W) : Outcome W :=
  let '(req, err) := bind_login c in
  match err with
  | Some e =>
      mkOutcome Returned w
        [ResponseError http.StatusBadRequest "Validation failed" (Some (Error e))] []
  | None =>
      let '((user, err), w1) := db_GetUserByEmail (login_Email req) w in
      let log := [CallGetUserByEmail (login_Email req)] in
      if not_nil err then
        mkOutcome Returned w1
          [ResponseError http.StatusBadRequest "Invalid Credential" None] log
      else
        match user with
        | None => mkOutcome (Panicked nil_dereference) w1 [] log
        | Some userv =>
            if negb (utils_CheckPassword (login_Password req) (User_Password userv)) then
              mkOutcome Returned w1
                [ResponseError http.StatusUnauthorized "Invalid Credential" None] log
            else
              let '(now1, w2) := time_Now w1 in
              let '(now2, w3) := time_Now w2 in
              let claims :=
                mkJWTClaims (uuid_String (User_ID userv)) ["user"; "admin"]
                  (now1 + 24 * time.Hour) now2 "e-commerce-app" in
              let '(token, err) := utils_CreateToken claims in
              let log := (log ++ [CallCreateToken claims])%list in
              if not_nil err then
                mkOutcome Returned w3
                  [ResponseError http.StatusInternalServerError "could not create token"
                     None] log
              else
                mkOutcome (Next tt) w3
                  [ResponseSuccess http.StatusOK "loggedin successfully"
                     (WithToken (ToUserResponse user) token)] log
        end
  end.

Definition GetAllUsers (c : Context) (w : W) : Outcome W :=
  let '((users, err), w1) := db_GetAllUsers w in
  if not_nil err then
    mkOutcome Returned w1
      [ResponseError http.StatusInternalServerError "Something went wrong" None]
      [CallGetAllUsers]
  else
    mkOutcome (Next tt) w1
      [ResponseSuccess http.StatusOK "data fetched successfully" (TheUsers users)]
      [CallGetAllUsers].

Definition GetUser (c : Context) (w : W) : Outcome W :=
  let id := param_id c in
  let '(userID, err) := uuid_Parse id in
  if not_nil err then
    mkOutcome Returned w [JSON http.StatusBadRequest [("error", FError err)]] []
  else
    let '((user, err), w1) := db_GetUserByUUID userID w in
    if not_nil err then
      mkOutcome Returned w1
        [JSON StatusNotFound [("error", FError err); ("status", FString "Failure");
                   ("message", FString "Something went wrong")]]
        [CallGetUserByUUID userID]
    else
      mkOutcome (Next tt) w1
        [ResponseSuccess http.StatusOK "data fetched successfully" (ToUserResponse user)]
        [CallGetUserByUUID userID].

Definition GetUserByEmail (c : Context) (w : W) : Outcome W :=
  let email := Query c "email" in
  let '((user, err), w1) := db_GetUserByEmail email w in
  if not_nil err then
    mkOutcome Returned w1
      [JSON StatusNotFound [("error", FError err); ("status", FString "Failure");
                 ("message", FString "Something went wrong")]]
      [CallGetUserByEmail email]
  else
    mkOutcome (Next tt) w1
      [ResponseSuccess http.StatusOK "data fetched successfully" (TheUser user)]
      [CallGetUserByEmail email].

Definition GetFilterAndSearchUsers (c : Context) (w : W) : Outcome W :=
  (* 1. Parse and set defaults for pagination *)
  let '(page, _) := strconv_Atoi (DefaultQuery c "page" "1") in
  let page := if page <? 1 then 1 else page in
  let '(limit, _) := strconv_Atoi (DefaultQuery c "limit" "10") in
  let limit := if limit <? 1 then 10 else limit in
  (* 2. Create the params object *)
  let params :=
    mkUserFilterParams (Query c "productName") (Query c "fullname") page limit in
  let '((users, total, err), w1) := db_FilterAndSearchUsers params w in
  if not_nil err then
    mkOutcome Returned w1
      [ResponseError http.StatusInternalServerError "Something went wrong" None]
      [CallFilterAndSearchUsers params]
  else
    (* 3. Return response with metadata *)
    mkOutcome (Next tt) w1
      [ResponseSuccess http.StatusOK "data fetched successfully"
         (WithMeta users page limit total)]
      [CallFilterAndSearchUsers params].

End Handlers.

End users.

(** ** A concrete instance of the user backend, to run the user handlers *)

Module UserFixture.

Import users.

(** The users table and the clock. *)
Record World : Type := mkWorld {
  table : list User;
  clock : Z;
  store_down : bool
}.

Definition taken (u : User) (w : World) : bool :=
  existsb
    (fun r => bool_decide (User_Email r = User_Email u) ||
              bool_decide (User_Username r = User_Username u))
    (table w).

Definition new_id : UUID := mkUUID "b0000000-0000-4000-8000-000000000000".

Definition duplicate : error := errors_New "duplicate key value violates unique constraint".

Definition Register (u : User) (w : World) : (option User * option error) * World :=
  if store_down w then ((None, Some (errors_New "connection refused")), w)
  else if taken u w then ((None, Some duplicate), w)
  else
    let stored :=
      mkUser new_id (User_Fullname u) (User_Username u) (User_Email u) (User_Password u) in
    ((Some stored, None), mkWorld (table w ++ [stored]) (clock w) (store_down w)).

Definition GetUserByEmail (email : string) (w : World)
  : (option User * option error) * World :=
  if store_down w then ((None, Some (errors_New "connection refused")), w)
  else match List.find (fun r => bool_decide (User_Email r = email)) (table w) with
       | Some u => ((Some u, None), w)
       | None => ((None, Some gorm_ErrRecordNotFound), w)
       end.

Definition GetUserByUUID (id : UUID) (w : World) : (option User * option error) * World :=
  if store_down w then ((None, Some (errors_New "connection refused")), w)
  else match List.find (fun r => bool_decide (User_ID r = id)) (table w) with
       | Some u => ((Some u, None), w)
       | None => ((None, Some gorm_ErrRecordNotFound), w)
       end.

Definition GetAllUsers (w : World) : (list User * option error) * World :=
  if store_down w then (([], Some (errors_New "connection refused")), w)
  else ((table w, None), w).

(** One page of the table; the filters are not applied. *)
Definition FilterAndSearchUsers (p : UserFilterParams) (w : World)
  : (list User * Z * option error) * World :=
  if store_down w then (([], 0, Some (errors_New "connection refused")), w)
  else
    ((firstn (Z.to_nat (Limit p)) (skipn (Z.to_nat ((Page p - 1) * Limit p)) (table w)),
      Z.of_nat (length (table w)), None), w).

(** A stand-in for bcrypt. *)
Definition HashPassword (password : string) (w : World) : (string * option error) * World :=
  (("hashed:" ++ password, None), w).

Definition CheckPassword (password hash : string) : bool :=
  bool_decide (hash = "hashed:" ++ password).

Definition CreateToken (claims : JWTClaims) : string * option error :=
  ("token:" ++ claims_UserID claims, None).

Definition ParsePostgresError (e : error) : string * bool :=
  if bool_decide (e = duplicate) then ("already exists", true) else ("", false).

(** Decimal digits with an optional minus sign; an empty or ill-formed
    string gives 0 and an error, a number beyond [int] the nearest bound and
    an error. *)
Definition Atoi (s : string) : Z * option error :=
  match Fixture.parse_Z s with
  | None => (0, Some (errors_New "strconv.Atoi: invalid syntax"))
  | Some z =>
      if z <? goint.min_int then
        (goint.min_int, Some (errors_New "strconv.Atoi: value out of range"))
      else if goint.max_int <? z then
        (goint.max_int, Some (errors_New "strconv.Atoi: value out of range"))
      else (z, None)
  end.

Definition Now (w : World) : Z * World :=
  (clock w, mkWorld (table w) (clock w + 1) (store_down w)).

#[global] Instance backend : users.Backend World := {
  db_Register := Register;
  db_GetUserByEmail := GetUserByEmail;
  db_GetAllUsers := GetAllUsers;
  db_GetUserByUUID := GetUserByUUID;
  db_FilterAndSearchUsers := FilterAndSearchUsers;
  utils_HashPassword := HashPassword;
  utils_CheckPassword := CheckPassword;
  utils_CreateToken := CreateToken;
  utils_ParsePostgresError := ParsePostgresError;
  strconv_Atoi := Atoi;
  time_Now := Now
}.

Definition alice : User :=
  mkUser (mkUUID "c0000000-0000-4000-8000-000000000001") "Alice Doe" "alice"
    "alice@example.com" "hashed:wonderland".

Definition w_alice : World := mkWorld [alice] 5000 false.

Definition w_down : World := mkWorld [alice] 5000 true.

Definition no_register : RegisterRequest * option error :=
  (mkRegisterRequest "" "" "" "", Some (errors_New "EOF")).

Definition no_login : LoginRequest * option error :=
  (mkLoginRequest "" "", Some (errors_New "EOF")).

Definition login (email password : string) : Context :=
  mkContext no_register (mkLoginRequest email password, None) "" [].

Definition register (fullname username email password : string) : Context :=
  mkContext (mkRegisterRequest fullname username email password, None) no_login "" [].

Definition get (id : string) (q : list (string * string)) : Context :=
  mkContext no_register no_login id q.

End UserFixture.

(** ** [package config]: the next migration version *)

Module migrator.

(** An [os.DirEntry], as far as [getNextVersion] looks at it. *)
Record DirEntry : Type := mkDirEntry {
  Name : string;
  IsDir : bool
}.

Section NextVersion.

(** The value [fmt.Sscanf(name, "%06d", &v)] leaves in a fresh [v]: the
    number it scanned, or 0 when it scanned none. *)
Variable Sscanf_06d : string -> Z.

(** One round of the loop over the directory entries. *)
Definition step (maxVersion : Z) (f : DirEntry) : Z :=
  if IsDir f then maxVersion
  else
    let v := Sscanf_06d (Name f) in
    if v >? maxVersion then v else maxVersion.

(** [getNextVersion(dir)], on what [os.ReadDir(dir)] returned. *)
Definition getNextVersion (ReadDir : list DirEntry * option error) : Z :=
  let '(files, err) := ReadDir in
  if not_nil err then 1
  else
    let maxVersion := fold_left step files 0 in
    goint.add maxVersion 1.

End NextVersion.

(** A stand-in for the scan: up to six leading decimal digits. *)
Fixpoint leading_digits (n : nat) (s : string) (acc : Z) : Z :=
  match n, s with
  | S n', String a s' =>
      let d := Z.of_nat (nat_of_ascii a) - 48 in
      if (0 <=? d) && (d <=? 9) then leading_digits n' s' (10 * acc + d) else acc
  | _, _ => acc
  end.

Definition scan6 (s : string) : Z := leading_digits 6 s 0.

Definition listing : list DirEntry :=
  [mkDirEntry "000001_initial_schema.up.sql" false;
   mkDirEntry "000001_initial_schema.down.sql" false;
   mkDirEntry "000007_add_carts.up.sql" false;
   mkDirEntry "000123" true;
   mkDirEntry "atlas.sum" false].

End migrator.


(** ** [RunMigrations] of [package config] *)

Module migrations.
Import migrator.

(** [config.SchemaMigration]; the primary key and [AppliedAt] are not read
    by [RunMigrations]. *)
Record SchemaMigration : Type := mkSchemaMigration {
  Version : Z;
  MigrationName : string
}.

(** [strings.HasSuffix(s, suffix)]:
    [len(s) >= len(suffix) && s[len(s)-len(suffix):] == suffix]. *)
Definition HasSuffix (s suffix : string) : bool :=
  (String.length suffix <=? String.length s)%nat
  && String.eqb
       (substring (String.length s - String.length suffix) (String.length suffix) s)
       suffix.

(** [sort.Strings]: the names in increasing byte-wise order, which is the
    order of [String.leb]; written as an insertion sort. *)
Fixpoint insert_sorted (x : string) (l : list string) : list string :=
  match l with
  | [] => [x]
  | y :: l' => if String.leb x y then x :: l else y :: insert_sorted x l'
  end.

Definition sort_Strings (l : list string) : list string :=
  foldr insert_sorted [] l.

(** Each name is at most the next one. *)
Fixpoint ascending (l : list string) : bool :=
  match l with
  | a :: (b :: _) as rest => String.leb a b && ascending rest
  | _ => true
  end.

(** An error made by [fmt.Errorf(format + ": %w", args..., err)]: the
    format, the file name it mentions (if any) and the wrapped error. *)
Record Wrapped : Type := Errorf {
  format : string;
  about : option string;
  cause : error
}.

(** The lines [RunMigrations] writes with [log.Println] and [log.Printf]. *)
Inductive LogLine : Type :=
| Running_migrations
| No_migrations_directory
| No_migration_files
| Skipping_file (fileName : string)
| Skipping_migration (version : Z)
| Running_migration (fileName : string)
| Migration_applied (fileName : string)
| Database_up_to_date
| Applied_migrations (pendingCount : Z).

#[global] Instance LogLine_eq_dec : EqDecision LogLine.
Proof. solve_decision. Defined.

(** What [RunMigrations] calls outside its package: the database handle
    (state [DB]), the file system and the scanner.  The closure handed to
    [db.Transaction] for one file executes the file's SQL and records the
    version; it is taken as one operation [db_Transaction] of the file name,
    the version and the SQL text. *)
Class Env (DB : Type) := {
  (** [db.AutoMigrate(&SchemaMigration{})] *)
  db_AutoMigrate : DB -> option error * DB;
  (** [db.Order("version ASC").Find(&executedMigrations).Error] *)
  db_Find : DB -> list SchemaMigration * option error * DB;
  (** [os.ReadDir(migrationsDir)] *)
  os_ReadDir : string -> list DirEntry * option error;
  os_IsNotExist : error -> bool;
  filepath_Join : string -> string -> string;
  (** [os.ReadFile(filePath)] *)
  os_ReadFile : string -> string * option error;
  (** [fmt.Sscanf(fileName, "%d", &version)]: the value left in [version]
      and the error. *)
  Sscanf_d : string -> Z * option error;
  db_Transaction : string -> Z -> string -> DB -> option error * DB
}.

Section RunMigrations.
Context {DB : Type} `{Env DB}.

(** The map [executedVersions], filled from the fetched rows. *)
Definition executedVersions (executedMigrations : list SchemaMigration) : gmap Z bool :=
  fold_left (fun acc m => <[Version m := true]> acc) executedMigrations ∅.

(** [executedVersions[version]]: [false] for a key that is not in the map. *)
Definition executed_at (executed : gmap Z bool) (version : Z) : bool :=
  default false (executed !! version).

(** The first loop: the names that become [migrationFiles]. *)
Definition is_migration_file (f : DirEntry) : bool :=
  negb (IsDir f) && HasSuffix (Name f) ".sql" && negb (String.eqb (Name f) "atlas.sum").

Definition migrationFiles (files : list DirEntry) : list string :=
  sort_Strings (Name <$> filter (fun f => is_migration_file f = true) files).

(** The second loop, over the sorted names, with the loop state: the
    database, [pendingCount] and the log written so far. *)
Fixpoint execute_pending (migrationsDir : string) (executed : gmap Z bool)
    (names : list string) (db : DB) (pendingCount : Z) (out : list LogLine)
  : option Wrapped * DB * Z * list LogLine :=
  match names with
  | [] => (None, db, pendingCount, out)
  | fileName :: rest =>
      let '(version, err) := Sscanf_d fileName in
      if not_nil err then
        execute_pending migrationsDir executed rest db pendingCount
          (out ++ [Skipping_file fileName])%list
      else if executed_at executed version then
        execute_pending migrationsDir executed rest db pendingCount
          (out ++ [Skipping_migration version])%list
      else
        let filePath := filepath_Join migrationsDir fileName in
        let '(sqlContent, err) := os_ReadFile filePath in
        match err with
        | Some e =>
            (Some (Errorf "failed to read migration file %s" (Some fileName) e),
             db, pendingCount, out)
        | None =>
            let out := (out ++ [Running_migration fileName])%list in
            let '(err, db) := db_Transaction fileName version sqlContent db in
            match err with
            | Some e =>
                (Some (Errorf "migration %s failed" (Some fileName) e),
                 db, pendingCount, out)
            | None =>
                execute_pending migrationsDir executed rest db
                  (goint.add pendingCount 1)
                  (out ++ [Migration_applied fileName])%list
            end
        end
  end.

(** [RunMigrations(db, migrationsDir)]: the returned error, the database
    afterwards and the log. *)
Definition RunMigrations (db : DB) (migrationsDir : string)
  : option Wrapped * DB * list LogLine :=
  let out := [Running_migrations] in
  let '(err, db) := db_AutoMigrate db in
  match err with
  | Some e => (Some (Errorf "failed to create schema_migrations table" None e), db, out)
  | None =>
  let '(executedMigrations, err, db) := db_Find db in
  match err with
  | Some e => (Some (Errorf "failed to fetch executed migrations" None e), db, out)
  | None =>
  let executed := executedVersions executedMigrations in
  let '(files, err) := os_ReadDir migrationsDir in
  match err with
  | Some e =>
      if os_IsNotExist e then (None, db, (out ++ [No_migrations_directory])%list)
      else (Some (Errorf "failed to read migrations directory" None e), db, out)
  | None =>
  let names := migrationFiles files in
  if (length names =? 0)%nat then (None, db, (out ++ [No_migration_files])%list)
  else
    let '(err, db, pendingCount, out) :=
      execute_pending migrationsDir executed names db 0 out in
    match err with
    | Some e => (Some e, db, out)
    | None =>
        if pendingCount =? 0 then (None, db, (out ++ [Database_up_to_date])%list)
        else (None, db, (out ++ [Applied_migrations pendingCount])%list)
    end
  end end end.

End RunMigrations.

(** The files for which a transaction was started, in order: the
    ["Running migration"] lines of a log. *)
Definition started (out : list LogLine) : list string :=
  omap (fun l => match l with Running_migration f => Some f | _ => None end) out.

(** The names that pass the scanner and are not yet recorded. *)
Definition pending `{Env DB} (executed : gmap Z bool) (fileName : string) : bool :=
  let '(version, err) := Sscanf_d fileName in
  negb (not_nil err) && negb (executed_at executed version).

(** The pending names, as a predicate to filter with. *)
Definition is_pending `{Env DB} (executed : gmap Z bool) (fileName : string) : Prop :=
  pending executed fileName = true.

#[global] Instance is_pending_dec `{Env DB} executed fileName :
  Decision (is_pending executed fileName).
Proof. unfold is_pending. apply _. Defined.

End migrations.

(** A small environment for [RunMigrations]: the database is the list of
    recorded rows, every file is readable, and a transaction records its
    version. *)
Module MigrationFixture.
Import migrator migrations.

Definition is_digit (a : ascii) : bool :=
  let d := Z.of_nat (nat_of_ascii a) - 48 in (0 <=? d) && (d <=? 9).

(** A stand-in for the scan of ["%d"]: the leading decimal digits, and an
    error when the name starts with none. *)
Definition scan_d (s : string) : Z * option error :=
  match s with
  | String a _ =>
      if is_digit a then (leading_digits 18 s 0, None)
      else (0, Some (errors_New "expected integer"))
  | EmptyString => (0, Some (errors_New "unexpected EOF"))
  end.

(** [strings.TrimSuffix(s, suffix)]. *)
Definition TrimSuffix (s suffix : string) : string :=
  if HasSuffix s suffix
  then substring 0 (String.length s - String.length suffix) s
  else s.

Definition no_such_directory : error := errors_New "no such file or directory".

Definition ReadDir (dir : string) : list DirEntry * option error :=
  if String.eqb dir "migrations" then (listing, None)
  else if String.eqb dir "fresh" then (take 2 listing, None)
  else ([], Some no_such_directory).

Definition Transaction (fileName : string) (version : Z) (sqlContent : string)
    (db : list SchemaMigration) : option error * list SchemaMigration :=
  (None, (db ++ [mkSchemaMigration version (TrimSuffix fileName ".up.sql")])%list).

#[global] Instance env : Env (list SchemaMigration) := {
  db_AutoMigrate db := (None, db);
  db_Find db := (db, None, db);
  os_ReadDir := ReadDir;
  os_IsNotExist e := bool_decide (e = no_such_directory);
  filepath_Join dir fileName := dir ++ "/" ++ fileName;
  os_ReadFile filePath := ("-- " ++ filePath, None);
  Sscanf_d := scan_d;
  db_Transaction := Transaction
}.

(** A database on which both versions of [listing] are recorded. *)
Definition up_to_date : list SchemaMigration :=
  [mkSchemaMigration 1 "000001_initial_schema";
   mkSchemaMigration 7 "000007_add_carts"].

End MigrationFixture.
(** * Properties of the handlers *)

Ltac hunfold :=
  unfold run, repository.GetCartByUserId, repository.CreateCart,
    repository.GetProductByUUID, repository.GetCartItem, repository.UpdateCartItem,
    repository.CreateCartItem, repository.GetCartItems, repository.RemoveCartItemFrom,
    RDB.Get, RDB.Set_, RDB.Del, utils.ResponseError, utils.ResponseSuccess, c_JSON,
    fmt.Println, call, respond, bind, when, ret, Return, deref in *.

(** Case analysis on every call and test of a handler. *)
Ltac crush_handler :=
  repeat (cbn;
    match goal with
    | |- context [match ?x with _ => _ end] =>
        lazymatch x with
        | context [match _ with _ => _ end] => fail
        | _ => destruct x eqn:?
        end
    end); cbn.

(** Entering a handler with an authenticated request. *)
Ltac enter Hauth :=
  let val := fresh "val" in
  let Hval := fresh "Hval" in
  let Hparse := fresh "Hparse" in
  destruct Hauth as (val & Hval & Hparse);
  unfold gin.Get_userId; rewrite Hval, ?Hparse; hunfold; cbn.

(** ** Go's [int] *)

Lemma goint_wrap_in_range z : goint.in_range z -> goint.wrap z = z.
Proof.
  unfold goint.in_range, goint.min_int, goint.max_int, goint.wrap. intros Hz.
  rewrite Z.mod_small; lia.
Qed.

Lemma goint_in_rangeb_spec z : goint.in_rangeb z = true <-> goint.in_range z.
Proof.
  unfold goint.in_rangeb, goint.in_range.
  rewrite andb_true_iff, !Z.leb_le. reflexivity.
Qed.

(** A body that passes [ShouldBindJSON] names a product and asks for a
    positive quantity that fits [int]. *)
Lemma ShouldBindJSON_ok c req :
  gin.ShouldBindJSON c = (req, None) ->
  gin.body c = Some req /\ req_ProductID req <> uuid.Nil /\
  1 <= req_Quantity req <= goint.max_int.
Proof.
  unfold gin.ShouldBindJSON. destruct (gin.body c) as [r|]; [|discriminate].
  destruct (goint.in_rangeb (req_Quantity r)) eqn:Hr; cbn; [|discriminate].
  apply goint_in_rangeb_spec in Hr. destruct Hr as [_ Hmax].
  case_bool_decide; [discriminate|].
  destruct (req_Quantity r <? 1) eqn:Hq; [discriminate|].
  apply Z.ltb_ge in Hq. intros [= <-]. auto.
Qed.

(** ** The handlers against any backend *)

Section Generic.
Context `{Libs} {W : Type} `{Backend W}.

Implicit Types (c : gin.Context) (w : W) (userId : UUID).

(** *** List items *)

Lemma GetAllCartItems_lookup_error c userId e w w' :
  authenticated_as c userId ->
  db_GetCartByUserId userId w = ((None, Some e), w') ->
  e <> gorm_ErrRecordNotFound ->
  run (handlers.GetAllCartItems c) w =
    (Panicked "runtime error: invalid memory address or nil pointer dereference",
     mkHState w'
       [ErrorResponse http.StatusInternalServerError "Failed to fetch cart" (Some e)]
       [EvGetCartByUserId userId]).
Proof.
  intros Hauth Hget He. unfold handlers.GetAllCartItems. enter Hauth.
  rewrite Hget. cbn.
  rewrite bool_decide_eq_false_2 by congruence. reflexivity.
Qed.

Lemma GetAllCartItems_corrupt_cache c userId cart payload items e w w1 w2 :
  authenticated_as c userId ->
  db_GetCartByUserId userId w = ((Some cart, None), w1) ->
  rdb_Get (fmt.Sprintf_cart (Cart_ID cart)) w1 = ((payload, None), w2) ->
  json_Unmarshal payload = (items, Some e) ->
  run (handlers.GetAllCartItems c) w =
    (Returned,
     mkHState w2
       [ErrorResponse http.StatusInternalServerError "Failed to parse cache" (Some e)]
       [EvGetCartByUserId userId; EvRedisGet (fmt.Sprintf_cart (Cart_ID cart))]).
Proof.
  intros Hauth Hget Hhit Hbad. unfold handlers.GetAllCartItems. enter Hauth.
  rewrite Hget. cbn. rewrite Hhit. cbn. rewrite Hbad. reflexivity.
Qed.

Lemma GetAllCartItems_cache_error c userId cart payload e items w w1 w2 w3 :
  authenticated_as c userId ->
  db_GetCartByUserId userId w = ((Some cart, None), w1) ->
  rdb_Get (fmt.Sprintf_cart (Cart_ID cart)) w1 = ((payload, Some e), w2) ->
  e <> redis_Nil ->
  db_GetCartItems (Cart_ID cart) w2 = ((items, None), w3) ->
  run (handlers.GetAllCartItems c) w =
    (Returned,
     mkHState w3
       [SuccessResponse http.StatusOK "data fetched from DB (Redis down)"
          (DataCartItems items)]
       [EvGetCartByUserId userId; EvRedisGet (fmt.Sprintf_cart (Cart_ID cart));
        EvPrintln "Redis Error:"; EvGetCartItems (Cart_ID cart)]).
Proof.
  intros Hauth Hget Herr He Hload. unfold handlers.GetAllCartItems. enter Hauth.
  rewrite Hget. cbn. rewrite Herr. cbn.
  rewrite bool_decide_eq_false_2 by congruence. cbn.
  rewrite Hload. reflexivity.
Qed.

Lemma GetAllCartItems_load_error_on_miss c userId cart payload items e w w1 w2 w3 :
  authenticated_as c userId ->
  db_GetCartByUserId userId w = ((Some cart, None), w1) ->
  rdb_Get (fmt.Sprintf_cart (Cart_ID cart)) w1 = ((payload, Some redis_Nil), w2) ->
  db_GetCartItems (Cart_ID cart) w2 = ((items, Some e), w3) ->
  run (handlers.GetAllCartItems c) w =
    (Returned,
     mkHState w3
       [ErrorResponse http.StatusUnauthorized "Failed to fetch" (Some e)]
       [EvGetCartByUserId userId; EvRedisGet (fmt.Sprintf_cart (Cart_ID cart));
        EvGetCartItems (Cart_ID cart)]).
Proof.
  intros Hauth Hget Hmiss Hload. unfold handlers.GetAllCartItems. enter Hauth.
  rewrite Hget. cbn. rewrite Hmiss. cbn.
  rewrite bool_decide_eq_true_2 by reflexivity. cbn. rewrite Hload. reflexivity.
Qed.

(** *** Add or update an item *)

Lemma AddOrUpdateCartItem_product_error c userId req cart product e w w1 w2 :
  gin.ShouldBindJSON c = (req, None) ->
  authenticated_as c userId ->
  db_GetCartByUserId userId w = ((Some cart, None), w1) ->
  db_GetProductByUUID (req_ProductID req) w1 = ((product, Some e), w2) ->
  run (handlers.AddOrUpdateCartItem c) w =
    (Returned,
     mkHState w2
       [ErrorResponse http.StatusBadRequest "Product does not exist" None]
       [EvGetCartByUserId userId; EvGetProductByUUID (req_ProductID req)]).
Proof.
  intros Hreq Hauth Hget Hprod. unfold handlers.AddOrUpdateCartItem.
  rewrite Hreq. enter Hauth. rewrite Hget. cbn. rewrite Hprod. reflexivity.
Qed.

(** The request names a product the user already has in the cart: the
    stock check, then the update and the invalidation of the cart's cache
    entry. *)
Lemma AddOrUpdateCartItem_existing_item c userId req cart product cartItem w w1 w2 w3 :
  gin.ShouldBindJSON c = (req, None) ->
  authenticated_as c userId ->
  db_GetCartByUserId userId w = ((Some cart, None), w1) ->
  db_GetProductByUUID (req_ProductID req) w1 = ((Some product, None), w2) ->
  db_GetCartItem (Cart_ID cart) (req_ProductID req) w2 = ((Some cartItem, None), w3) ->
  let reads := [EvGetCartByUserId userId; EvGetProductByUUID (req_ProductID req);
                EvGetCartItem (Cart_ID cart) (req_ProductID req)] in
  let item' :=
    set_Quantity (goint.add (Quantity cartItem) (req_Quantity req)) cartItem in
  let key := fmt.Sprintf_cart (Cart_ID cart) in
  run (handlers.AddOrUpdateCartItem c) w =
    if NumberOfStock product <? goint.add (req_Quantity req) (Quantity cartItem) then
      (Returned,
       mkHState w3 [ErrorResponse http.StatusBadRequest "Product out of stock" None] reads)
    else
      match db_UpdateCartItem item' w3 with
      | (Some e, w4) =>
          (Returned,
           mkHState w4
             [ErrorResponse http.StatusInternalServerError "Failed to update cart item"
                (Some e)]
             (reads ++ [EvUpdateCartItem item']))
      | (None, w4) =>
          match rdb_Del key w4 with
          | (derr, w5) =>
              (Next tt,
               mkHState w5 []
                 (reads ++ [EvUpdateCartItem item'; EvRedisDel key] ++
                  if not_nil derr then [EvPrintln "Failed to clear cache:"] else []))
          end
      end.
Proof.
  intros Hreq Hauth Hget Hprod Hitem reads item' key.
  unfold handlers.AddOrUpdateCartItem. rewrite Hreq. enter Hauth.
  rewrite Hget. cbn. rewrite Hprod. cbn. rewrite Hitem. cbn.
  destruct (NumberOfStock product <? _); cbn; [reflexivity|].
  fold item'. destruct (db_UpdateCartItem item' w3) as [[e|] w4]; cbn; [reflexivity|].
  fold key. destruct (rdb_Del key w4) as [[e|] w5]; reflexivity.
Qed.

(** The request names a product the cart does not hold yet. *)
Lemma AddOrUpdateCartItem_new_item c userId req cart product cartItem w w1 w2 w3 :
  gin.ShouldBindJSON c = (req, None) ->
  authenticated_as c userId ->
  db_GetCartByUserId userId w = ((Some cart, None), w1) ->
  db_GetProductByUUID (req_ProductID req) w1 = ((Some product, None), w2) ->
  db_GetCartItem (Cart_ID cart) (req_ProductID req) w2 =
    ((cartItem, Some gorm_ErrRecordNotFound), w3) ->
  let reads := [EvGetCartByUserId userId; EvGetProductByUUID (req_ProductID req);
                EvGetCartItem (Cart_ID cart) (req_ProductID req)] in
  let item' :=
    mkCartItems uuid.Nil (Cart_ID cart) (req_ProductID req) (req_Quantity req) None in
  let key := fmt.Sprintf_cart (Cart_ID cart) in
  run (handlers.AddOrUpdateCartItem c) w =
    if goint.add 0 (req_Quantity req) >? NumberOfStock product then
      (Returned,
       mkHState w3 [ErrorResponse http.StatusBadRequest "Product out of stock" None] reads)
    else
      match db_CreateCartItem item' w3 with
      | (Some e, w4) =>
          (Returned,
           mkHState w4
             [ErrorResponse http.StatusInternalServerError "Failed to add cart item"
                (Some e)]
             (reads ++ [EvCreateCartItem item']))
      | (None, w4) =>
          match rdb_Del key w4 with
          | (derr, w5) =>
              (Next tt,
               mkHState w5 []
                 (reads ++ [EvCreateCartItem item'; EvRedisDel key] ++
                  if not_nil derr then [EvPrintln "Failed to clear cache:"] else []))
          end
      end.
Proof.
  intros Hreq Hauth Hget Hprod Hitem reads item' key.
  unfold handlers.AddOrUpdateCartItem. rewrite Hreq. enter Hauth.
  rewrite Hget. cbn. rewrite Hprod. cbn. rewrite Hitem. cbn.
  rewrite bool_decide_eq_true_2 by reflexivity. cbn.
  destruct (goint.add 0 _ >? _); cbn; [reflexivity|].
  fold item'. destruct (db_CreateCartItem item' w3) as [[e|] w4]; cbn; [reflexivity|].
  fold key. destruct (rdb_Del key w4) as [[e|] w5]; reflexivity.
Qed.

(** *** Remove an item *)

Lemma RemoveCartItemFromCart_removed c userId cart productID w w1 w2 :
  authenticated_as c userId ->
  uuid_Parse (gin.param_product_id c) = (productID, None) ->
  db_GetCartByUserId userId w = ((Some cart, None), w1) ->
  db_RemoveCartItemFrom (Cart_ID cart) productID w1 = (None, w2) ->
  run (handlers.RemoveCartItemFromCart c) w =
    (Next tt,
     mkHState (snd (rdb_Del (fmt.Sprintf_cart userId) w2)) []
       [EvGetCartByUserId userId; EvRemoveCartItemFrom (Cart_ID cart) productID;
        EvRedisDel (fmt.Sprintf_cart userId)]).
Proof.
  intros Hauth Hpid Hget Hrm. unfold handlers.RemoveCartItemFromCart. enter Hauth.
  rewrite Hget. cbn. unfold gin.Param_product_id. rewrite Hpid. cbn.
  rewrite Hrm. cbn. destruct (rdb_Del _ w2). reflexivity.
Qed.

(** *** Create a cart *)

Lemma CreateCart_exists c userId cart w w1 :
  authenticated_as c userId ->
  db_GetCartByUserId userId w = ((Some cart, None), w1) ->
  run (handlers.CreateCart c) w =
    (Returned,
     mkHState w1
       [SuccessResponse http.StatusOK "Cart already exists" (DataCart cart)]
       [EvGetCartByUserId userId]).
Proof.
  intros Hauth Hget. unfold handlers.CreateCart. enter Hauth.
  rewrite Hget. reflexivity.
Qed.

Lemma CreateCart_not_found c userId cart w w1 :
  authenticated_as c userId ->
  db_GetCartByUserId userId w = ((cart, Some gorm_ErrRecordNotFound), w1) ->
  run (handlers.CreateCart c) w =
    match db_CreateCart userId w1 with
    | (Some e, w2) =>
        (Returned,
         mkHState w2
           [ErrorResponse http.StatusInternalServerError "Failed to create cart" None]
           [EvGetCartByUserId userId; EvCreateCart userId])
    | (None, w2) =>
        (Next tt,
         mkHState w2 [SuccessResponse http.StatusCreated "Cart created" DataNil]
           [EvGetCartByUserId userId; EvCreateCart userId])
    end.
Proof.
  intros Hauth Hget. unfold handlers.CreateCart. enter Hauth.
  rewrite Hget. cbn. rewrite bool_decide_eq_true_2 by reflexivity. cbn.
  destruct (db_CreateCart userId w1) as [[e|] w2]; reflexivity.
Qed.

Lemma CreateCart_lookup_error c userId cart e w w1 :
  authenticated_as c userId ->
  db_GetCartByUserId userId w = ((cart, Some e), w1) ->
  e <> gorm_ErrRecordNotFound ->
  run (handlers.CreateCart c) w =
    (Returned,
     mkHState w1
       [ErrorResponse http.StatusInternalServerError "Failed to fetch cart" None]
       [EvGetCartByUserId userId]).
Proof.
  intros Hauth Hget He. unfold handlers.CreateCart. enter Hauth.
  rewrite Hget. cbn. rewrite bool_decide_eq_false_2 by congruence. reflexivity.
Qed.

End Generic.

(** *** No success response from the writes *)

Section NoSuccess.
Context `{Libs} {W : Type} `{Backend W}.

Lemma AddOrUpdateCartItem_writes_no_success (c : gin.Context) (w : W) :
  Forall (fun r => is_success r = false)
    (written (snd (run (handlers.AddOrUpdateCartItem c) w))).
Proof.
  unfold handlers.AddOrUpdateCartItem. hunfold.
  crush_handler; repeat constructor.
Qed.

Lemma RemoveCartItemFromCart_writes_no_success (c : gin.Context) (w : W) :
  Forall (fun r => is_success r = false)
    (written (snd (run (handlers.RemoveCartItemFromCart c) w))).
Proof.
  unfold handlers.RemoveCartItemFromCart. hunfold.
  crush_handler; repeat constructor.
Qed.
End NoSuccess.

(** ** The handlers against the in-memory backend *)

Section InMemory.
Context `{Libs}.

Import MemStore.

Implicit Types (w : World) (c : gin.Context) (userId : UUID).

Lemma is_down_false op w : ~ In op (failing w) -> is_down op w = false.
Proof.
  intros Hop. unfold is_down. apply bool_decide_eq_false_2.
  rewrite list_elem_of_In. exact Hop.
Qed.

Lemma store_reachable_up op w :
  store_reachable w -> ~ In op [OpRedisGet; OpRedisSet; OpRedisDel] ->
  is_down op w = false.
Proof. intros Hw Hop. apply is_down_false. intros Hin. apply Hop, Hw, Hin. Qed.

(** *** Lists of rows *)

Lemma find_none_filter {A} (f : A -> bool) (l : list A) :
  List.find f l = None <-> List.filter f l = [].
Proof.
  induction l as [|a l IH]; cbn; [tauto|].
  destruct (f a); [split; discriminate|exact IH].
Qed.

Lemma find_some_filter {A} (f : A -> bool) (l : list A) (a : A) :
  List.filter f l = [a] -> List.find f l = Some a.
Proof.
  induction l as [|b l IH]; cbn; [discriminate|].
  destruct (f b); [congruence|exact IH].
Qed.

Lemma find_app_last {A} (f : A -> bool) (l : list A) (a : A) :
  List.find f l = None -> f a = true -> List.find f (l ++ [a])%list = Some a.
Proof.
  induction l as [|b l IH]; cbn; intros Hl Ha.
  - rewrite Ha. reflexivity.
  - destruct (f b); [discriminate|auto].
Qed.

Lemma existsb_false_forall {A} (f : A -> bool) (l : list A) :
  existsb f l = false <-> forall a, In a l -> f a = false.
Proof.
  induction l as [|b l IH]; cbn.
  - split; [intros _ a []|reflexivity].
  - rewrite orb_false_iff, IH. split.
    + intros [Hb Hl] a [<-|Ha]; auto.
    + intros Hall. split; auto.
Qed.

Lemma replace_by_key_absent (item : CartItems) (l : list CartItems) :
  ~ In (ID item) (List.map ID l) ->
  List.map (fun r => if bool_decide (ID r = ID item) then item else r) l = l.
Proof.
  induction l as [|r l IH]; cbn; intros Hnot; [reflexivity|].
  rewrite bool_decide_eq_false_2 by (intros Heq; apply Hnot; left; exact Heq).
  rewrite IH by (intros Hin; apply Hnot; right; exact Hin). reflexivity.
Qed.

(** *** Create a cart *)

(** What [CreateCart] does in each state of the store. *)
Lemma CreateCart_in_memory c userId w :
  authenticated_as c userId ->
  run (handlers.CreateCart c) w =
    if is_down OpGetCartByUserId w then
      (Returned,
       mkHState w
         [ErrorResponse http.StatusInternalServerError "Failed to fetch cart" None]
         [EvGetCartByUserId userId])
    else
      match List.find (cart_of_user userId) (carts w) with
      | Some cart =>
          (Returned,
           mkHState w
             [SuccessResponse http.StatusOK "Cart already exists" (DataCart cart)]
             [EvGetCartByUserId userId])
      | None =>
          match CreateCart userId w with
          | (Some e, w2) =>
              (Returned,
               mkHState w2
                 [ErrorResponse http.StatusInternalServerError "Failed to create cart"
                    None]
                 [EvGetCartByUserId userId; EvCreateCart userId])
          | (None, w2) =>
              (Next tt,
               mkHState w2 [SuccessResponse http.StatusCreated "Cart created" DataNil]
                 [EvGetCartByUserId userId; EvCreateCart userId])
          end
      end.
Proof.
  intros Hauth.
  destruct (is_down OpGetCartByUserId w) eqn:Hdown.
  - refine (CreateCart_lookup_error c userId None unreachable w w Hauth _ _);
      [|discriminate].
    cbn. unfold GetCartByUserId. rewrite Hdown. reflexivity.
  - destruct (List.find (cart_of_user userId) (carts w)) as [cart|] eqn:Hfind.
    + refine (CreateCart_exists c userId cart w w Hauth _).
      cbn. unfold GetCartByUserId. rewrite Hdown, Hfind. reflexivity.
    + refine (CreateCart_not_found c userId None w w Hauth _).
      cbn. unfold GetCartByUserId. rewrite Hdown, Hfind. reflexivity.
Qed.

(** The store's [CreateCart] adds at most a live cart of the user, and only
    when the user owns no row. *)
Lemma CreateCart_store_cases userId w :
  (carts (snd (CreateCart userId w)) = carts w /\ fst (CreateCart userId w) <> None) \/
  (exists id, carts (snd (CreateCart userId w)) = (carts w ++ [mkCart id userId None])%list /\
              fst (CreateCart userId w) = None).
Proof.
  unfold CreateCart. destruct (is_down OpCreateCart w); cbn; [left; split; congruence|].
  destruct (existsb _ (carts w)); cbn; [left; split; congruence|].
  destruct (existsb _ (carts w)); cbn; [left; split; congruence|].
  right. eexists. split; reflexivity.
Qed.

Lemma CreateCart_store_is_down op userId w :
  is_down op (snd (CreateCart userId w)) = is_down op w.
Proof.
  unfold CreateCart. destruct (is_down OpCreateCart w); cbn; [reflexivity|].
  destruct (existsb _ (carts w)); cbn; [reflexivity|].
  destruct (existsb _ (carts w)); reflexivity.
Qed.

Lemma cart_of_user_new id userId : cart_of_user userId (mkCart id userId None) = true.
Proof. unfold cart_of_user. cbn. apply bool_decide_eq_true_2. reflexivity. Qed.

(** [CreateCart] keeps the number of live carts of a user at most one. *)
Lemma CreateCart_at_most_one c userId w :
  authenticated_as c userId ->
  (length (live_carts_of userId w) <= 1)%nat ->
  (length (live_carts_of userId (world (snd (run (handlers.CreateCart c) w)))) <= 1)%nat.
Proof.
  intros Hauth Hinv. rewrite (CreateCart_in_memory c userId w Hauth).
  destruct (is_down OpGetCartByUserId w); [exact Hinv|].
  destruct (List.find (cart_of_user userId) (carts w)) eqn:Hfind; [exact Hinv|].
  apply find_none_filter in Hfind.
  destruct (CreateCart_store_cases userId w) as [[Hsame _]|(id & Hnew & _)];
    destruct (CreateCart userId w) as [[e|] w2]; cbn in *;
    unfold live_carts_of in *.
  1,2: rewrite Hsame; exact Hinv.
  1,2: rewrite Hnew, List.filter_app, Hfind; cbn [app List.filter];
    rewrite cart_of_user_new; cbn; lia.
Qed.

(** After a call that answered with a success, the next call answers
    "already exists" with the one live cart of the user and changes
    nothing. *)
Lemma CreateCart_then_exists c userId w r :
  authenticated_as c userId ->
  (length (live_carts_of userId w) <= 1)%nat ->
  written (snd (run (handlers.CreateCart c) w)) = [r] ->
  is_success r = true ->
  let w1 := world (snd (run (handlers.CreateCart c) w)) in
  exists cart,
    live_carts_of userId w1 = [cart] /\
    run (handlers.CreateCart c) w1 =
      (Returned,
       mkHState w1
         [SuccessResponse http.StatusOK "Cart already exists" (DataCart cart)]
         [EvGetCartByUserId userId]).
Proof.
  intros Hauth Hinv Hr Hok w1. subst w1.
  rewrite (CreateCart_in_memory c userId w Hauth) in *.
  destruct (is_down OpGetCartByUserId w) eqn:Hdown.
  { cbn in Hr. injection Hr as <-. discriminate. }
  destruct (List.find (cart_of_user userId) (carts w)) as [cart|] eqn:Hfind.
  - cbn. exists cart. split.
    + unfold live_carts_of in *. clear Hr.
      induction (carts w) as [|b l IH]; cbn in *; [discriminate|].
      destruct (cart_of_user userId b) eqn:Hb.
      * injection Hfind as ->. cbn in Hinv.
        destruct (List.filter _ l); [reflexivity|cbn in Hinv; lia].
      * auto.
    + rewrite (CreateCart_in_memory c userId w Hauth), Hdown, Hfind. reflexivity.
  - pose proof (CreateCart_store_is_down OpGetCartByUserId userId w) as Hdown'.
    destruct (CreateCart_store_cases userId w) as [[_ Herr]|(id & Hnew & Hnil)];
      destruct (CreateCart userId w) as [[e|] w2] eqn:Hcreate; cbn in *;
      try congruence.
    + injection Hr as <-. discriminate.
    + apply find_none_filter in Hfind as Hnone.
      exists (mkCart id userId None). split.
      * unfold live_carts_of. rewrite Hnew, List.filter_app, Hnone.
        cbn [app List.filter]. rewrite cart_of_user_new. reflexivity.
      * rewrite (CreateCart_in_memory c userId w2 Hauth), Hdown', Hdown, Hnew.
        rewrite (find_app_last _ _ _ Hfind (cart_of_user_new id userId)).
        reflexivity.
Qed.

(** When the lookup answers and finds no live cart of the user, the handler
    asks the store for a cart and answers with what the store says. *)
Lemma CreateCart_asks_when_none c userId w :
  authenticated_as c userId ->
  is_down OpGetCartByUserId w = false ->
  live_carts_of userId w = [] ->
  calls (snd (run (handlers.CreateCart c) w))
    = [EvGetCartByUserId userId; EvCreateCart userId] /\
  (written (snd (run (handlers.CreateCart c) w))
     = [SuccessResponse http.StatusCreated "Cart created" DataNil] \/
   written (snd (run (handlers.CreateCart c) w))
     = [ErrorResponse http.StatusInternalServerError "Failed to create cart" None]).
Proof.
  intros Hauth Hdown Hnone.
  rewrite (CreateCart_in_memory c userId w Hauth), Hdown.
  apply find_none_filter in Hnone. rewrite Hnone.
  destruct (CreateCart userId w) as [[e|] w2]; cbn; auto.
Qed.

(** On a store that can take a cart of the user (the store answers, the user
    owns no row, the next key is unused), the call creates one live cart of
    the user and answers 201, and the call after it answers "already
    exists" with that cart. *)
Lemma CreateCart_creates c userId w :
  authenticated_as c userId ->
  is_down OpGetCartByUserId w = false ->
  is_down OpCreateCart w = false ->
  (forall row : Cart, In row (carts w) ->
     Cart_UserID row <> userId /\ Cart_ID row <> gen_random_uuid w (rng w)) ->
  let cart := mkCart (gen_random_uuid w (rng w)) userId None in
  let w1 := set_carts (carts w ++ [cart]) (tick w) in
  run (handlers.CreateCart c) w =
    (Next tt,
     mkHState w1 [SuccessResponse http.StatusCreated "Cart created" DataNil]
       [EvGetCartByUserId userId; EvCreateCart userId]) /\
  live_carts_of userId w1 = [cart] /\
  run (handlers.CreateCart c) w1 =
    (Returned,
     mkHState w1
       [SuccessResponse http.StatusOK "Cart already exists" (DataCart cart)]
       [EvGetCartByUserId userId]).
Proof.
  intros Hauth Hdown Hup Hfree cart w1.
  assert (Hfind : List.find (cart_of_user userId) (carts w) = None).
  { apply find_none_filter. clear -Hfree.
    induction (carts w) as [|a l IH]; [reflexivity|]. cbn.
    assert (Ha : cart_of_user userId a = false).
    { unfold cart_of_user. rewrite bool_decide_eq_false_2, andb_false_r; [reflexivity|].
      apply (Hfree a). left. reflexivity. }
    rewrite Ha. apply IH. intros row Hin. apply Hfree. right. exact Hin. }
  assert (Hcreate : CreateCart userId w = (None, w1)).
  { unfold CreateCart. rewrite Hup.
    replace (existsb (fun c0 : Cart => bool_decide (Cart_ID c0 = gen_random_uuid w (rng w)))
               (carts w)) with false.
    2: { symmetry. apply existsb_false_forall. intros a Ha.
         apply bool_decide_eq_false_2, (Hfree a Ha). }
    replace (existsb (fun c0 : Cart => bool_decide (Cart_UserID c0 = userId)) (carts w))
      with false.
    2: { symmetry. apply existsb_false_forall. intros a Ha.
         apply bool_decide_eq_false_2, (Hfree a Ha). }
    reflexivity. }
  split; [|split].
  - rewrite (CreateCart_in_memory c userId w Hauth), Hdown, Hfind, Hcreate. reflexivity.
  - unfold live_carts_of. subst w1. cbn [carts set_carts].
    apply find_none_filter in Hfind. rewrite List.filter_app, Hfind.
    cbn [app List.filter]. subst cart. rewrite cart_of_user_new. reflexivity.
  - rewrite (CreateCart_in_memory c userId w1 Hauth).
    replace (is_down OpGetCartByUserId w1) with false by (symmetry; exact Hdown).
    subst w1 cart. cbn [carts set_carts].
    rewrite (find_app_last _ _ _ Hfind (cart_of_user_new _ userId)). reflexivity.
Qed.

(** *** Add or update an item *)

(** The first add of a product to a cart inserts a row for the pair. *)
Lemma AddOrUpdateCartItem_inserts c userId req cart product w :
  gin.ShouldBindJSON c = (req, None) ->
  authenticated_as c userId ->
  store_reachable w ->
  List.find (cart_of_user userId) (carts w) = Some cart ->
  List.find (is_product (req_ProductID req)) (products w) = Some product ->
  live_items_of (Cart_ID cart) (req_ProductID req) w = [] ->
  req_Quantity req <= NumberOfStock product ->
  ~ In (gen_random_uuid w (rng w)) (List.map ID (cart_items w)) ->
  let row := mkCartItems (gen_random_uuid w (rng w)) (Cart_ID cart) (req_ProductID req)
               (req_Quantity req) None in
  let r := run (handlers.AddOrUpdateCartItem c) w in
  fst r = Next tt /\ written (snd r) = [] /\
  carts (world (snd r)) = carts w /\ products (world (snd r)) = products w /\
  failing (world (snd r)) = failing w /\
  cart_items (world (snd r)) = (cart_items w ++ [row])%list.
Proof.
  intros Hreq Hauth Hup Hcart Hprod Hnone Hstock Hfresh row r. subst r.
  destruct (ShouldBindJSON_ok c req Hreq) as (_ & Hpid & Hq).
  assert (Hget : db_GetCartByUserId userId w = ((Some cart, None), w)).
  { cbn. unfold GetCartByUserId.
    rewrite (store_reachable_up _ w Hup), Hcart; [reflexivity|cbn; intuition discriminate]. }
  assert (Hgetp : db_GetProductByUUID (req_ProductID req) w = ((Some product, None), w)).
  { cbn. unfold GetProductByUUID.
    rewrite (store_reachable_up _ w Hup), Hprod; [reflexivity|cbn; intuition discriminate]. }
  assert (Hgeti : db_GetCartItem (Cart_ID cart) (req_ProductID req) w =
                  ((None, Some gorm_ErrRecordNotFound), w)).
  { cbn. unfold GetCartItem. apply find_none_filter in Hnone.
    rewrite (store_reachable_up _ w Hup), Hnone; [reflexivity|cbn; intuition discriminate]. }
  rewrite (AddOrUpdateCartItem_new_item c userId req cart product None w w w w
             Hreq Hauth Hget Hgetp Hgeti).
  unfold goint.add. rewrite goint_wrap_in_range
    by (unfold goint.in_range, goint.min_int, goint.max_int in *; lia).
  replace (0 + req_Quantity req >? NumberOfStock product) with false
    by (symmetry; rewrite Z.gtb_ltb; apply Z.ltb_ge; lia).
  cbn. unfold CreateCartItem.
  rewrite (store_reachable_up _ w Hup) by (cbn; intuition discriminate).
  cbn. rewrite bool_decide_eq_true_2 by reflexivity.
  replace (existsb _ (cart_items w)) with false.
  2:{ symmetry. apply existsb_false_forall. intros a Ha.
      apply bool_decide_eq_false_2. intros Heq. apply Hfresh.
      rewrite <- Heq. apply List.in_map, Ha. }
  unfold RedisDel. cbn. destruct (is_down OpRedisDel _); cbn; auto 10.
Qed.

(** A further add of the product, within stock, updates the row of the
    pair. *)
Lemma AddOrUpdateCartItem_updates c userId req cart product row w :
  gin.ShouldBindJSON c = (req, None) ->
  authenticated_as c userId ->
  store_reachable w ->
  List.find (cart_of_user userId) (carts w) = Some cart ->
  List.find (is_product (req_ProductID req)) (products w) = Some product ->
  List.find (item_of (Cart_ID cart) (req_ProductID req)) (cart_items w) = Some row ->
  goint.min_int <= Quantity row ->
  goint.in_range (NumberOfStock product) ->
  Quantity row + req_Quantity req <= NumberOfStock product ->
  let row' := set_Quantity (Quantity row + req_Quantity req) row in
  let r := run (handlers.AddOrUpdateCartItem c) w in
  fst r = Next tt /\ written (snd r) = [] /\
  cart_items (world (snd r)) =
    List.map (fun x => if bool_decide (ID x = ID row') then row' else x) (cart_items w).
Proof.
  intros Hreq Hauth Hup Hcart Hprod Hrow Hmin Hs Hstock row' r. subst r.
  destruct (ShouldBindJSON_ok c req Hreq) as (_ & Hpid & Hq).
  assert (Hget : db_GetCartByUserId userId w = ((Some cart, None), w)).
  { cbn. unfold GetCartByUserId.
    rewrite (store_reachable_up _ w Hup), Hcart; [reflexivity|cbn; intuition discriminate]. }
  assert (Hgetp : db_GetProductByUUID (req_ProductID req) w = ((Some product, None), w)).
  { cbn. unfold GetProductByUUID.
    rewrite (store_reachable_up _ w Hup), Hprod; [reflexivity|cbn; intuition discriminate]. }
  assert (Hgeti : db_GetCartItem (Cart_ID cart) (req_ProductID req) w =
                  ((Some row, None), w)).
  { cbn. unfold GetCartItem.
    rewrite (store_reachable_up _ w Hup), Hrow; [reflexivity|cbn; intuition discriminate]. }
  rewrite (AddOrUpdateCartItem_existing_item c userId req cart product row w w w w
             Hreq Hauth Hget Hgetp Hgeti).
  unfold goint.add. rewrite !goint_wrap_in_range
    by (unfold goint.in_range, goint.min_int, goint.max_int in *; lia).
  replace (NumberOfStock product <? req_Quantity req + Quantity row) with false
    by (symmetry; apply Z.ltb_ge; lia).
  fold row'. cbn. unfold UpdateCartItem.
  rewrite (store_reachable_up _ w Hup) by (cbn; intuition discriminate).
  cbn. unfold RedisDel. cbn. destruct (is_down OpRedisDel _); cbn; auto.
Qed.

End InMemory.

(** * The claims *)

Import Scenario.

Lemma authenticated_request b p : authenticated_as (request b p) U.
Proof. exists (uuid_String U). split; reflexivity. Qed.

(** C1: after a successful remove-item the cache entry ["cart:" + cartId] is
    deleted, so the next list-items read does not return the pre-removal
    snapshot.  Against any backend, the one cache call of a successful
    removal deletes the key built from the user id, not from the cart id.
    On the scenario the removal succeeds, the row is gone from the store,
    the entry of the cart is still cached, and the next read answers with
    the snapshot taken before the removal. *)
Theorem C1_remove_item_leaves_cached_snapshot :
  (forall (L : Libs) (W : Type) (B : Backend W) (c : gin.Context)
          (userId productID : UUID) (cart : Cart) (w w1 w2 : W),
     authenticated_as c userId ->
     uuid_Parse (gin.param_product_id c) = (productID, None) ->
     db_GetCartByUserId userId w = ((Some cart, None), w1) ->
     db_RemoveCartItemFrom (Cart_ID cart) productID w1 = (None, w2) ->
     calls (snd (run (handlers.RemoveCartItemFromCart c) w)) =
       [EvGetCartByUserId userId; EvRemoveCartItemFrom (Cart_ID cart) productID;
        EvRedisDel ("cart:" ++ uuid_String userId)]) /\
  (let r := run (handlers.RemoveCartItemFromCart remove) w_cached in
   let w' := world (snd r) in
   fst r = Next tt /\
   written (snd r) = [] /\
   calls (snd r) =
     [EvGetCartByUserId U; EvRemoveCartItemFrom C P; EvRedisDel ("cart:" ++ uuid_String U)] /\
   MemStore.live_items_of C P w' = [] /\
   MemStore.cached ("cart:" ++ uuid_String C) w' = Some (json_Marshal [item]) /\
   written (snd (run (handlers.GetAllCartItems list_items) w')) =
     [SuccessResponse http.StatusOK "data fetched from Redis" (DataCartItems [item])]).
Proof.
  split.
  - intros L W B c userId productID cart w w1 w2 Hauth Hpid Hget Hrm.
    rewrite (RemoveCartItemFromCart_removed c userId cart productID w w1 w2
               Hauth Hpid Hget Hrm).
    reflexivity.
  - vm_compute. repeat split.
Qed.

(** An add-item request for a product the cart already holds with quantity
    [q0], against stock [s], as long as [q0 + quantity] fits [int]: when the
    sum exceeds [s] the handler answers "Product out of stock" and makes no
    call that writes to the store; when it is at most [s] (equal included) it
    hands the row with quantity [q0 + quantity] to [UpdateCartItem]. *)
Lemma AddOrUpdateCartItem_existing_item_in_range
    (L : Libs) (W : Type) (B : Backend W)
    (c : gin.Context) (userId : UUID) (req : AddCartItemRequest)
    (cart : Cart) (product : Product) (cartItem : CartItems) (w w1 w2 w3 : W) :
  gin.ShouldBindJSON c = (req, None) ->
  authenticated_as c userId ->
  db_GetCartByUserId userId w = ((Some cart, None), w1) ->
  db_GetProductByUUID (req_ProductID req) w1 = ((Some product, None), w2) ->
  db_GetCartItem (Cart_ID cart) (req_ProductID req) w2 = ((Some cartItem, None), w3) ->
  goint.in_range (Quantity cartItem) ->
  goint.in_range (Quantity cartItem + req_Quantity req) ->
  let q0 := Quantity cartItem in
  let s := NumberOfStock product in
  let updated := set_Quantity (q0 + req_Quantity req) cartItem in
  let key := fmt.Sprintf_cart (Cart_ID cart) in
  let reads := [EvGetCartByUserId userId; EvGetProductByUUID (req_ProductID req);
                EvGetCartItem (Cart_ID cart) (req_ProductID req)] in
  let r := run (handlers.AddOrUpdateCartItem c) w in
  (s < q0 + req_Quantity req ->
     r = (Returned,
          mkHState w3
            [ErrorResponse http.StatusBadRequest "Product out of stock" None] reads) /\
     existsb is_store_write (calls (snd r)) = false) /\
  (q0 + req_Quantity req <= s ->
     r = match db_UpdateCartItem updated w3 with
         | (Some e, w4) =>
             (Returned,
              mkHState w4
                [ErrorResponse http.StatusInternalServerError
                   "Failed to update cart item" (Some e)]
                (reads ++ [EvUpdateCartItem updated]))
         | (None, w4) =>
             match rdb_Del key w4 with
             | (derr, w5) =>
                 (Next tt,
                  mkHState w5 []
                    (reads ++ [EvUpdateCartItem updated; EvRedisDel key] ++
                     if not_nil derr then [EvPrintln "Failed to clear cache:"] else []))
             end
         end).
Proof.
  intros Hreq Hauth Hget Hprod Hitem Hq0 Hsum q0 s updated key reads r.
  subst r.
  rewrite (AddOrUpdateCartItem_existing_item c userId req cart product cartItem
             w w1 w2 w3 Hreq Hauth Hget Hprod Hitem).
  unfold goint.add. rewrite (Z.add_comm (req_Quantity req)).
  rewrite (goint_wrap_in_range _ Hsum). fold q0 s updated key reads.
  split; intros Hcmp.
  - replace (s <? q0 + req_Quantity req) with true by (symmetry; apply Z.ltb_lt; lia).
    split; reflexivity.
  - replace (s <? q0 + req_Quantity req) with false by (symmetry; apply Z.ltb_ge; lia).
    reflexivity.
Qed.

Example AddOrUpdateCartItem_boundary_inclusive :
  (run (handlers.AddOrUpdateCartItem (add 3)) w_cart =
     (Returned,
      mkHState w_cart [ErrorResponse http.StatusBadRequest "Product out of stock" None]
        [EvGetCartByUserId U; EvGetProductByUUID P; EvGetCartItem C P]) /\
   existsb is_store_write (calls (snd (run (handlers.AddOrUpdateCartItem (add 3)) w_cart)))
     = false) /\
  MemStore.cart_items (world (snd (run (handlers.AddOrUpdateCartItem (add 2)) w_cart)))
    = [set_Quantity 5 item].
Proof.
  split.
  - apply (AddOrUpdateCartItem_existing_item_in_range Fixture.libs MemStore.World
             MemStore.backend (add 3) U (mkAddCartItemRequest P 3) cart product item
             w_cart w_cart w_cart w_cart).
    + reflexivity.
    + apply authenticated_request.
    + reflexivity.
    + reflexivity.
    + reflexivity.
    + apply goint_in_rangeb_spec. reflexivity.
    + apply goint_in_rangeb_spec. reflexivity.
    + vm_compute. reflexivity.
  - destruct
      (AddOrUpdateCartItem_existing_item_in_range Fixture.libs MemStore.World
         MemStore.backend (add 2) U (mkAddCartItemRequest P 2) cart product item
         w_cart w_cart w_cart w_cart eq_refl (authenticated_request _ _)
         eq_refl eq_refl eq_refl
         (proj1 (goint_in_rangeb_spec 3) eq_refl)
         (proj1 (goint_in_rangeb_spec (3 + 2)) eq_refl)) as [_ Hle].
    rewrite Hle by (vm_compute; discriminate). reflexivity.
Qed.

Lemma goint_wrap_overflow z :
  goint.max_int < z <= 2 * goint.max_int -> goint.wrap z = z - 2 ^ 64.
Proof.
  unfold goint.max_int, goint.wrap. intros Hz.
  replace (z + 2 ^ 63) with ((z - 2 ^ 63) + 1 * 2 ^ 64) by lia.
  rewrite Z.mod_add by lia. rewrite Z.mod_small; lia.
Qed.

(** The same request when [q0 + quantity] does not fit [int]: the sum wraps
    around to a negative number, the stock check passes, and the row goes to
    [UpdateCartItem] with the wrapped quantity. *)
Lemma AddOrUpdateCartItem_existing_item_overflow
    (L : Libs) (W : Type) (B : Backend W)
    (c : gin.Context) (userId : UUID) (req : AddCartItemRequest)
    (cart : Cart) (product : Product) (cartItem : CartItems) (w w1 w2 w3 : W) :
  gin.ShouldBindJSON c = (req, None) ->
  authenticated_as c userId ->
  db_GetCartByUserId userId w = ((Some cart, None), w1) ->
  db_GetProductByUUID (req_ProductID req) w1 = ((Some product, None), w2) ->
  db_GetCartItem (Cart_ID cart) (req_ProductID req) w2 = ((Some cartItem, None), w3) ->
  goint.in_range (Quantity cartItem) ->
  0 <= NumberOfStock product ->
  goint.max_int < Quantity cartItem + req_Quantity req ->
  In (EvUpdateCartItem
        (set_Quantity (Quantity cartItem + req_Quantity req - 2 ^ 64) cartItem))
     (calls (snd (run (handlers.AddOrUpdateCartItem c) w))).
Proof.
  intros Hreq Hauth Hget Hprod Hitem Hq0 Hs Hover.
  destruct (ShouldBindJSON_ok c req Hreq) as (_ & _ & Hq).
  rewrite (AddOrUpdateCartItem_existing_item c userId req cart product cartItem
             w w1 w2 w3 Hreq Hauth Hget Hprod Hitem).
  unfold goint.add. rewrite (Z.add_comm (req_Quantity req)).
  rewrite goint_wrap_overflow by (unfold goint.in_range in Hq0; lia).
  replace (NumberOfStock product <? _) with false
    by (symmetry; apply Z.ltb_ge; unfold goint.in_range, goint.max_int in *; lia).
  destruct (db_UpdateCartItem _ w3) as [[e|] w4]; cbn.
  - auto 10.
  - destruct (rdb_Del _ w4). cbn. auto 10.
Qed.

(** C2: an add-item request for a product the cart already holds with
    quantity [q0], against stock [s], fails with "Product out of stock" and
    leaves the stored quantity at [q0] when [q0 + quantity] exceeds [s].
    The handler adds on [int]: on the scenario (quantity 3 in the cart,
    stock 5) a request for the largest [int] passes the binding, the sum
    wraps around, the stock check passes, and the row is stored with a
    negative quantity. *)
Theorem C2_stock_check_wraps_around :
  let c := add goint.max_int in
  let r := run (handlers.AddOrUpdateCartItem c) w_cart in
  gin.ShouldBindJSON c = (mkAddCartItemRequest P goint.max_int, None) /\
  MemStore.cart_items w_cart = [item] /\
  Quantity item = 3 /\
  NumberOfStock product < Quantity item + goint.max_int /\
  fst r = Next tt /\
  written (snd r) = [] /\
  calls (snd r) =
    [EvGetCartByUserId U; EvGetProductByUUID P; EvGetCartItem C P;
     EvUpdateCartItem (set_Quantity (-9223372036854775806) item);
     EvRedisDel ("cart:" ++ uuid_String C)] /\
  MemStore.cart_items (world (snd r)) = [set_Quantity (-9223372036854775806) item].
Proof. vm_compute. repeat split. Qed.

(** C3: for a cart and a product with no row yet and positive quantities
    [q1], [q2] with [q1 + q2] within the stock, add-item with [q1] and then
    add-item with [q2] leave exactly one live row for the pair, with quantity
    [q1 + q2]: the second add updates the row the first one inserted. *)
Theorem C3_two_adds_make_one_row
    (L : Libs) (c1 c2 : gin.Context) (userId productID : UUID) (q1 q2 : Z)
    (cart : Cart) (product : Product) (w : MemStore.World) :
  authenticated_as c1 userId ->
  authenticated_as c2 userId ->
  gin.ShouldBindJSON c1 = (mkAddCartItemRequest productID q1, None) ->
  gin.ShouldBindJSON c2 = (mkAddCartItemRequest productID q2, None) ->
  MemStore.store_reachable w ->
  List.find (MemStore.cart_of_user userId) (MemStore.carts w) = Some cart ->
  List.find (MemStore.is_product productID) (MemStore.products w) = Some product ->
  goint.in_range (NumberOfStock product) ->
  MemStore.live_items_of (Cart_ID cart) productID w = [] ->
  ~ In (MemStore.gen_random_uuid w (MemStore.rng w))
       (List.map ID (MemStore.cart_items w)) ->
  q1 + q2 <= NumberOfStock product ->
  let r1 := run (handlers.AddOrUpdateCartItem c1) w in
  let r2 := run (handlers.AddOrUpdateCartItem c2) (world (snd r1)) in
  fst r1 = Next tt /\ fst r2 = Next tt /\
  written (snd r1) = [] /\ written (snd r2) = [] /\
  exists row,
    MemStore.live_items_of (Cart_ID cart) productID (world (snd r2)) = [row] /\
    Quantity row = q1 + q2.
Proof.
  intros Hauth1 Hauth2 Hreq1 Hreq2 Hup Hcart Hprod Hs Hnone Hfresh Hsum r1 r2.
  destruct (ShouldBindJSON_ok c1 _ Hreq1) as (_ & _ & Hq1).
  destruct (ShouldBindJSON_ok c2 _ Hreq2) as (_ & _ & Hq2).
  cbn [req_Quantity] in Hq1, Hq2.
  destruct (AddOrUpdateCartItem_inserts c1 userId _ cart product w
              Hreq1 Hauth1 Hup Hcart Hprod Hnone ltac:(cbn; lia) Hfresh)
    as (Hf1 & Hw1 & Hcarts & Hprods & Hfail & Hitems).
  fold r1 in Hf1, Hw1, Hcarts, Hprods, Hfail, Hitems.
  cbn [req_ProductID req_Quantity] in Hitems.
  set (row := mkCartItems (MemStore.gen_random_uuid w (MemStore.rng w)) (Cart_ID cart)
                productID q1 None) in *.
  assert (Hrow : MemStore.item_of (Cart_ID cart) productID row = true).
  { unfold MemStore.item_of. cbn. rewrite !bool_decide_eq_true_2; reflexivity. }
  assert (Hfind : List.find (MemStore.item_of (Cart_ID cart) productID)
                    (MemStore.cart_items (world (snd r1))) = Some row).
  { rewrite Hitems. apply find_app_last; [|exact Hrow].
    apply find_none_filter. exact Hnone. }
  assert (Hup1 : MemStore.store_reachable (world (snd r1))).
  { unfold MemStore.store_reachable. rewrite Hfail. exact Hup. }
  destruct (AddOrUpdateCartItem_updates c2 userId _ cart product row (world (snd r1))
              Hreq2 Hauth2 Hup1 ltac:(rewrite Hcarts; exact Hcart)
              ltac:(rewrite Hprods; exact Hprod) Hfind
              ltac:(unfold goint.min_int; cbn; lia) Hs ltac:(cbn; lia))
    as (Hf2 & Hw2 & Hitems2).
  fold r2 in Hf2, Hw2, Hitems2. cbn [req_Quantity Quantity row] in Hitems2.
  repeat split; try assumption.
  exists (set_Quantity (q1 + q2) row). split; [|reflexivity].
  unfold MemStore.live_items_of. rewrite Hitems2, Hitems, List.map_app.
  change (ID (set_Quantity (q1 + q2) row)) with (ID row).
  replace (List.map _ (MemStore.cart_items w)) with (MemStore.cart_items w).
  2:{ symmetry. apply (replace_by_key_absent (set_Quantity (q1 + q2) row)). exact Hfresh. }
  rewrite List.filter_app. fold (MemStore.live_items_of (Cart_ID cart) productID w).
  rewrite Hnone. cbn [List.map app List.filter].
  rewrite bool_decide_eq_true_2 by reflexivity.
  change (MemStore.item_of (Cart_ID cart) productID (set_Quantity (q1 + q2) row))
    with (MemStore.item_of (Cart_ID cart) productID row).
  rewrite Hrow. reflexivity.
Qed.

Lemma C3_witness :
  let r1 := run (handlers.AddOrUpdateCartItem (add 3)) w_empty_cart in
  let r2 := run (handlers.AddOrUpdateCartItem (add 2)) (world (snd r1)) in
  fst r1 = Next tt /\ fst r2 = Next tt /\
  written (snd r1) = [] /\ written (snd r2) = [] /\
  exists row,
    MemStore.live_items_of C P (world (snd r2)) = [row] /\ Quantity row = 3 + 2.
Proof.
  apply (C3_two_adds_make_one_row Fixture.libs (add 3) (add 2) U P 3 2 cart product
           w_empty_cart).
  - apply authenticated_request.
  - apply authenticated_request.
  - reflexivity.
  - reflexivity.
  - intros op [].
  - reflexivity.
  - reflexivity.
  - apply goint_in_rangeb_spec. reflexivity.
  - reflexivity.
  - intros [].
  - vm_compute. discriminate.
Defined.

(** C4: [CreateCart] is idempotent and keeps at most one live cart per user.
    When the user has a live cart (and the lookup answers), the call returns
    it with status 200 and "Cart already exists" and leaves the store as it
    is; a cart is created only when the lookup found none, and a created
    cart is answered with status 201; when the lookup answers and finds
    none, the store is asked for a cart and the answer is 201 or the
    internal error of a failed creation; on a store that can take a cart of
    the user, the call adds one live cart of the user and answers 201, and
    the next call answers "already exists" with that cart; after any call
    that succeeded, the next call answers "already exists" with the same
    cart; and neither of two successive calls leaves more than one live
    cart of the user. *)
Theorem C4_create_cart_idempotent
    (L : Libs) (c : gin.Context) (userId : UUID) (w : MemStore.World) :
  authenticated_as c userId ->
  (length (MemStore.live_carts_of userId w) <= 1)%nat ->
  let r1 := run (handlers.CreateCart c) w in
  let w1 := world (snd r1) in
  let r2 := run (handlers.CreateCart c) w1 in
  (forall cart,
     MemStore.is_down MemStore.OpGetCartByUserId w = false ->
     In cart (MemStore.live_carts_of userId w) ->
     r1 = (Returned,
           mkHState w
             [SuccessResponse http.StatusOK "Cart already exists" (DataCart cart)]
             [EvGetCartByUserId userId])) /\
  (In (EvCreateCart userId) (calls (snd r1)) -> MemStore.live_carts_of userId w = []) /\
  (MemStore.carts w1 <> MemStore.carts w <->
   written (snd r1) = [SuccessResponse http.StatusCreated "Cart created" DataNil]) /\
  (MemStore.is_down MemStore.OpGetCartByUserId w = false ->
   MemStore.live_carts_of userId w = [] ->
   calls (snd r1) = [EvGetCartByUserId userId; EvCreateCart userId] /\
   (written (snd r1) = [SuccessResponse http.StatusCreated "Cart created" DataNil] \/
    written (snd r1)
      = [ErrorResponse http.StatusInternalServerError "Failed to create cart" None])) /\
  (MemStore.is_down MemStore.OpGetCartByUserId w = false ->
   MemStore.is_down MemStore.OpCreateCart w = false ->
   (forall row : Cart, In row (MemStore.carts w) ->
      Cart_UserID row <> userId /\
      Cart_ID row <> MemStore.gen_random_uuid w (MemStore.rng w)) ->
   let cart := mkCart (MemStore.gen_random_uuid w (MemStore.rng w)) userId None in
   r1 = (Next tt,
         mkHState (MemStore.set_carts (MemStore.carts w ++ [cart]) (MemStore.tick w))
           [SuccessResponse http.StatusCreated "Cart created" DataNil]
           [EvGetCartByUserId userId; EvCreateCart userId]) /\
   MemStore.live_carts_of userId w1 = [cart] /\
   r2 = (Returned,
         mkHState w1
           [SuccessResponse http.StatusOK "Cart already exists" (DataCart cart)]
           [EvGetCartByUserId userId])) /\
  (forall r,
     written (snd r1) = [r] -> is_success r = true ->
     exists cart,
       MemStore.live_carts_of userId w1 = [cart] /\
       r2 = (Returned,
             mkHState w1
               [SuccessResponse http.StatusOK "Cart already exists" (DataCart cart)]
               [EvGetCartByUserId userId])) /\
  (length (MemStore.live_carts_of userId w1) <= 1)%nat /\
  (length (MemStore.live_carts_of userId (world (snd r2))) <= 1)%nat.
Proof.
  intros Hauth Hinv r1 w1 r2.
  assert (Hinv1 : (length (MemStore.live_carts_of userId w1) <= 1)%nat)
    by exact (CreateCart_at_most_one c userId w Hauth Hinv).
  split; [|split; [|split; [|split; [|split; [|split; [|split]]]]]].
  - intros cart Hdown Hin. subst r1.
    rewrite (CreateCart_in_memory c userId w Hauth), Hdown.
    replace (List.find (MemStore.cart_of_user userId) (MemStore.carts w)) with (Some cart);
      [reflexivity|].
    symmetry. apply find_some_filter. fold (MemStore.live_carts_of userId w).
    destruct (MemStore.live_carts_of userId w) as [|a [|b l]]; cbn in *;
      [tauto|intuition congruence|lia].
  - subst r1. rewrite (CreateCart_in_memory c userId w Hauth).
    destruct (MemStore.is_down _ w); [cbn; intuition discriminate|].
    destruct (List.find _ (MemStore.carts w)) eqn:Hfind; [cbn; intuition discriminate|].
    intros _. apply find_none_filter. exact Hfind.
  - subst w1 r1. rewrite (CreateCart_in_memory c userId w Hauth).
    destruct (MemStore.is_down _ w); [cbn; split; [congruence|discriminate]|].
    destruct (List.find _ (MemStore.carts w)); [cbn; split; [congruence|discriminate]|].
    destruct (CreateCart_store_cases userId w) as [[Hsame Herr]|(id & Hnew & Hnil)];
      destruct (MemStore.CreateCart userId w) as [[e|] w2]; cbn in *;
      try congruence.
    + split; [congruence|discriminate].
    + split; [reflexivity|]. intros _. rewrite Hnew. intros Heq.
      apply (f_equal (@length Cart)) in Heq. rewrite length_app in Heq. cbn in Heq. lia.
  - intros Hdown Hnone. exact (CreateCart_asks_when_none c userId w Hauth Hdown Hnone).
  - intros Hdown Hup Hfree cart.
    destruct (CreateCart_creates c userId w Hauth Hdown Hup Hfree) as (H1 & H2 & H3).
    subst r2 w1 r1. fold cart in H1, H2, H3. rewrite H1 in *. cbn [snd world] in *.
    split; [reflexivity|]. split; [exact H2|exact H3].
  - intros r Hr Hok. exact (CreateCart_then_exists c userId w r Hauth Hinv Hr Hok).
  - exact Hinv1.
  - exact (CreateCart_at_most_one c userId w1 Hauth Hinv1).
Qed.

Lemma C4_witness :
  let r1 := run (handlers.CreateCart list_items) w_fresh in
  let w1 := world (snd r1) in
  let r2 := run (handlers.CreateCart list_items) w1 in
  let cart := mkCart (gen 0) U None in
  r1 = (Next tt,
        mkHState (MemStore.mkWorld [cart] [] [product] ∅ [] 1000 1 gen)
          [SuccessResponse http.StatusCreated "Cart created" DataNil]
          [EvGetCartByUserId U; EvCreateCart U]) /\
  MemStore.live_carts_of U w1 = [cart] /\
  r2 = (Returned,
        mkHState w1
          [SuccessResponse http.StatusOK "Cart already exists" (DataCart cart)]
          [EvGetCartByUserId U]) /\
  (MemStore.carts w1 <> MemStore.carts w_fresh <->
   written (snd r1) = [SuccessResponse http.StatusCreated "Cart created" DataNil]) /\
  (forall r,
     written (snd r1) = [r] -> is_success r = true ->
     exists cart,
       MemStore.live_carts_of U w1 = [cart] /\
       r2 = (Returned,
             mkHState w1
               [SuccessResponse http.StatusOK "Cart already exists" (DataCart cart)]
               [EvGetCartByUserId U])) /\
  (length (MemStore.live_carts_of U w1) <= 1)%nat /\
  (length (MemStore.live_carts_of U (world (snd r2))) <= 1)%nat.
Proof.
  destruct (C4_create_cart_idempotent Fixture.libs list_items U w_fresh)
    as (_ & _ & Hiff & _ & Hnew & Hnext & Hone & Htwo).
  - apply authenticated_request.
  - cbn. lia.
  - destruct Hnew as (H1 & H2 & H3); [reflexivity|reflexivity|intros row []|].
    intros r1 w1 r2 cart.
    split; [exact H1|]. split; [exact H2|]. split; [exact H3|].
    split; [exact Hiff|]. split; [exact Hnext|]. split; [exact Hone|exact Htwo].
Defined.

(** C5: a Cart Store failure is surfaced as an internal error with status
    500.  Two handlers answer otherwise: when loading the items fails after a
    cache miss, list-items answers with status 401; when the product lookup
    fails, whatever the error, add-item answers with status 400 and "Product
    does not exist". *)
Theorem C5_store_failure_not_surfaced_as_500
    (L : Libs) (W : Type) (B : Backend W)
    (c c' : gin.Context) (userId userId' : UUID) (req : AddCartItemRequest)
    (cart cart' : Cart) (payload : string) (items : list CartItems)
    (product : option Product) (e e' : error) (w w1 w2 w3 w' w1' w2' : W) :
  authenticated_as c userId ->
  db_GetCartByUserId userId w = ((Some cart, None), w1) ->
  rdb_Get (fmt.Sprintf_cart (Cart_ID cart)) w1 = ((payload, Some redis_Nil), w2) ->
  db_GetCartItems (Cart_ID cart) w2 = ((items, Some e), w3) ->
  gin.ShouldBindJSON c' = (req, None) ->
  authenticated_as c' userId' ->
  db_GetCartByUserId userId' w' = ((Some cart', None), w1') ->
  db_GetProductByUUID (req_ProductID req) w1' = ((product, Some e'), w2') ->
  written (snd (run (handlers.GetAllCartItems c) w)) =
    [ErrorResponse http.StatusUnauthorized "Failed to fetch" (Some e)] /\
  written (snd (run (handlers.AddOrUpdateCartItem c') w')) =
    [ErrorResponse http.StatusBadRequest "Product does not exist" None].
Proof.
  intros Hauth Hget Hmiss Hload Hreq Hauth' Hget' Hprod. split.
  - rewrite (GetAllCartItems_load_error_on_miss c userId cart payload items e
               w w1 w2 w3 Hauth Hget Hmiss Hload).
    reflexivity.
  - rewrite (AddOrUpdateCartItem_product_error c' userId' req cart' product e'
               w' w1' w2' Hreq Hauth' Hget' Hprod).
    reflexivity.
Qed.

Lemma C5_witness :
  written (snd (run (handlers.GetAllCartItems list_items) w_items_down)) =
    [ErrorResponse 401 "Failed to fetch" (Some MemStore.unreachable)] /\
  written (snd (run (handlers.AddOrUpdateCartItem (add 1)) w_products_down)) =
    [ErrorResponse 400 "Product does not exist" None].
Proof.
  apply (C5_store_failure_not_surfaced_as_500 Fixture.libs MemStore.World
           MemStore.backend list_items (add 1) U U (mkAddCartItemRequest P 1)
           cart cart "" [] None MemStore.unreachable MemStore.unreachable
           w_items_down w_items_down w_items_down w_items_down
           w_products_down w_products_down w_products_down).
  - apply authenticated_request.
  - reflexivity.
  - reflexivity.
  - reflexivity.
  - reflexivity.
  - apply authenticated_request.
  - reflexivity.
  - reflexivity.
Defined.

(** C6: a cart operation that completes successfully answers with a success
    response carrying a status code, a message and a data payload.  Add-item
    and remove-item never write a success response, whatever the request and
    the backend; on the scenario both complete, change the store and write
    nothing at all. *)
Theorem C6_successful_write_answers_nothing :
  (forall (L : Libs) (W : Type) (B : Backend W) (c : gin.Context) (w : W),
     Forall (fun r => is_success r = false)
       (written (snd (run (handlers.AddOrUpdateCartItem c) w))) /\
     Forall (fun r => is_success r = false)
       (written (snd (run (handlers.RemoveCartItemFromCart c) w)))) /\
  (let r := run (handlers.AddOrUpdateCartItem (add 2)) w_cart in
   fst r = Next tt /\ written (snd r) = [] /\
   MemStore.cart_items (world (snd r)) = [set_Quantity 5 item]) /\
  (let r := run (handlers.AddOrUpdateCartItem (add 3)) w_empty_cart in
   fst r = Next tt /\ written (snd r) = [] /\
   MemStore.live_items_of C P (world (snd r)) = [mkCartItems (gen 0) C P 3 None]) /\
  (let r := run (handlers.RemoveCartItemFromCart remove) w_cart in
   fst r = Next tt /\ written (snd r) = [] /\
   MemStore.live_items_of C P (world (snd r)) = []).
Proof.
  split; [|vm_compute; repeat split].
  intros L W B c w. split.
  - apply AddOrUpdateCartItem_writes_no_success.
  - apply RemoveCartItemFromCart_writes_no_success.
Qed.

(** C7: in list-items, when the cart lookup fails with a store error other
    than record-not-found and returns no cart, the handler writes the
    internal-error response and goes on: it reaches the construction of the
    cache key and panics on the nil cart, before any call to the cache. *)
Theorem C7_list_items_continues_after_lookup_error
    (L : Libs) (W : Type) (B : Backend W)
    (c : gin.Context) (userId : UUID) (e : error) (w w' : W) :
  authenticated_as c userId ->
  db_GetCartByUserId userId w = ((None, Some e), w') ->
  e <> gorm_ErrRecordNotFound ->
  run (handlers.GetAllCartItems c) w =
    (Panicked "runtime error: invalid memory address or nil pointer dereference",
     mkHState w'
       [ErrorResponse http.StatusInternalServerError "Failed to fetch cart" (Some e)]
       [EvGetCartByUserId userId]).
Proof. apply GetAllCartItems_lookup_error. Qed.

Lemma C7_witness :
  run (handlers.GetAllCartItems list_items) w_lookup_down =
    (Panicked "runtime error: invalid memory address or nil pointer dereference",
     mkHState w_lookup_down
       [ErrorResponse 500 "Failed to fetch cart" (Some MemStore.unreachable)]
       [EvGetCartByUserId U]).
Proof.
  apply (C7_list_items_continues_after_lookup_error Fixture.libs MemStore.World
           MemStore.backend list_items U MemStore.unreachable
           w_lookup_down w_lookup_down).
  - apply authenticated_request.
  - reflexivity.
  - discriminate.
Defined.

(** C8: a list-items read that gets a cache hit whose payload does not
    deserialize answers with an internal error, status 500; it neither loads
    the items from the store nor writes the cache. *)
Theorem C8_corrupt_cache_entry_is_internal_error
    (L : Libs) (W : Type) (B : Backend W)
    (c : gin.Context) (userId : UUID) (cart : Cart) (payload : string)
    (items : list CartItems) (e : error) (w w1 w2 : W) :
  authenticated_as c userId ->
  db_GetCartByUserId userId w = ((Some cart, None), w1) ->
  rdb_Get (fmt.Sprintf_cart (Cart_ID cart)) w1 = ((payload, None), w2) ->
  json_Unmarshal payload = (items, Some e) ->
  let r := run (handlers.GetAllCartItems c) w in
  r = (Returned,
       mkHState w2
         [ErrorResponse http.StatusInternalServerError "Failed to parse cache" (Some e)]
         [EvGetCartByUserId userId; EvRedisGet (fmt.Sprintf_cart (Cart_ID cart))]) /\
  existsb is_store_load (calls (snd r)) = false /\
  existsb is_cache_set (calls (snd r)) = false.
Proof.
  intros Hauth Hget Hhit Hbad r. subst r.
  rewrite (GetAllCartItems_corrupt_cache c userId cart payload items e w w1 w2
             Hauth Hget Hhit Hbad).
  repeat split.
Qed.

Lemma C8_witness :
  let r := run (handlers.GetAllCartItems list_items) w_corrupt in
  r = (Returned,
       mkHState w_corrupt
         [ErrorResponse 500 "Failed to parse cache"
            (Some (errors_New "invalid character looking for beginning of value"))]
         [EvGetCartByUserId U; EvRedisGet (fmt.Sprintf_cart C)]) /\
  existsb is_store_load (calls (snd r)) = false /\
  existsb is_cache_set (calls (snd r)) = false.
Proof.
  apply (C8_corrupt_cache_entry_is_internal_error Fixture.libs MemStore.World
           MemStore.backend list_items U cart "<html>502 Bad Gateway</html>" []
           (errors_New "invalid character looking for beginning of value")
           w_corrupt w_corrupt w_corrupt).
  - apply authenticated_request.
  - reflexivity.
  - reflexivity.
  - reflexivity.
Defined.

(** C9: a list-items read where the cache answers with an error other than
    a miss, and the store load succeeds, succeeds: the items come from the
    store, the response is tagged as served from the store, and the cache is
    not written. *)
Theorem C9_cache_error_falls_back_to_store
    (L : Libs) (W : Type) (B : Backend W)
    (c : gin.Context) (userId : UUID) (cart : Cart) (payload : string) (e : error)
    (items : list CartItems) (w w1 w2 w3 : W) :
  authenticated_as c userId ->
  db_GetCartByUserId userId w = ((Some cart, None), w1) ->
  rdb_Get (fmt.Sprintf_cart (Cart_ID cart)) w1 = ((payload, Some e), w2) ->
  e <> redis_Nil ->
  db_GetCartItems (Cart_ID cart) w2 = ((items, None), w3) ->
  let r := run (handlers.GetAllCartItems c) w in
  r = (Returned,
       mkHState w3
         [SuccessResponse http.StatusOK "data fetched from DB (Redis down)"
            (DataCartItems items)]
         [EvGetCartByUserId userId; EvRedisGet (fmt.Sprintf_cart (Cart_ID cart));
          EvPrintln "Redis Error:"; EvGetCartItems (Cart_ID cart)]) /\
  existsb is_cache_set (calls (snd r)) = false.
Proof.
  intros Hauth Hget Herr He Hload r. subst r.
  rewrite (GetAllCartItems_cache_error c userId cart payload e items w w1 w2 w3
             Hauth Hget Herr He Hload).
  split; reflexivity.
Qed.

Lemma C9_witness :
  let r := run (handlers.GetAllCartItems list_items) w_redis_down in
  r = (Returned,
       mkHState w_redis_down
         [SuccessResponse 200 "data fetched from DB (Redis down)" (DataCartItems [item])]
         [EvGetCartByUserId U; EvRedisGet (fmt.Sprintf_cart C);
          EvPrintln "Redis Error:"; EvGetCartItems C]) /\
  existsb is_cache_set (calls (snd r)) = false.
Proof.
  apply (C9_cache_error_falls_back_to_store Fixture.libs MemStore.World
           MemStore.backend list_items U cart "" MemStore.unreachable [item]
           w_redis_down w_redis_down w_redis_down w_redis_down).
  - apply authenticated_request.
  - reflexivity.
  - reflexivity.
  - discriminate.
  - reflexivity.
Defined.

(** C10: the administrative [GetCart] and [DeleteCart] perform the lookup or
    the delete of the given user's cart and invalidate the cache.  Both
    handlers have an empty body: whatever the request and the backend, they
    make no call, write no response and leave the world as it is; on the
    scenario the cart, its rows and its cache entry are all still there
    after [DeleteCart]. *)
Theorem C10_admin_handlers_do_nothing :
  (forall (L : Libs) (W : Type) (B : Backend W) (c : gin.Context) (w : W),
     run (handlers.GetCart c) w = (Next tt, mkHState w [] []) /\
     run (handlers.DeleteCart c) w = (Next tt, mkHState w [] [])) /\
  (let w' := world (snd (run (handlers.DeleteCart remove) w_cached)) in
   MemStore.live_carts_of U w' = [cart] /\
   MemStore.live_items_of C P w' = [item] /\
   MemStore.cached (fmt.Sprintf_cart C) w' = Some (json_Marshal [item])).
Proof.
  split; [intros; split; reflexivity|].
  vm_compute. repeat split.
Qed.

(** * Further properties of the cart handlers *)

Import Cases.

(** ** Requests without a usable identity *)

(** X1: a request that carries no identity is answered 401 "Unauthorized" by
    every cart handler, before any call to the store or the cache; for
    add-item this holds once the body has passed validation. *)
Theorem unauthenticated_request_stops_at_401
    (L : Libs) (W : Type) (B : Backend W) (c : gin.Context) (w : W) :
  gin.keys_userId c = None ->
  let denied :=
    (Returned,
     mkHState w [ErrorResponse http.StatusUnauthorized "Unauthorized" None] []) in
  run (handlers.CreateCart c) w = denied /\
  run (handlers.GetAllCartItems c) w = denied /\
  run (handlers.RemoveCartItemFromCart c) w = denied /\
  (snd (gin.ShouldBindJSON c) = None -> run (handlers.AddOrUpdateCartItem c) w = denied).
Proof.
  intros Hnone denied. subst denied.
  unfold handlers.CreateCart, handlers.GetAllCartItems, handlers.RemoveCartItemFromCart,
    handlers.AddOrUpdateCartItem, gin.Get_userId.
  rewrite Hnone. repeat split.
  destruct (gin.ShouldBindJSON c) as [req err]. cbn. intros ->. reflexivity.
Qed.

Lemma unauthenticated_request_stops_at_401_witness :
  let denied :=
    (Returned,
     mkHState Scenario.w_cart
       [ErrorResponse http.StatusUnauthorized "Unauthorized" None] []) in
  run (handlers.CreateCart (anonymous None)) Scenario.w_cart = denied /\
  run (handlers.GetAllCartItems (anonymous None)) Scenario.w_cart = denied /\
  run (handlers.RemoveCartItemFromCart (anonymous None)) Scenario.w_cart = denied /\
  (snd (gin.ShouldBindJSON (anonymous None)) = None ->
   run (handlers.AddOrUpdateCartItem (anonymous None)) Scenario.w_cart = denied).
Proof.
  apply (unauthenticated_request_stops_at_401 Fixture.libs MemStore.World
           MemStore.backend (anonymous None) Scenario.w_cart).
  reflexivity.
Defined.

(** X2: a stored identity that [uuid.Parse] rejects is answered 400 with the
    parse error, before any call to the store or the cache: [CreateCart]
    under the key "invalid userid", the other handlers under "error". *)
Theorem malformed_identity_stops_at_400
    (L : Libs) (W : Type) (B : Backend W) (c : gin.Context) (w : W)
    (val : string) (u : UUID) (e : error) :
  gin.keys_userId c = Some val ->
  uuid_Parse val = (u, Some e) ->
  run (handlers.CreateCart c) w =
    (Returned,
     mkHState w [JSONResponse http.StatusBadRequest "invalid userid" (Some e)] []) /\
  run (handlers.GetAllCartItems c) w =
    (Returned, mkHState w [JSONResponse http.StatusBadRequest "error" (Some e)] []) /\
  run (handlers.RemoveCartItemFromCart c) w =
    (Returned, mkHState w [JSONResponse http.StatusBadRequest "error" (Some e)] []) /\
  (snd (gin.ShouldBindJSON c) = None ->
   run (handlers.AddOrUpdateCartItem c) w =
     (Returned, mkHState w [JSONResponse http.StatusBadRequest "error" (Some e)] [])).
Proof.
  intros Hval Hparse.
  unfold handlers.CreateCart, handlers.GetAllCartItems, handlers.RemoveCartItemFromCart,
    handlers.AddOrUpdateCartItem, gin.Get_userId.
  rewrite Hval, Hparse. repeat split.
  destruct (gin.ShouldBindJSON c) as [req err]. cbn. intros ->. reflexivity.
Qed.

Lemma malformed_identity_stops_at_400_witness :
  run (handlers.GetAllCartItems (forged None)) Scenario.w_cart =
    (Returned,
     mkHState Scenario.w_cart
       [JSONResponse http.StatusBadRequest "error"
          (Some (errors_New "invalid UUID format"))] []).
Proof.
  apply (malformed_identity_stops_at_400 Fixture.libs MemStore.World MemStore.backend
           (forged None) Scenario.w_cart "admin" uuid.Nil
           (errors_New "invalid UUID format")); reflexivity.
Defined.

(** X3: add-item validates the body first.  A missing or ill-typed body, a
    quantity below 1 or beyond [int], or the zero product id is answered 400
    "Invalid request body" before the identity is looked at and before any
    call to the store or the cache. *)
Theorem invalid_body_rejected_before_anything
    (L : Libs) (W : Type) (B : Backend W) (c : gin.Context) (w : W) :
  (gin.body c = None \/
   exists req, gin.body c = Some req /\
     (req_Quantity req < 1 \/ goint.max_int < req_Quantity req \/
      req_ProductID req = uuid.Nil)) ->
  exists e,
    run (handlers.AddOrUpdateCartItem c) w =
      (Returned,
       mkHState w [ErrorResponse http.StatusBadRequest "Invalid request body" (Some e)]
         []).
Proof.
  intros Hbad.
  assert (Hbind : exists r e, gin.ShouldBindJSON c = (r, Some e)).
  { unfold gin.ShouldBindJSON.
    destruct Hbad as [-> | (req & -> & Hreq)]; [eauto|].
    destruct (goint.in_rangeb (req_Quantity req)) eqn:Hr; cbn; [|eauto].
    apply goint_in_rangeb_spec in Hr. unfold goint.in_range, goint.min_int in Hr.
    case_bool_decide; [eauto|].
    destruct (req_Quantity req <? 1) eqn:Hq; [eauto|].
    apply Z.ltb_ge in Hq. destruct Hreq as [Hlt | [Hgt | Hnil]];
      [lia | unfold goint.max_int in *; lia | contradiction]. }
  destruct Hbind as (r & e & Hbind). exists e.
  unfold handlers.AddOrUpdateCartItem. rewrite Hbind. reflexivity.
Qed.

Lemma invalid_body_rejected_before_anything_witness :
  exists e,
    run (handlers.AddOrUpdateCartItem (anonymous (Some (mkAddCartItemRequest Scenario.P 0))))
        Scenario.w_cart =
      (Returned,
       mkHState Scenario.w_cart
         [ErrorResponse http.StatusBadRequest "Invalid request body" (Some e)] []).
Proof.
  apply (invalid_body_rejected_before_anything Fixture.libs MemStore.World
           MemStore.backend).
  right. exists (mkAddCartItemRequest Scenario.P 0). split; [reflexivity|].
  left. cbn. lia.
Defined.

(** ** Add-item: the remaining paths *)

(** X4: the first add of a product is checked against the stock as it
    stands: a quantity above the stock is answered 400 "Product out of stock"
    with no write to the store and no cache call; a quantity within the stock
    (equal included) is handed to [CreateCartItem] as a row with the zero key,
    the cart, the product and the requested quantity.  The quantity has
    passed the binding, so the comparison is the mathematical one. *)
Theorem first_add_checks_stock
    (L : Libs) (W : Type) (B : Backend W)
    (c : gin.Context) (userId : UUID) (req : AddCartItemRequest)
    (cart : Cart) (product : Product) (cartItem : option CartItems) (w w1 w2 w3 : W) :
  gin.ShouldBindJSON c = (req, None) ->
  authenticated_as c userId ->
  db_GetCartByUserId userId w = ((Some cart, None), w1) ->
  db_GetProductByUUID (req_ProductID req) w1 = ((Some product, None), w2) ->
  db_GetCartItem (Cart_ID cart) (req_ProductID req) w2 =
    ((cartItem, Some gorm_ErrRecordNotFound), w3) ->
  let reads := [EvGetCartByUserId userId; EvGetProductByUUID (req_ProductID req);
                EvGetCartItem (Cart_ID cart) (req_ProductID req)] in
  let row :=
    mkCartItems uuid.Nil (Cart_ID cart) (req_ProductID req) (req_Quantity req) None in
  let key := "cart:" ++ uuid_String (Cart_ID cart) in
  let r := run (handlers.AddOrUpdateCartItem c) w in
  (NumberOfStock product < req_Quantity req ->
     r = (Returned,
          mkHState w3
            [ErrorResponse http.StatusBadRequest "Product out of stock" None] reads)) /\
  (req_Quantity req <= NumberOfStock product ->
     r = match db_CreateCartItem row w3 with
         | (Some e, w4) =>
             (Returned,
              mkHState w4
                [ErrorResponse http.StatusInternalServerError
                   "Failed to add cart item" (Some e)]
                (reads ++ [EvCreateCartItem row]))
         | (None, w4) =>
             match rdb_Del key w4 with
             | (derr, w5) =>
                 (Next tt,
                  mkHState w5 []
                    (reads ++ [EvCreateCartItem row; EvRedisDel key] ++
                     if not_nil derr then [EvPrintln "Failed to clear cache:"] else []))
             end
         end).
Proof.
  intros Hreq Hauth Hget Hprod Hitem reads row key r. subst r.
  destruct (ShouldBindJSON_ok c req Hreq) as (_ & _ & Hq).
  rewrite (AddOrUpdateCartItem_new_item c userId req cart product cartItem
             w w1 w2 w3 Hreq Hauth Hget Hprod Hitem).
  unfold goint.add. rewrite goint_wrap_in_range
    by (unfold goint.in_range, goint.min_int, goint.max_int in *; lia).
  rewrite Z.add_0_l, Z.gtb_ltb. fold reads row.
  split; intros Hcmp.
  - replace (NumberOfStock product <? req_Quantity req) with true
      by (symmetry; apply Z.ltb_lt; lia).
    reflexivity.
  - replace (NumberOfStock product <? req_Quantity req) with false
      by (symmetry; apply Z.ltb_ge; lia).
    reflexivity.
Qed.

Lemma first_add_checks_stock_witness :
  run (handlers.AddOrUpdateCartItem (Scenario.add 6)) Scenario.w_empty_cart =
    (Returned,
     mkHState Scenario.w_empty_cart
       [ErrorResponse http.StatusBadRequest "Product out of stock" None]
       [EvGetCartByUserId Scenario.U; EvGetProductByUUID Scenario.P;
        EvGetCartItem Scenario.C Scenario.P]).
Proof.
  apply (first_add_checks_stock Fixture.libs MemStore.World MemStore.backend
           (Scenario.add 6) Scenario.U (mkAddCartItemRequest Scenario.P 6)
           Scenario.cart Scenario.product None
           Scenario.w_empty_cart Scenario.w_empty_cart Scenario.w_empty_cart
           Scenario.w_empty_cart).
  - reflexivity.
  - apply authenticated_request.
  - reflexivity.
  - reflexivity.
  - reflexivity.
  - vm_compute. reflexivity.
Defined.

(** X5: when the lookup of the cart item fails with an error other than
    record-not-found, add-item answers 500 "Failed to fetch cart item" with
    the error; it writes nothing to the store and leaves the cache alone. *)
Theorem item_lookup_error_is_internal_error
    (L : Libs) (W : Type) (B : Backend W)
    (c : gin.Context) (userId : UUID) (req : AddCartItemRequest)
    (cart : Cart) (product : option Product) (cartItem : option CartItems) (e : error)
    (w w1 w2 w3 : W) :
  gin.ShouldBindJSON c = (req, None) ->
  authenticated_as c userId ->
  db_GetCartByUserId userId w = ((Some cart, None), w1) ->
  db_GetProductByUUID (req_ProductID req) w1 = ((product, None), w2) ->
  db_GetCartItem (Cart_ID cart) (req_ProductID req) w2 = ((cartItem, Some e), w3) ->
  e <> gorm_ErrRecordNotFound ->
  run (handlers.AddOrUpdateCartItem c) w =
    (Returned,
     mkHState w3
       [ErrorResponse http.StatusInternalServerError "Failed to fetch cart item" (Some e)]
       [EvGetCartByUserId userId; EvGetProductByUUID (req_ProductID req);
        EvGetCartItem (Cart_ID cart) (req_ProductID req)]).
Proof.
  intros Hreq Hauth Hget Hprod Hitem He.
  unfold handlers.AddOrUpdateCartItem. rewrite Hreq. enter Hauth.
  rewrite Hget. cbn. rewrite Hprod. cbn. rewrite Hitem. cbn.
  rewrite bool_decide_eq_false_2 by congruence. reflexivity.
Qed.

Lemma item_lookup_error_is_internal_error_witness :
  run (handlers.AddOrUpdateCartItem (Scenario.add 1)) w_item_lookup_down =
    (Returned,
     mkHState w_item_lookup_down
       [ErrorResponse http.StatusInternalServerError "Failed to fetch cart item"
          (Some MemStore.unreachable)]
       [EvGetCartByUserId Scenario.U; EvGetProductByUUID Scenario.P;
        EvGetCartItem Scenario.C Scenario.P]).
Proof.
  apply (item_lookup_error_is_internal_error Fixture.libs MemStore.World
           MemStore.backend (Scenario.add 1) Scenario.U
           (mkAddCartItemRequest Scenario.P 1) Scenario.cart (Some Scenario.product)
           None MemStore.unreachable
           w_item_lookup_down w_item_lookup_down w_item_lookup_down w_item_lookup_down).
  - reflexivity.
  - apply authenticated_request.
  - reflexivity.
  - reflexivity.
  - reflexivity.
  - discriminate.
Defined.

(** X6: add-item provisions a missing cart: when the lookup reports
    record-not-found it calls [CreateCart] and looks the cart up again.  A
    failed creation is answered 500 "Failed to create cart", a failed second
    lookup 500 "Failed to fetch cart"; in both cases the product is never
    looked up and nothing is written to the cart items. *)
Theorem add_item_cart_provisioning_failures
    (L : Libs) (W : Type) (B : Backend W)
    (c : gin.Context) (userId : UUID) (req : AddCartItemRequest)
    (cart0 : option Cart) (w w1 : W) :
  gin.ShouldBindJSON c = (req, None) ->
  authenticated_as c userId ->
  db_GetCartByUserId userId w = ((cart0, Some gorm_ErrRecordNotFound), w1) ->
  let r := run (handlers.AddOrUpdateCartItem c) w in
  match db_CreateCart userId w1 with
  | (Some e, w2) =>
      r = (Returned,
           mkHState w2
             [ErrorResponse http.StatusInternalServerError "Failed to create cart"
                (Some e)]
             [EvGetCartByUserId userId; EvCreateCart userId])
  | (None, w2) =>
      forall cart' e' w3,
        db_GetCartByUserId userId w2 = ((cart', Some e'), w3) ->
        r = (Returned,
             mkHState w3
               [ErrorResponse http.StatusInternalServerError "Failed to fetch cart"
                  (Some e')]
               [EvGetCartByUserId userId; EvCreateCart userId;
                EvGetCartByUserId userId])
  end.
Proof.
  intros Hreq Hauth Hget r. subst r.
  unfold handlers.AddOrUpdateCartItem. rewrite Hreq. enter Hauth.
  rewrite Hget. cbn. rewrite bool_decide_eq_true_2 by reflexivity. cbn.
  destruct (db_CreateCart userId w1) as [[e|] w2]; cbn; [reflexivity|].
  intros cart' e' w3 Hget2. rewrite Hget2. reflexivity.
Qed.

Lemma add_item_cart_provisioning_failures_witness :
  run (handlers.AddOrUpdateCartItem (Scenario.add 1)) w_create_down =
    (Returned,
     mkHState w_create_down
       [ErrorResponse http.StatusInternalServerError "Failed to create cart"
          (Some MemStore.unreachable)]
       [EvGetCartByUserId Scenario.U; EvCreateCart Scenario.U]).
Proof.
  apply (add_item_cart_provisioning_failures Fixture.libs MemStore.World
           MemStore.backend (Scenario.add 1) Scenario.U
           (mkAddCartItemRequest Scenario.P 1) None w_create_down w_create_down).
  - reflexivity.
  - apply authenticated_request.
  - reflexivity.
Defined.


(** ** What the handlers never do *)

Section Never.
Context `{Libs} {W : Type} `{Backend W}.

(** X7: each handler keeps to its part of the backend, whatever the request
    and whatever the backend answers: [CreateCart] makes no cache call and
    writes no cart item; list-items writes nothing to the store and never
    deletes a cache entry; remove-item never creates a cart and never
    inserts or updates a cart item. *)
Theorem handlers_keep_to_their_calls (c : gin.Context) (w : W) :
  (existsb is_cache_call (calls (snd (run (handlers.CreateCart c) w))) = false /\
   existsb is_item_write (calls (snd (run (handlers.CreateCart c) w))) = false) /\
  (existsb is_store_write (calls (snd (run (handlers.GetAllCartItems c) w))) = false /\
   existsb is_cache_del (calls (snd (run (handlers.GetAllCartItems c) w))) = false) /\
  (existsb is_cart_create (calls (snd (run (handlers.RemoveCartItemFromCart c) w))) = false /\
   existsb is_item_write (calls (snd (run (handlers.RemoveCartItemFromCart c) w))) = false).
Proof.
  repeat apply conj.
  1,2: unfold handlers.CreateCart; hunfold; crush_handler; reflexivity.
  1,2: unfold handlers.GetAllCartItems; hunfold; crush_handler; reflexivity.
  1,2: unfold handlers.RemoveCartItemFromCart; hunfold; crush_handler; reflexivity.
Qed.

(** X8: add-item deletes a cache entry exactly on the runs that complete
    without [return]; such a run has written a cart item (insert or update)
    and no response.  So no failed request invalidates the cache, and the
    outcome of the delete itself never changes the outcome of the request. *)
Theorem add_item_invalidates_iff_written (c : gin.Context) (w : W) :
  let r := run (handlers.AddOrUpdateCartItem c) w in
  (existsb is_cache_del (calls (snd r)) = true <-> fst r = Next tt) /\
  (fst r = Next tt ->
   written (snd r) = [] /\ existsb is_item_write (calls (snd r)) = true).
Proof.
  unfold handlers.AddOrUpdateCartItem. hunfold.
  crush_handler; repeat split; intros; try discriminate; reflexivity.
Qed.

(** X9: [CreateCart], add-item and remove-item write at most one response
    per request; list-items writes at most two (its lookup-error branch does
    not return). *)
Theorem response_counts (c : gin.Context) (w : W) :
  (length (written (snd (run (handlers.CreateCart c) w))) <= 1)%nat /\
  (length (written (snd (run (handlers.AddOrUpdateCartItem c) w))) <= 1)%nat /\
  (length (written (snd (run (handlers.RemoveCartItemFromCart c) w))) <= 1)%nat /\
  (length (written (snd (run (handlers.GetAllCartItems c) w))) <= 2)%nat.
Proof.
  repeat split.
  - unfold handlers.CreateCart. hunfold. crush_handler; lia.
  - unfold handlers.AddOrUpdateCartItem. hunfold. crush_handler; lia.
  - unfold handlers.RemoveCartItemFromCart. hunfold. crush_handler; lia.
  - unfold handlers.GetAllCartItems. hunfold. crush_handler; lia.
Qed.

(** The codes of the responses the handlers write, the status the client
    receives, and when add-item and remove-item are answered 200. *)
Lemma codes_of_any_run (c : gin.Context) (w : W) :
  (forallb (has_code [200; 201; 400; 401; 500])
     (written (snd (run (handlers.CreateCart c) w))) = true /\
   forallb (has_code [400; 401; 500])
     (written (snd (run (handlers.AddOrUpdateCartItem c) w))) = true /\
   forallb (has_code [200; 400; 401; 500])
     (written (snd (run (handlers.GetAllCartItems c) w))) = true /\
   forallb (has_code [400; 401; 500])
     (written (snd (run (handlers.RemoveCartItemFromCart c) w))) = true) /\
  (In (reply_status (run (handlers.CreateCart c) w)) [200; 201; 400; 401; 500] /\
   In (reply_status (run (handlers.AddOrUpdateCartItem c) w)) [200; 400; 401; 500] /\
   In (reply_status (run (handlers.GetAllCartItems c) w)) [200; 400; 401; 500] /\
   In (reply_status (run (handlers.RemoveCartItemFromCart c) w)) [200; 400; 401; 500]) /\
  (reply_status (run (handlers.AddOrUpdateCartItem c) w) = 200 <->
   silent (run (handlers.AddOrUpdateCartItem c) w)) /\
  (reply_status (run (handlers.RemoveCartItemFromCart c) w) = 200 <->
   silent (run (handlers.RemoveCartItemFromCart c) w)).
Proof.
  split; [|split; [|split]].
  - repeat split.
    + unfold handlers.CreateCart. hunfold. crush_handler; reflexivity.
    + unfold handlers.AddOrUpdateCartItem. hunfold. crush_handler; reflexivity.
    + unfold handlers.GetAllCartItems. hunfold. crush_handler; reflexivity.
    + unfold handlers.RemoveCartItemFromCart. hunfold. crush_handler; reflexivity.
  - unfold reply_status. repeat split.
    + unfold handlers.CreateCart. hunfold. crush_handler; tauto.
    + unfold handlers.AddOrUpdateCartItem. hunfold. crush_handler; tauto.
    + unfold handlers.GetAllCartItems. hunfold. crush_handler; tauto.
    + unfold handlers.RemoveCartItemFromCart. hunfold. crush_handler; tauto.
  - unfold reply_status, silent, handlers.AddOrUpdateCartItem. hunfold.
    crush_handler; (split; [intros Hs|intros [Hf Hw]]);
      first [discriminate | split; reflexivity | reflexivity].
  - unfold reply_status, silent, handlers.RemoveCartItemFromCart. hunfold.
    crush_handler; (split; [intros Hs|intros [Hf Hw]]);
      first [discriminate | split; reflexivity | reflexivity].
Qed.

End Never.

(** X10: the status codes of the cart handlers, for every request and
    backend.  The responses a handler writes carry 200, 201, 400, 401 or
    500 in [CreateCart], 200, 400, 401 or 500 in list-items, and 400, 401 or
    500 only in add-item and remove-item.  The client receives the status
    of the first response written, and gin's 200 when the handler ends
    without writing one: 200, 201, 400, 401 or 500 from [CreateCart], and
    200, 400, 401 or 500 from each of the other three.  Add-item and
    remove-item are answered 200 exactly on the runs that complete without
    writing a response; on the scenario, adding two units and removing the
    product are such runs. *)
Theorem status_codes :
  (forall (L : Libs) (W : Type) (B : Backend W) (c : gin.Context) (w : W),
     (forallb (has_code [200; 201; 400; 401; 500])
        (written (snd (run (handlers.CreateCart c) w))) = true /\
      forallb (has_code [400; 401; 500])
        (written (snd (run (handlers.AddOrUpdateCartItem c) w))) = true /\
      forallb (has_code [200; 400; 401; 500])
        (written (snd (run (handlers.GetAllCartItems c) w))) = true /\
      forallb (has_code [400; 401; 500])
        (written (snd (run (handlers.RemoveCartItemFromCart c) w))) = true) /\
     (In (reply_status (run (handlers.CreateCart c) w)) [200; 201; 400; 401; 500] /\
      In (reply_status (run (handlers.AddOrUpdateCartItem c) w)) [200; 400; 401; 500] /\
      In (reply_status (run (handlers.GetAllCartItems c) w)) [200; 400; 401; 500] /\
      In (reply_status (run (handlers.RemoveCartItemFromCart c) w))
        [200; 400; 401; 500]) /\
     (reply_status (run (handlers.AddOrUpdateCartItem c) w) = 200 <->
      silent (run (handlers.AddOrUpdateCartItem c) w)) /\
     (reply_status (run (handlers.RemoveCartItemFromCart c) w) = 200 <->
      silent (run (handlers.RemoveCartItemFromCart c) w))) /\
  reply_status (run (handlers.AddOrUpdateCartItem (add 2)) w_cart) = 200 /\
  reply_status (run (handlers.RemoveCartItemFromCart remove) w_cart) = 200.
Proof.
  split; [|split; vm_compute; reflexivity].
  intros L W B c w. apply codes_of_any_run.
Qed.

(** ** List-items: the cache paths *)

(** X11: on a cache miss list-items loads the items from the store, stores
    their JSON under "cart:" + cart id with an expiration of 24 hours, and
    answers 200 "data fetch successfully" with the loaded items; a failing
    cache write is logged and changes nothing in the answer. *)
Theorem cache_miss_loads_and_populates
    (L : Libs) (W : Type) (B : Backend W)
    (c : gin.Context) (userId : UUID) (cart : Cart) (payload : string)
    (items : list CartItems) (w w1 w2 w3 : W) :
  authenticated_as c userId ->
  db_GetCartByUserId userId w = ((Some cart, None), w1) ->
  rdb_Get ("cart:" ++ uuid_String (Cart_ID cart)) w1 = ((payload, Some redis_Nil), w2) ->
  db_GetCartItems (Cart_ID cart) w2 = ((items, None), w3) ->
  let key := "cart:" ++ uuid_String (Cart_ID cart) in
  let day := 24 * 3600 * 1000000000 in
  run (handlers.GetAllCartItems c) w =
    match rdb_Set key (json_Marshal items) day w3 with
    | (serr, w4) =>
        (Returned,
         mkHState w4
           [SuccessResponse http.StatusOK "data fetch successfully" (DataCartItems items)]
           ([EvGetCartByUserId userId; EvRedisGet key; EvGetCartItems (Cart_ID cart);
             EvRedisSet key (json_Marshal items) day] ++
            if not_nil serr then [EvPrintln "Failed to set cache:"] else []))
    end.
Proof.
  intros Hauth Hget Hmiss Hload key day.
  unfold handlers.GetAllCartItems. enter Hauth.
  rewrite Hget. cbn. unfold fmt.Sprintf_cart. rewrite Hmiss. cbn.
  rewrite bool_decide_eq_true_2 by reflexivity. cbn. rewrite Hload. cbn.
  fold key. change (24 * time.Hour) with day.
  destruct (rdb_Set key (json_Marshal items) day w3) as [[e|] w4]; reflexivity.
Qed.

Lemma cache_miss_loads_and_populates_witness :
  written (snd (run (handlers.GetAllCartItems Scenario.list_items) w_set_down)) =
    [SuccessResponse http.StatusOK "data fetch successfully"
       (DataCartItems [Scenario.item])].
Proof.
  rewrite (cache_miss_loads_and_populates Fixture.libs MemStore.World MemStore.backend
             Scenario.list_items Scenario.U Scenario.cart "" [Scenario.item]
             w_set_down w_set_down w_set_down w_set_down
             (authenticated_request _ _) eq_refl eq_refl eq_refl).
  reflexivity.
Defined.

(** X12: on a cache hit whose payload deserializes list-items answers 200
    "data fetched from Redis" with the cached items; it does not load the
    items from the store and does not write the cache. *)
Theorem cache_hit_is_served_from_cache
    (L : Libs) (W : Type) (B : Backend W)
    (c : gin.Context) (userId : UUID) (cart : Cart) (payload : string)
    (items : list CartItems) (w w1 w2 : W) :
  authenticated_as c userId ->
  db_GetCartByUserId userId w = ((Some cart, None), w1) ->
  rdb_Get ("cart:" ++ uuid_String (Cart_ID cart)) w1 = ((payload, None), w2) ->
  json_Unmarshal payload = (items, None) ->
  run (handlers.GetAllCartItems c) w =
    (Next tt,
     mkHState w2
       [SuccessResponse http.StatusOK "data fetched from Redis" (DataCartItems items)]
       [EvGetCartByUserId userId; EvRedisGet ("cart:" ++ uuid_String (Cart_ID cart))]).
Proof.
  intros Hauth Hget Hhit Hok.
  unfold handlers.GetAllCartItems. enter Hauth.
  rewrite Hget. cbn. unfold fmt.Sprintf_cart. rewrite Hhit. cbn. rewrite Hok.
  reflexivity.
Qed.

Lemma cache_hit_is_served_from_cache_witness :
  run (handlers.GetAllCartItems Scenario.list_items) Scenario.w_cached =
    (Next tt,
     mkHState Scenario.w_cached
       [SuccessResponse http.StatusOK "data fetched from Redis"
          (DataCartItems [Scenario.item])]
       [EvGetCartByUserId Scenario.U;
        EvRedisGet ("cart:" ++ uuid_String (Cart_ID Scenario.cart))]).
Proof.
  apply (cache_hit_is_served_from_cache Fixture.libs MemStore.World MemStore.backend
           Scenario.list_items Scenario.U Scenario.cart
           (json_Marshal [Scenario.item]) [Scenario.item]
           Scenario.w_cached Scenario.w_cached Scenario.w_cached).
  - apply authenticated_request.
  - reflexivity.
  - reflexivity.
  - reflexivity.
Defined.

(** X13: only add-item provisions a cart.  When the lookup reports
    record-not-found, list-items answers 500 "Cart does not exist" and
    remove-item 500 "Failed to fetch cart"; neither creates a cart nor calls
    the cache. *)
Theorem missing_cart_is_not_provisioned_by_reads_and_removes
    (L : Libs) (W : Type) (B : Backend W)
    (c : gin.Context) (userId : UUID) (cart : option Cart) (w w1 : W) :
  authenticated_as c userId ->
  db_GetCartByUserId userId w = ((cart, Some gorm_ErrRecordNotFound), w1) ->
  run (handlers.GetAllCartItems c) w =
    (Returned,
     mkHState w1
       [ErrorResponse http.StatusInternalServerError "Cart does not exist"
          (Some gorm_ErrRecordNotFound)]
       [EvGetCartByUserId userId]) /\
  run (handlers.RemoveCartItemFromCart c) w =
    (Returned,
     mkHState w1
       [ErrorResponse http.StatusInternalServerError "Failed to fetch cart"
          (Some gorm_ErrRecordNotFound)]
       [EvGetCartByUserId userId]).
Proof.
  intros Hauth Hget. split.
  - unfold handlers.GetAllCartItems. enter Hauth. rewrite Hget. cbn.
    rewrite bool_decide_eq_true_2 by reflexivity. reflexivity.
  - unfold handlers.RemoveCartItemFromCart. enter Hauth. rewrite Hget. reflexivity.
Qed.

Lemma missing_cart_is_not_provisioned_by_reads_and_removes_witness :
  run (handlers.GetAllCartItems Scenario.list_items) w_no_cart =
    (Returned,
     mkHState w_no_cart
       [ErrorResponse http.StatusInternalServerError "Cart does not exist"
          (Some gorm_ErrRecordNotFound)]
       [EvGetCartByUserId Scenario.U]) /\
  run (handlers.RemoveCartItemFromCart Scenario.remove) w_no_cart =
    (Returned,
     mkHState w_no_cart
       [ErrorResponse http.StatusInternalServerError "Failed to fetch cart"
          (Some gorm_ErrRecordNotFound)]
       [EvGetCartByUserId Scenario.U]).
Proof.
  split.
  - apply (missing_cart_is_not_provisioned_by_reads_and_removes Fixture.libs
             MemStore.World MemStore.backend Scenario.list_items Scenario.U None
             w_no_cart w_no_cart (authenticated_request _ _) eq_refl).
  - apply (missing_cart_is_not_provisioned_by_reads_and_removes Fixture.libs
             MemStore.World MemStore.backend Scenario.remove Scenario.U None
             w_no_cart w_no_cart (authenticated_request _ _) eq_refl).
Defined.

(** ** Remove-item: the remaining paths *)

(** X14: remove-item looks the cart up before it reads the product id: a
    product id that [uuid.Parse] rejects is answered 400 "Invalid product ID"
    after the cart lookup, and nothing is removed; and when the store fails
    to remove, the answer is 500 "Failed to remove cart item" and the cache
    is left alone. *)
Theorem remove_item_rejections
    (L : Libs) (W : Type) (B : Backend W)
    (c : gin.Context) (userId : UUID) (cart : option Cart) (w w1 : W) :
  authenticated_as c userId ->
  db_GetCartByUserId userId w = ((cart, None), w1) ->
  (forall u e,
     uuid_Parse (gin.param_product_id c) = (u, Some e) ->
     run (handlers.RemoveCartItemFromCart c) w =
       (Returned,
        mkHState w1 [ErrorResponse http.StatusBadRequest "Invalid product ID" (Some e)]
          [EvGetCartByUserId userId])) /\
  (forall cartv productID e w2,
     cart = Some cartv ->
     uuid_Parse (gin.param_product_id c) = (productID, None) ->
     db_RemoveCartItemFrom (Cart_ID cartv) productID w1 = (Some e, w2) ->
     run (handlers.RemoveCartItemFromCart c) w =
       (Returned,
        mkHState w2
          [ErrorResponse http.StatusInternalServerError "Failed to remove cart item"
             (Some e)]
          [EvGetCartByUserId userId; EvRemoveCartItemFrom (Cart_ID cartv) productID])).
Proof.
  intros Hauth Hget. split.
  - intros u e Hpid. unfold handlers.RemoveCartItemFromCart. enter Hauth.
    rewrite Hget. cbn. unfold gin.Param_product_id. rewrite Hpid. reflexivity.
  - intros cartv productID e w2 -> Hpid Hrm.
    unfold handlers.RemoveCartItemFromCart. enter Hauth.
    rewrite Hget. cbn. unfold gin.Param_product_id. rewrite Hpid. cbn.
    rewrite Hrm. reflexivity.
Qed.

Lemma remove_item_rejections_witness :
  run (handlers.RemoveCartItemFromCart remove_garbage) Scenario.w_cart =
    (Returned,
     mkHState Scenario.w_cart
       [ErrorResponse http.StatusBadRequest "Invalid product ID"
          (Some (errors_New "invalid UUID format"))]
       [EvGetCartByUserId Scenario.U]).
Proof.
  apply (proj1 (remove_item_rejections Fixture.libs MemStore.World MemStore.backend
                  remove_garbage Scenario.U (Some Scenario.cart)
                  Scenario.w_cart Scenario.w_cart (authenticated_request _ _) eq_refl)
           uuid.Nil (errors_New "invalid UUID format")).
  reflexivity.
Defined.

(** ** Create-cart: when a cart is created *)

(** X15: [CreateCart] calls the store's [CreateCart] exactly when the
    lookup reports no cart: the error is record-not-found, or neither a cart
    nor an error came back.  In that case a successful creation is answered
    201 "Cart created" with no data (the new cart is not returned), and a
    failed one 500 "Failed to create cart" without the error detail. *)
Theorem create_cart_creates_iff_lookup_reports_none
    (L : Libs) (W : Type) (B : Backend W)
    (c : gin.Context) (userId : UUID) (cart : option Cart) (err : option error)
    (w w1 : W) :
  authenticated_as c userId ->
  db_GetCartByUserId userId w = ((cart, err), w1) ->
  let r := run (handlers.CreateCart c) w in
  let none := err = Some gorm_ErrRecordNotFound \/ (err = None /\ cart = None) in
  (existsb is_cart_create (calls (snd r)) = true <-> none) /\
  (none ->
   r = match db_CreateCart userId w1 with
       | (Some e, w2) =>
           (Returned,
            mkHState w2
              [ErrorResponse http.StatusInternalServerError "Failed to create cart" None]
              [EvGetCartByUserId userId; EvCreateCart userId])
       | (None, w2) =>
           (Next tt,
            mkHState w2 [SuccessResponse http.StatusCreated "Cart created" DataNil]
              [EvGetCartByUserId userId; EvCreateCart userId])
       end).
Proof.
  intros Hauth Hget r none. subst r none.
  unfold handlers.CreateCart. enter Hauth. rewrite Hget. cbn.
  destruct err as [[| |msg]|], cart as [cartv|]; cbn;
    try rewrite bool_decide_eq_true_2 by reflexivity;
    try rewrite bool_decide_eq_false_2 by discriminate; cbn;
    try (destruct (db_CreateCart userId w1) as [[e|] w2]; cbn);
    (split; [split; [try discriminate; auto|intros; try reflexivity]|intros; try reflexivity]);
    intuition (try discriminate; try congruence).
Qed.

Lemma create_cart_creates_iff_lookup_reports_none_witness :
  run (handlers.CreateCart Scenario.list_items) w_no_cart =
    (Next tt,
     mkHState (snd (MemStore.CreateCart Scenario.U w_no_cart))
       [SuccessResponse http.StatusCreated "Cart created" DataNil]
       [EvGetCartByUserId Scenario.U; EvCreateCart Scenario.U]).
Proof.
  apply (proj2 (create_cart_creates_iff_lookup_reports_none Fixture.libs MemStore.World
                  MemStore.backend Scenario.list_items Scenario.U None
                  (Some gorm_ErrRecordNotFound) w_no_cart w_no_cart
                  (authenticated_request _ _) eq_refl)).
  left. reflexivity.
Defined.

(** ** Add-item: provisioning a cart *)

(** X16: when the user has no cart, add-item creates one, looks it up again
    and goes on with the cart it got back: for a product in stock that the
    new cart does not hold, it hands [CreateCartItem] a row for that cart
    and, once the row is stored, deletes "cart:" + the new cart's id. *)
Theorem add_item_provisions_missing_cart
    (L : Libs) (W : Type) (B : Backend W)
    (c : gin.Context) (userId : UUID) (req : AddCartItemRequest)
    (cart0 : option Cart) (cart : Cart) (product : Product)
    (cartItem : option CartItems) (w w1 w2 w3 w4 w5 : W) :
  gin.ShouldBindJSON c = (req, None) ->
  authenticated_as c userId ->
  db_GetCartByUserId userId w = ((cart0, Some gorm_ErrRecordNotFound), w1) ->
  db_CreateCart userId w1 = (None, w2) ->
  db_GetCartByUserId userId w2 = ((Some cart, None), w3) ->
  db_GetProductByUUID (req_ProductID req) w3 = ((Some product, None), w4) ->
  db_GetCartItem (Cart_ID cart) (req_ProductID req) w4 =
    ((cartItem, Some gorm_ErrRecordNotFound), w5) ->
  req_Quantity req <= NumberOfStock product ->
  let row :=
    mkCartItems uuid.Nil (Cart_ID cart) (req_ProductID req) (req_Quantity req) None in
  let key := "cart:" ++ uuid_String (Cart_ID cart) in
  let steps := [EvGetCartByUserId userId; EvCreateCart userId; EvGetCartByUserId userId;
                EvGetProductByUUID (req_ProductID req);
                EvGetCartItem (Cart_ID cart) (req_ProductID req)] in
  run (handlers.AddOrUpdateCartItem c) w =
    match db_CreateCartItem row w5 with
    | (Some e, w6) =>
        (Returned,
         mkHState w6
           [ErrorResponse http.StatusInternalServerError "Failed to add cart item"
              (Some e)]
           (steps ++ [EvCreateCartItem row]))
    | (None, w6) =>
        match rdb_Del key w6 with
        | (derr, w7) =>
            (Next tt,
             mkHState w7 []
               (steps ++ [EvCreateCartItem row; EvRedisDel key] ++
                if not_nil derr then [EvPrintln "Failed to clear cache:"] else []))
        end
    end.
Proof.
  intros Hreq Hauth Hget Hcreate Hget2 Hprod Hitem Hstock row key steps.
  destruct (ShouldBindJSON_ok c req Hreq) as (_ & _ & Hq).
  unfold handlers.AddOrUpdateCartItem. rewrite Hreq. enter Hauth.
  rewrite Hget. cbn. rewrite bool_decide_eq_true_2 by reflexivity. cbn.
  rewrite Hcreate. cbn. rewrite Hget2. cbn. rewrite Hprod. cbn. rewrite Hitem. cbn.
  rewrite bool_decide_eq_true_2 by reflexivity. cbn.
  unfold goint.add. rewrite goint_wrap_in_range
    by (unfold goint.in_range, goint.min_int, goint.max_int in *; lia).
  rewrite Z.add_0_l, Z.gtb_ltb.
  replace (NumberOfStock product <? req_Quantity req) with false
    by (symmetry; apply Z.ltb_ge; lia).
  cbn. fold row. destruct (db_CreateCartItem row w5) as [[e|] w6]; cbn; [reflexivity|].
  unfold fmt.Sprintf_cart. fold key. destruct (rdb_Del key w6) as [[e|] w7]; reflexivity.
Qed.

Lemma add_item_provisions_missing_cart_witness :
  let r := run (handlers.AddOrUpdateCartItem (Scenario.add 3)) w_no_cart in
  fst r = Next tt /\
  MemStore.live_carts_of Scenario.U (world (snd r)) =
    [mkCart (Scenario.gen 0) Scenario.U None] /\
  MemStore.cart_items (world (snd r)) =
    [mkCartItems (Scenario.gen 1) (Scenario.gen 0) Scenario.P 3 None].
Proof.
  cbv zeta.
  rewrite (add_item_provisions_missing_cart Fixture.libs MemStore.World MemStore.backend
             (Scenario.add 3) Scenario.U (mkAddCartItemRequest Scenario.P 3) None
             (mkCart (Scenario.gen 0) Scenario.U None) Scenario.product None
             w_no_cart w_no_cart
             (snd (MemStore.CreateCart Scenario.U w_no_cart))
             (snd (MemStore.CreateCart Scenario.U w_no_cart))
             (snd (MemStore.CreateCart Scenario.U w_no_cart))
             (snd (MemStore.CreateCart Scenario.U w_no_cart))
             eq_refl (authenticated_request _ _) eq_refl eq_refl eq_refl eq_refl eq_refl).
  - vm_compute. repeat split.
  - vm_compute. discriminate.
Defined.

(** ** Reads after reads and after writes, on the in-memory backend *)

Section CacheCoherence.
Context `{Libs}.

Import MemStore.

Lemma nothing_failing op w : failing w = [] -> is_down op w = false.
Proof. intros Hw. apply is_down_false. rewrite Hw. intros []. Qed.

Lemma RedisGet_cached key w :
  is_down OpRedisGet w = false ->
  RedisGet key w =
    (match cached key w with
     | Some payload => (payload, None)
     | None => (EmptyString, Some redis_Nil)
     end, w).
Proof.
  intros Hup. unfold RedisGet, cached. rewrite Hup.
  destruct (redis w !! key) as [[payload expires]|]; [|reflexivity].
  destruct (now w <? expires); reflexivity.
Qed.

(** X17: with nothing failing, a list-items read that misses the cache
    loads the items from the store and caches them, and the read that comes
    right after is served from the cache with the same items, without
    loading from the store; this needs [json.Unmarshal] to give back what
    [json.Marshal] was given. *)
Theorem read_after_miss_hits_the_cache c userId cart w :
  authenticated_as c userId ->
  failing w = [] ->
  List.find (cart_of_user userId) (carts w) = Some cart ->
  cached ("cart:" ++ uuid_String (Cart_ID cart)) w = None ->
  json_Unmarshal (json_Marshal (stored_items (Cart_ID cart) w)) =
    (stored_items (Cart_ID cart) w, None) ->
  let r1 := run (handlers.GetAllCartItems c) w in
  let r2 := run (handlers.GetAllCartItems c) (world (snd r1)) in
  written (snd r1) =
    [SuccessResponse http.StatusOK "data fetch successfully"
       (DataCartItems (stored_items (Cart_ID cart) w))] /\
  existsb is_store_load (calls (snd r1)) = true /\
  written (snd r2) =
    [SuccessResponse http.StatusOK "data fetched from Redis"
       (DataCartItems (stored_items (Cart_ID cart) w))] /\
  existsb is_store_load (calls (snd r2)) = false.
Proof.
  intros Hauth Hw Hcart Hmiss Hcodec r1 r2.
  set (key := "cart:" ++ uuid_String (Cart_ID cart)) in *.
  set (items := stored_items (Cart_ID cart) w) in *.
  assert (Hget : db_GetCartByUserId userId w = ((Some cart, None), w)).
  { cbn. unfold GetCartByUserId. rewrite (nothing_failing _ w Hw), Hcart. reflexivity. }
  assert (Hrget : rdb_Get key w = ((EmptyString, Some redis_Nil), w)).
  { cbn. rewrite (RedisGet_cached key w (nothing_failing _ w Hw)), Hmiss. reflexivity. }
  assert (Hload : db_GetCartItems (Cart_ID cart) w = ((items, None), w)).
  { cbn. unfold GetCartItems. rewrite (nothing_failing _ w Hw). reflexivity. }
  pose proof (cache_miss_loads_and_populates _ World backend c userId cart EmptyString
                items w w w w Hauth Hget Hrget Hload) as Hr1.
  cbv zeta in Hr1. fold key in Hr1.
  cbn [rdb_Set backend] in Hr1. unfold RedisSet in Hr1.
  rewrite (nothing_failing _ w Hw) in Hr1. cbn in Hr1.
  set (w1 := set_redis _ w) in Hr1.
  subst r2. subst r1. rewrite Hr1. cbn [snd world written calls].
  assert (Hget1 : db_GetCartByUserId userId w1 = ((Some cart, None), w1)).
  { cbn. unfold GetCartByUserId. rewrite (nothing_failing _ w1 Hw).
    change (carts w1) with (carts w). rewrite Hcart. reflexivity. }
  assert (Hhit : rdb_Get key w1 = ((json_Marshal items, None), w1)).
  { cbn. rewrite (RedisGet_cached key w1 (nothing_failing _ w1 Hw)).
    unfold cached, w1. cbn. rewrite lookup_insert_eq.
    replace (now w <? now w + 24 * 3600 * 1000000000) with true; [reflexivity|].
    symmetry. apply Z.ltb_lt. lia. }
  rewrite (cache_hit_is_served_from_cache _ World backend c userId cart
             (json_Marshal items) items w1 w1 w1 Hauth Hget1 Hhit Hcodec).
  repeat split.
Qed.

(** The world a completed add-item leaves, when the user had a cart and
    nothing is failing: the carts are as before and the cache has lost the
    entry of the cart. *)
Lemma add_completed_world c userId cart w :
  authenticated_as c userId ->
  failing w = [] ->
  List.find (cart_of_user userId) (carts w) = Some cart ->
  fst (run (handlers.AddOrUpdateCartItem c) w) = Next tt ->
  let w' := world (snd (run (handlers.AddOrUpdateCartItem c) w)) in
  carts w' = carts w /\ failing w' = [] /\ now w' = now w /\
  redis w' = delete ("cart:" ++ uuid_String (Cart_ID cart)) (redis w).
Proof.
  intros Hauth Hw Hcart.
  assert (Hget : GetCartByUserId userId w = ((Some cart, None), w)).
  { unfold GetCartByUserId. rewrite (nothing_failing _ w Hw), Hcart. reflexivity. }
  unfold handlers.AddOrUpdateCartItem.
  destruct (gin.ShouldBindJSON c) as [req [berr|]]; [discriminate|].
  enter Hauth. rewrite Hget. cbn.
  unfold GetProductByUUID, GetCartItem, UpdateCartItem, CreateCartItem, RedisDel, is_down.
  cbn. rewrite !Hw. cbn.
  crush_handler; intros; try discriminate; repeat split; try assumption.
  all: try reflexivity.
  all: match goal with
       | Hb : bool_decide (_ ∈ failing _) = true |- _ =>
           rewrite Hw in Hb; cbn in Hb; discriminate Hb
       end.
Qed.

(** X18: with nothing failing, the list-items read that follows a completed
    add-item of a user who had a cart is never served from the cache: the
    add has deleted the entry the read looks up, so the read answers "data
    fetch successfully" with the items the store holds after the add,
    whatever snapshot was cached before. *)
Theorem read_after_add_is_fresh c c' userId cart w :
  authenticated_as c userId ->
  authenticated_as c' userId ->
  failing w = [] ->
  List.find (cart_of_user userId) (carts w) = Some cart ->
  fst (run (handlers.AddOrUpdateCartItem c) w) = Next tt ->
  let w' := world (snd (run (handlers.AddOrUpdateCartItem c) w)) in
  cached ("cart:" ++ uuid_String (Cart_ID cart)) w' = None /\
  written (snd (run (handlers.GetAllCartItems c') w')) =
    [SuccessResponse http.StatusOK "data fetch successfully"
       (DataCartItems (stored_items (Cart_ID cart) w'))].
Proof.
  intros Hauth Hauth' Hw Hcart Hdone w'.
  destruct (add_completed_world c userId cart w Hauth Hw Hcart Hdone)
    as (Hcarts & Hfail & _ & Hredis).
  fold w' in Hcarts, Hfail, Hredis.
  set (key := "cart:" ++ uuid_String (Cart_ID cart)) in *.
  assert (Hnone : cached key w' = None).
  { unfold cached. rewrite Hredis, lookup_delete_eq. reflexivity. }
  split; [exact Hnone|].
  assert (Hget : db_GetCartByUserId userId w' = ((Some cart, None), w')).
  { cbn. unfold GetCartByUserId.
    rewrite (nothing_failing _ w' Hfail), Hcarts, Hcart. reflexivity. }
  assert (Hrget : rdb_Get key w' = ((EmptyString, Some redis_Nil), w')).
  { cbn. rewrite (RedisGet_cached key w' (nothing_failing _ w' Hfail)), Hnone.
    reflexivity. }
  assert (Hload : db_GetCartItems (Cart_ID cart) w' =
                  ((stored_items (Cart_ID cart) w', None), w')).
  { cbn. unfold GetCartItems. rewrite (nothing_failing _ w' Hfail). reflexivity. }
  rewrite (cache_miss_loads_and_populates _ World backend c' userId cart EmptyString
             (stored_items (Cart_ID cart) w') w' w' w' w' Hauth' Hget Hrget Hload).
  destruct (rdb_Set _ _ _ w'). reflexivity.
Qed.

End CacheCoherence.

Lemma read_after_add_is_fresh_witness :
  let w' := world (snd (run (handlers.AddOrUpdateCartItem (Scenario.add 2))
                          Scenario.w_cached)) in
  MemStore.cached ("cart:" ++ uuid_String (Cart_ID Scenario.cart)) w' = None /\
  written (snd (run (handlers.GetAllCartItems Scenario.list_items) w')) =
    [SuccessResponse http.StatusOK "data fetch successfully"
       (DataCartItems (stored_items (Cart_ID Scenario.cart) w'))].
Proof.
  apply (read_after_add_is_fresh (Scenario.add 2) Scenario.list_items Scenario.U
           Scenario.cart Scenario.w_cached).
  - apply authenticated_request.
  - apply authenticated_request.
  - reflexivity.
  - reflexivity.
  - reflexivity.
Defined.

Lemma read_after_miss_hits_the_cache_witness :
  let r1 := run (handlers.GetAllCartItems Scenario.list_items) Scenario.w_cart in
  let r2 := run (handlers.GetAllCartItems Scenario.list_items) (world (snd r1)) in
  written (snd r1) =
    [SuccessResponse http.StatusOK "data fetch successfully"
       (DataCartItems (stored_items (Cart_ID Scenario.cart) Scenario.w_cart))] /\
  existsb is_store_load (calls (snd r1)) = true /\
  written (snd r2) =
    [SuccessResponse http.StatusOK "data fetched from Redis"
       (DataCartItems (stored_items (Cart_ID Scenario.cart) Scenario.w_cart))] /\
  existsb is_store_load (calls (snd r2)) = false.
Proof.
  apply (read_after_miss_hits_the_cache Scenario.list_items Scenario.U Scenario.cart
           Scenario.w_cart).
  - apply authenticated_request.
  - reflexivity.
  - reflexivity.
  - reflexivity.
  - reflexivity.
Defined.

(** * Properties of the user handlers *)

Section UserHandlers.
Context `{Libs} {W : Type} `{users.Backend W}.

Import users.

(** X19: the filter-and-search handler never hands the repository a page or
    a limit below 1, whatever the query string holds and whatever
    [strconv.Atoi] makes of it; the names it filters by are the query values
    (empty when absent); and the page and limit of the response's metadata
    are the ones it handed over. *)
Theorem pagination_is_at_least_one (c : Context) (w : W) :
  let r := GetFilterAndSearchUsers c w in
  exists params,
    called r = [CallFilterAndSearchUsers params] /\
    1 <= Page params /\ 1 <= Limit params /\
    ProductName params = Query c "productName" /\
    FullName params = Query c "fullname" /\
    (flow r = Next tt ->
     exists users total,
       replies r =
         [ResponseSuccess http.StatusOK "data fetched successfully"
            (WithMeta users (Page params) (Limit params) total)]).
Proof.
  unfold GetFilterAndSearchUsers.
  destruct (strconv_Atoi (DefaultQuery c "page" "1")) as [page e1].
  destruct (strconv_Atoi (DefaultQuery c "limit" "10")) as [limit e2].
  set (params := mkUserFilterParams _ _ _ _).
  destruct (db_FilterAndSearchUsers params w) as [[[users total] err] w1].
  exists params. destruct err as [e|]; cbn.
  all: repeat split; try discriminate; eauto.
  all: try (destruct (page <? 1) eqn:Hp; [lia|apply Z.ltb_ge in Hp; exact Hp]).
  all: destruct (limit <? 1) eqn:Hl; [lia|apply Z.ltb_ge in Hl; exact Hl].
Qed.

(** X20: a request without [page] and [limit] in its query is served page 1
    with a limit of 10, as soon as [strconv.Atoi] reads "1" as 1 and "10" as
    10. *)
Theorem pagination_defaults (c : Context) (w : W) :
  GetQuery c "page" = ("", false) ->
  GetQuery c "limit" = ("", false) ->
  strconv_Atoi "1" = (1, None) ->
  strconv_Atoi "10" = (10, None) ->
  called (GetFilterAndSearchUsers c w) =
    [CallFilterAndSearchUsers
       (mkUserFilterParams (Query c "productName") (Query c "fullname") 1 10)].
Proof.
  intros Hpage Hlimit H1 H10. unfold GetFilterAndSearchUsers, DefaultQuery.
  rewrite Hpage, Hlimit, H1, H10. cbn.
  destruct (db_FilterAndSearchUsers _ w) as [[[users total] [e|]] w1]; reflexivity.
Qed.

(** X21: [Login] asks for a token only for a user whose stored password
    [CheckPassword] accepts.  The claims it signs name the user's id, the
    issuer "e-commerce-app", an expiry 24 hours after the first clock
    reading, and the roles "user" and "admin" for every user; a token that
    cannot be created is answered 500, a created one 200 with the token. *)
Theorem login_token_after_password_check
    (c : Context) (req : LoginRequest) (user : User) (w w1 : W) :
  bind_login c = (req, None) ->
  db_GetUserByEmail (login_Email req) w = ((Some user, None), w1) ->
  let r := Login c w in
  let lookup := [CallGetUserByEmail (login_Email req)] in
  (utils_CheckPassword (login_Password req) (User_Password user) = false ->
   r = mkOutcome Returned w1
         [ResponseError http.StatusUnauthorized "Invalid Credential" None] lookup) /\
  (utils_CheckPassword (login_Password req) (User_Password user) = true ->
   let now1 := fst (time_Now w1) in
   let w2 := snd (time_Now w1) in
   let now2 := fst (time_Now w2) in
   let w3 := snd (time_Now w2) in
   let claims :=
     mkJWTClaims (uuid_String (User_ID user)) ["user"; "admin"]
       (now1 + 24 * 3600 * 1000000000) now2 "e-commerce-app" in
   r = match utils_CreateToken claims with
       | (token, Some e) =>
           mkOutcome Returned w3
             [ResponseError http.StatusInternalServerError "could not create token" None]
             (lookup ++ [CallCreateToken claims])
       | (token, None) =>
           mkOutcome (Next tt) w3
             [ResponseSuccess http.StatusOK "loggedin successfully"
                (WithToken (ToUserResponse (Some user)) token)]
             (lookup ++ [CallCreateToken claims])
       end).
Proof.
  intros Hbind Hget r lookup. subst r. unfold Login. rewrite Hbind, Hget. cbn.
  split; intros Hcheck; rewrite Hcheck; cbn; [reflexivity|].
  destruct (time_Now w1) as [now1 w2]. cbn.
  destruct (time_Now w2) as [now2 w3]. cbn.
  change (24 * time.Hour) with (24 * 3600 * 1000000000).
  destruct (utils_CreateToken _) as [token [e|]]; reflexivity.
Qed.

(** X22: [Login] answers every failed lookup of the e-mail with 400
    "Invalid Credential", whether the user is unknown or the store failed,
    and a wrong password with 401 and the same message; it creates no token
    in either case, and none when the body does not validate. *)
Theorem login_rejections (c : Context) (w : W) :
  let r := Login c w in
  (forall req e, bind_login c = (req, Some e) ->
     r = mkOutcome Returned w
           [ResponseError http.StatusBadRequest "Validation failed" (Some (Error e))] []) /\
  (forall req user e w1,
     bind_login c = (req, None) ->
     db_GetUserByEmail (login_Email req) w = ((user, Some e), w1) ->
     r = mkOutcome Returned w1
           [ResponseError http.StatusBadRequest "Invalid Credential" None]
           [CallGetUserByEmail (login_Email req)]) /\
  (flow r <> Next tt -> existsb is_token_call (called r) = true ->
   replies r =
     [ResponseError http.StatusInternalServerError "could not create token" None]).
Proof.
  cbv zeta. split; [|split].
  - intros req e Hbind. unfold Login. rewrite Hbind. reflexivity.
  - intros req user e w1 Hbind Hget. unfold Login. rewrite Hbind, Hget. reflexivity.
  - unfold Login. destruct (bind_login c) as [req [e|]]; cbn; [discriminate|].
    destruct (db_GetUserByEmail _ w) as [[user [e|]] w1]; cbn; [discriminate|].
    destruct user as [userv|]; cbn; [|discriminate].
    destruct (utils_CheckPassword _ _); cbn; [|discriminate].
    destruct (time_Now w1) as [now1 w2]. destruct (time_Now w2) as [now2 w3].
    destruct (utils_CreateToken _) as [token [e|]]; cbn; [reflexivity|congruence].
Qed.

(** X23: [Register] hands the repository a user whose password is what
    [HashPassword] returned for the request's password, with the zero id and
    the request's names and e-mail; when hashing fails it answers 500 and
    the repository is not called.  A repository error that
    [ParsePostgresError] recognises is answered 409 with its message, any
    other 500 "Something went wrong". *)
Theorem register_stores_the_hash
    (c : Context) (req : RegisterRequest) (w : W) :
  bind_register c = (req, None) ->
  let r := Register c w in
  match utils_HashPassword (reg_Password req) w with
  | ((hashed, Some e), w1) =>
      r = mkOutcome Returned w1 [JSON 500 [("error", FString "failed to hash password")]]
            [CallHashPassword (reg_Password req)]
  | ((hashed, None), w1) =>
      let user :=
        mkUser uuid.Nil (reg_Fullname req) (reg_Username req) (reg_Email req) hashed in
      let log := [CallHashPassword (reg_Password req); CallRegister user] in
      match db_Register user w1 with
      | ((userData, None), w2) =>
          r = mkOutcome (Next tt) w2
                [ResponseSuccess http.StatusOK "user registered successfully"
                   (ToUserResponse userData)] log
      | ((userData, Some e), w2) =>
          r = match utils_ParsePostgresError e with
              | (msg, true) => mkOutcome Returned w2 [ResponseError 409 msg None] log
              | (msg, false) =>
                  mkOutcome Returned w2
                    [ResponseError http.StatusInternalServerError "Something went wrong"
                       (Some (Error e))] log
              end
      end
  end.
Proof.
  intros Hbind r. subst r. unfold Register. rewrite Hbind.
  destruct (utils_HashPassword _ w) as [[hashed [e|]] w1]; cbn; [reflexivity|].
  destruct (db_Register _ w1) as [[userData [e|]] w2]; cbn; [|reflexivity].
  destruct (utils_ParsePostgresError e) as [msg [|]]; reflexivity.
Qed.

(** X24: the user lookups answer every repository error with 404, a store
    failure included.  [GetUser] rejects an id that [uuid.Parse] refuses with
    400 before any lookup; [GetUserByEmail] looks up the value of the
    [email] query parameter, the empty string when there is none. *)
Theorem user_lookup_errors (c : Context) (w : W) :
  (forall u e, uuid_Parse (param_id c) = (u, Some e) ->
     GetUser c w =
       mkOutcome Returned w [JSON http.StatusBadRequest [("error", FError (Some e))]] []) /\
  (forall id user e w1,
     uuid_Parse (param_id c) = (id, None) ->
     db_GetUserByUUID id w = ((user, Some e), w1) ->
     flow (GetUser c w) = Returned /\
     List.map reply_code (replies (GetUser c w)) = [404] /\
     called (GetUser c w) = [CallGetUserByUUID id]) /\
  (called (GetUserByEmail c w) = [CallGetUserByEmail (Query c "email")] /\
   forall user e w1,
     db_GetUserByEmail (Query c "email") w = ((user, Some e), w1) ->
     flow (GetUserByEmail c w) = Returned /\
     List.map reply_code (replies (GetUserByEmail c w)) = [404]).
Proof.
  split; [|split; [|split]].
  - intros u e Hparse. unfold GetUser. rewrite Hparse. reflexivity.
  - intros id user e w1 Hparse Hget. unfold GetUser. rewrite Hparse. cbn.
    rewrite Hget. cbn. auto.
  - unfold GetUserByEmail.
    destruct (db_GetUserByEmail _ w) as [[user [e|]] w1]; reflexivity.
  - intros user e w1 Hget. unfold GetUserByEmail. rewrite Hget. cbn. auto.
Qed.

End UserHandlers.

Lemma pagination_defaults_witness :
  users.called (users.GetFilterAndSearchUsers
                  (UserFixture.get "" [("fullname", "Alice")]) UserFixture.w_alice) =
    [users.CallFilterAndSearchUsers (users.mkUserFilterParams "" "Alice" 1 10)].
Proof.
  apply (pagination_defaults (W := UserFixture.World)
           (UserFixture.get "" [("fullname", "Alice")]) UserFixture.w_alice);
    reflexivity.
Defined.

Lemma login_token_after_password_check_witness :
  users.Login (UserFixture.login "alice@example.com" "rabbit") UserFixture.w_alice =
    users.mkOutcome Returned UserFixture.w_alice
      [users.ResponseError http.StatusUnauthorized "Invalid Credential" None]
      [users.CallGetUserByEmail "alice@example.com"] /\
  users.replies
    (users.Login (UserFixture.login "alice@example.com" "wonderland") UserFixture.w_alice) =
    [users.ResponseSuccess http.StatusOK "loggedin successfully"
       (users.WithToken (users.ToUserResponse (Some UserFixture.alice))
          "token:c0000000-0000-4000-8000-000000000001")].
Proof.
  split.
  - eapply (login_token_after_password_check (W := UserFixture.World)
              (UserFixture.login "alice@example.com" "rabbit")
              (users.mkLoginRequest "alice@example.com" "rabbit")
              UserFixture.alice UserFixture.w_alice UserFixture.w_alice);
      reflexivity.
  - destruct (login_token_after_password_check (W := UserFixture.World)
                (UserFixture.login "alice@example.com" "wonderland")
                (users.mkLoginRequest "alice@example.com" "wonderland")
                UserFixture.alice UserFixture.w_alice UserFixture.w_alice)
      as [_ Hok]; [reflexivity|reflexivity|].
    rewrite Hok by reflexivity. reflexivity.
Defined.

Lemma register_stores_the_hash_witness :
  let bob := users.mkUser uuid.Nil "Bob Roe" "bob" "bob@example.com" "hashed:secret" in
  let stored :=
    users.mkUser UserFixture.new_id "Bob Roe" "bob" "bob@example.com" "hashed:secret" in
  users.Register (UserFixture.register "Bob Roe" "bob" "bob@example.com" "secret")
    UserFixture.w_alice =
    users.mkOutcome (Next tt)
      (UserFixture.mkWorld [UserFixture.alice; stored] 5000 false)
      [users.ResponseSuccess http.StatusOK "user registered successfully"
         (users.ToUserResponse (Some stored))]
      [users.CallHashPassword "secret"; users.CallRegister bob].
Proof.
  exact (register_stores_the_hash (W := UserFixture.World)
           (UserFixture.register "Bob Roe" "bob" "bob@example.com" "secret")
           (users.mkRegisterRequest "Bob Roe" "bob" "bob@example.com" "secret")
           UserFixture.w_alice eq_refl).
Defined.

(** * The next migration version *)

Section NextVersion.
Variable scan : string -> Z.

Import migrator.

Lemma fold_step_bounds (files : list DirEntry) (m0 : Z) :
  let m := fold_left (step scan) files m0 in
  m0 <= m /\
  (forall f, In f files -> IsDir f = false -> scan (Name f) <= m) /\
  (m = m0 \/ exists f, In f files /\ IsDir f = false /\ m = scan (Name f)).
Proof.
  revert m0. induction files as [|f files IH]; intros m0; cbn.
  - split; [lia|]. split; [intros f []|left; reflexivity].
  - destruct (IH (step scan m0 f)) as (Hle & Hall & Hmax).
    assert (Hstep : m0 <= step scan m0 f /\
                    (IsDir f = false -> scan (Name f) <= step scan m0 f) /\
                    (step scan m0 f = m0 \/
                     (IsDir f = false /\ step scan m0 f = scan (Name f)))).
    { unfold step. destruct (IsDir f); [repeat split; try lia; try discriminate; auto|].
      destruct (scan (Name f) >? m0) eqn:Hgt.
      - apply Z.gtb_lt in Hgt. repeat split; try lia; try (right; auto).
      - rewrite Z.gtb_ltb in Hgt. apply Z.ltb_ge in Hgt. repeat split; try lia; auto. }
    destruct Hstep as (Hs1 & Hs2 & Hs3).
    split; [lia|]. split.
    + intros g [<-|Hin] Hfile; [specialize (Hs2 Hfile); lia|auto].
    + destruct Hmax as [Heq|(g & Hin & Hfile & Heq)].
      * rewrite Heq. destruct Hs3 as [->|[Hfile Hs3]]; [left; reflexivity|].
        right. exists f. auto.
      * right. exists g. auto.
Qed.

(** X25: [getNextVersion] returns 1 when the directory cannot be read;
    otherwise, as long as every scanned number is below the largest [int],
    it returns a version that is at least 1, above the number scanned from
    every file (directories are skipped), and it is 1 or the successor of a
    number scanned from one of the files. *)
Theorem next_version_is_above_all (files : list DirEntry) :
  (forall f, In f files -> scan (Name f) < goint.max_int) ->
  let n := getNextVersion scan (files, None) in
  1 <= n /\
  (forall f, In f files -> IsDir f = false -> scan (Name f) < n) /\
  (n = 1 \/ exists f, In f files /\ IsDir f = false /\ n = scan (Name f) + 1) /\
  (forall partial e, getNextVersion scan (partial, Some e) = 1).
Proof.
  intros Hsmall n. subst n. unfold getNextVersion. cbn.
  destruct (fold_step_bounds files 0) as (Hle & Hall & Hmax).
  set (m := fold_left (step scan) files 0) in *.
  assert (Hm : m < goint.max_int).
  { destruct Hmax as [->|(f & Hin & _ & ->)]; [unfold goint.max_int; lia|auto]. }
  unfold goint.add. rewrite goint_wrap_in_range
    by (unfold goint.in_range, goint.min_int, goint.max_int in *; lia).
  split; [lia|]. split; [|split].
  - intros f Hin Hfile. specialize (Hall f Hin Hfile). lia.
  - destruct Hmax as [->|(f & Hin & Hfile & ->)]; [left; reflexivity|].
    right. exists f. auto.
  - reflexivity.
Qed.

End NextVersion.

Lemma next_version_is_above_all_witness :
  migrator.getNextVersion migrator.scan6 (migrator.listing, None) = 8 /\
  1 <= migrator.getNextVersion migrator.scan6 (migrator.listing, None) /\
  (forall f, In f migrator.listing -> migrator.IsDir f = false ->
             migrator.scan6 (migrator.Name f) <
             migrator.getNextVersion migrator.scan6 (migrator.listing, None)).
Proof.
  split; [reflexivity|].
  destruct (next_version_is_above_all migrator.scan6 migrator.listing) as (H1 & H2 & _).
  - intros f Hin. cbn in Hin.
    repeat (destruct Hin as [<-|Hin]; [vm_compute; reflexivity|]). destruct Hin.
  - split; assumption.
Defined.


(** * The migration runner *)

Section MigrationRunner.
Import migrator migrations.
Context {DB : Type} `{Env DB}.

Lemma String_length_append (a b : string) :
  String.length (a ++ b) = (String.length a + String.length b)%nat.
Proof.
  induction a as [|c a IH]; [reflexivity|].
  change (String c a ++ b) with (String c (a ++ b)). cbn. f_equal. exact IH.
Qed.

Lemma substring_all (s : string) : substring 0 (String.length s) s = s.
Proof. induction s as [|c s IH]; cbn; [reflexivity|]. f_equal. exact IH. Qed.

Lemma substring_skip (a b : string) (m : nat) :
  substring (String.length a) m (a ++ b) = substring 0 m b.
Proof.
  induction a as [|c a IH]; [reflexivity|].
  change (String c a ++ b) with (String c (a ++ b)). cbn. exact IH.
Qed.

(** A name built by appending a suffix has that suffix. *)
Lemma HasSuffix_append (base suffix : string) :
  HasSuffix (base ++ suffix) suffix = true.
Proof.
  unfold HasSuffix. rewrite String_length_append.
  replace (String.length base + String.length suffix - String.length suffix)%nat
    with (String.length base) by lia.
  rewrite substring_skip, substring_all, String.eqb_refl.
  rewrite andb_true_r. apply Nat.leb_le. lia.
Qed.

Lemma String_append_assoc (a b c : string) : (a ++ b) ++ c = a ++ (b ++ c).
Proof.
  induction a as [|x a IH]; [reflexivity|].
  change (String x a ++ b) with (String x (a ++ b)).
  change (String x (a ++ b) ++ c) with (String x ((a ++ b) ++ c)).
  change (String x a ++ (b ++ c)) with (String x (a ++ (b ++ c))).
  f_equal. exact IH.
Qed.

(** Up files and down files alike end in [.sql]. *)
Lemma HasSuffix_sql (base kind : string) :
  HasSuffix (base ++ (kind ++ ".sql")) ".sql" = true.
Proof. rewrite <- String_append_assoc. apply HasSuffix_append. Qed.

Lemma insert_sorted_Permutation (x : string) (l : list string) :
  insert_sorted x l ≡ₚ x :: l.
Proof.
  induction l as [|y l IH]; cbn; [reflexivity|].
  destruct (String.leb x y); [reflexivity|].
  rewrite IH. apply Permutation_swap.
Qed.

Lemma sort_Strings_Permutation (l : list string) : sort_Strings l ≡ₚ l.
Proof.
  induction l as [|x l IH]; cbn; [reflexivity|].
  rewrite insert_sorted_Permutation. now rewrite IH.
Qed.

Lemma insert_sorted_ascending (x : string) (l : list string) :
  ascending l = true -> ascending (insert_sorted x l) = true.
Proof.
  induction l as [|y l IH]; cbn [insert_sorted]; intros Hl; [reflexivity|].
  destruct (String.leb x y) eqn:Hxy.
  - cbn. now rewrite Hxy.
  - assert (Hyx : String.leb y x = true)
      by (destruct (String.leb_total x y); congruence).
    destruct l as [|z l]; cbn [insert_sorted].
    + cbn. now rewrite Hyx.
    + cbn in Hl. apply andb_prop in Hl as [Hyz Hl].
      specialize (IH Hl). cbn [insert_sorted] in IH.
      destruct (String.leb x z) eqn:Hxz.
      * cbn. cbn in IH. now rewrite Hyx, Hxz.
      * change (String.leb y z && ascending (z :: insert_sorted x l) = true).
        now rewrite Hyz, IH.
Qed.

Lemma sort_Strings_ascending (l : list string) : ascending (sort_Strings l) = true.
Proof.
  induction l as [|x l IH]; [reflexivity|]. now apply insert_sorted_ascending.
Qed.

Lemma executedVersions_acc (rows : list SchemaMigration) (acc : gmap Z bool) (v : Z) :
  executed_at (fold_left (fun acc m => <[Version m := true]> acc) rows acc) v = true <->
  v ∈ Version <$> rows \/ executed_at acc v = true.
Proof.
  revert acc. induction rows as [|m rows IH]; intros acc; cbn.
  - rewrite elem_of_nil. tauto.
  - rewrite IH, elem_of_cons. unfold executed_at.
    destruct (decide (v = Version m)) as [->|Hne].
    + rewrite lookup_insert_eq. cbn. tauto.
    + rewrite lookup_insert_ne by congruence. tauto.
Qed.

(** The map says [true] exactly at the versions of the fetched rows. *)
Lemma executed_at_executedVersions (rows : list SchemaMigration) (v : Z) :
  executed_at (executedVersions rows) v = true <-> v ∈ Version <$> rows.
Proof.
  unfold executedVersions. rewrite executedVersions_acc.
  unfold executed_at. rewrite lookup_empty. cbn. intuition discriminate.
Qed.

Lemma started_app (a b : list LogLine) : started (a ++ b) = (started a ++ started b)%list.
Proof. unfold started. apply omap_app. Qed.

(** The loop starts transactions for the pending names in order, and stops
    at the first file it cannot read or whose transaction fails. *)
Lemma execute_pending_started (dir : string) (ex : gmap Z bool) (names : list string) :
  forall db pc out err db' pc' out',
  execute_pending dir ex names db pc out = (err, db', pc', out') ->
  exists k : nat,
    started out' = (started out ++ take k (filter (is_pending ex) names))%list /\
    match err with
    | None => (length (filter (is_pending ex) names) <= k)%nat
    | Some w =>
        (exists f e, w = Errorf "migration %s failed" (Some f) e /\
                     last (started out') = Some f /\
                     filter (is_pending ex) names !! (k - 1)%nat = Some f /\ (0 < k)%nat) \/
        (exists f e, w = Errorf "failed to read migration file %s" (Some f) e /\
                     filter (is_pending ex) names !! k = Some f)
    end.
Proof.
  induction names as [|fileName rest IH]; intros db pc out err db' pc' out' Hrun; cbn in Hrun.
  - inversion Hrun; subst. exists 0%nat. cbn. rewrite app_nil_r. split; [reflexivity|lia].
  - unfold filter; cbn. fold (filter (is_pending ex) rest).
    destruct (decide (is_pending ex fileName)) as [Hp|Hp];
      unfold is_pending, pending in Hp;
      destruct (Sscanf_d fileName) as [version serr] eqn:Hscan; cbn in Hp.
    + destruct serr; [discriminate|]. cbn in Hrun.
      destruct (executed_at ex version); [discriminate|].
      destruct (os_ReadFile (filepath_Join dir fileName)) as [sql rerr].
      destruct rerr as [e|].
      * inversion Hrun; subst. exists 0%nat. cbn. rewrite app_nil_r.
        split; [reflexivity|]. right. eauto.
      * destruct (db_Transaction fileName version sql db) as [terr db1].
        destruct terr as [e|].
        -- inversion Hrun; subst. exists 1%nat. cbn. rewrite take_0.
           rewrite started_app. cbn. split; [reflexivity|].
           left. exists fileName, e. repeat split; try lia.
           rewrite last_snoc. reflexivity.
        -- apply IH in Hrun as (k & Hs & Herr).
           rewrite !started_app in Hs. cbn in Hs. rewrite app_nil_r in Hs.
           exists (S k). cbn. split; [rewrite Hs, <- app_assoc; reflexivity|].
           destruct err as [w|].
           ++ destruct Herr as [(f & e & -> & Hl & Hk & Hpos)|(f & e & -> & Hk)].
              ** left. exists f, e. repeat split; try lia; [exact Hl|].
                 rewrite Nat.sub_0_r. destruct k; [lia|].
                 cbn in Hk. rewrite Nat.sub_0_r in Hk. exact Hk.
              ** right. eauto.
           ++ lia.
    + assert (Hskip : exists line,
                execute_pending dir ex rest db pc (out ++ [line]) = (err, db', pc', out')
                /\ started [line] = []).
      { destruct serr; cbn in Hrun.
        - eexists; split; [exact Hrun|reflexivity].
        - destruct (executed_at ex version).
          + eexists; split; [exact Hrun|reflexivity].
          + exfalso. apply Hp. reflexivity. }
      destruct Hskip as (line & Hrun' & Hline).
      apply IH in Hrun' as (k & Hs & Herr).
      rewrite started_app, Hline, app_nil_r in Hs.
      exists k. split; [exact Hs|exact Herr].
Qed.

(** The loop leaves the database alone when nothing is pending. *)
Lemma execute_pending_nothing (dir : string) (ex : gmap Z bool) (names : list string) :
  forall db pc out,
  filter (is_pending ex) names = [] ->
  exists out',
    execute_pending dir ex names db pc out = (None, db, pc, out') /\
    started out' = started out.
Proof.
  induction names as [|fileName rest IH]; intros db pc out Hnone; cbn.
  - eauto.
  - unfold filter in Hnone; cbn in Hnone. fold (filter (is_pending ex) rest) in Hnone.
    destruct (decide (is_pending ex fileName)) as [Hp|Hp]; [discriminate|].
    unfold is_pending, pending in Hp.
    destruct (Sscanf_d fileName) as [version serr]; cbn in Hp.
    destruct serr; cbn.
    + destruct (IH db pc (out ++ [Skipping_file fileName])%list Hnone) as (out' & -> & Hs).
      eexists; split; [reflexivity|]. rewrite Hs, started_app. cbn. apply app_nil_r.
    + destruct (executed_at ex version); [|exfalso; apply Hp; reflexivity].
      destruct (IH db pc (out ++ [Skipping_migration version])%list Hnone) as (out' & -> & Hs).
      eexists; split; [reflexivity|]. rewrite Hs, started_app. cbn. apply app_nil_r.
Qed.


Lemma is_migration_file_iff (f : DirEntry) :
  is_migration_file f = true <-> IsDir f = false /\ HasSuffix (Name f) ".sql" = true.
Proof.
  unfold is_migration_file. split.
  - intros Hf. apply andb_prop in Hf as [Hf _]. apply andb_prop in Hf as [Hd Hs].
    split; [now destruct (IsDir f)|exact Hs].
  - intros [Hd Hs]. rewrite Hd, Hs. cbn.
    destruct (String.eqb_spec (Name f) "atlas.sum") as [Heq|]; [|reflexivity].
    rewrite Heq in Hs. vm_compute in Hs. discriminate.
Qed.

Lemma leb_append_common (p a b : string) :
  String.leb (p ++ a) (p ++ b) = String.leb a b.
Proof.
  induction p as [|c p IH]; [reflexivity|].
  change (String c p ++ a) with (String c (p ++ a)).
  change (String c p ++ b) with (String c (p ++ b)).
  revert IH. unfold String.leb. cbn.
  assert (Hc : Ascii.compare c c = Eq).
  { unfold Ascii.compare. apply N.compare_refl. }
  rewrite Hc. tauto.
Qed.

(** X26: Once the tracking table, the recorded rows and the directory have
    been obtained, [RunMigrations] starts transactions for the pending
    migration files (those whose name scans to a version that was not
    recorded when the run began) in sorted order and for nothing else: the
    files started are a prefix of that list, the whole list when the run
    returns nil; a run that fails on a transaction fails on the last file
    started, and a run that fails on reading a file fails on the next
    pending file, before a transaction is started for it. *)
Theorem transactions_follow_the_pending_files
    (db db1 db2 : DB) (dir : string)
    (rows : list SchemaMigration) (files : list DirEntry) :
  db_AutoMigrate db = (None, db1) ->
  db_Find db1 = (rows, None, db2) ->
  os_ReadDir dir = (files, None) ->
  let todo := filter (is_pending (executedVersions rows)) (migrationFiles files) in
  let err := (RunMigrations db dir).1.1 in
  let out := (RunMigrations db dir).2 in
  started out `prefix_of` todo /\
  (err = None -> started out = todo) /\
  (forall w, err = Some w ->
     (format w = "migration %s failed" /\ about w = last (started out)
      /\ started out <> []) \/
     (format w = "failed to read migration file %s"
      /\ about w = todo !! length (started out)
      /\ (length (started out) < length todo)%nat)).
Proof.
  intros Hauto Hfind Hdir todo err out. subst err out.
  unfold RunMigrations. rewrite Hauto, Hfind, Hdir.
  fold todo.
  destruct (length (migrationFiles files) =? 0)%nat eqn:Hlen.
  - apply Nat.eqb_eq in Hlen. apply length_zero_iff_nil in Hlen.
    subst todo. rewrite Hlen. cbn. repeat split; try discriminate. apply prefix_nil.
  - destruct (execute_pending dir (executedVersions rows) (migrationFiles files)
                db2 0 [Running_migrations]) as [[[e db'] pc] out] eqn:Hrun.
    apply execute_pending_started in Hrun as (k & Hs & Herr).
    cbn in Hs. fold todo in Hs, Herr.
    destruct e as [w|].
    + cbv beta iota delta [fst snd]. rewrite Hs.
      split; [apply prefix_take|]. split; [discriminate|].
      intros w' [= <-].
      destruct Herr as [(f & e & -> & Hl & Hk & Hpos)|(f & e & -> & Hk)]; cbn.
      * left. rewrite <- Hs, Hl. repeat split.
        intros Hnil. rewrite Hnil in Hl. discriminate.
      * right. pose proof (lookup_lt_Some _ _ _ Hk) as Hlt.
        rewrite length_take, Nat.min_l by lia. rewrite Hk. repeat split. exact Hlt.
    + assert (Hall : take k todo = todo) by (apply take_ge; exact Herr).
      destruct (pc =? 0); cbv beta iota delta [fst snd];
        rewrite started_app, Hs, Hall; cbn; rewrite app_nil_r;
        repeat split; try discriminate; reflexivity.
Qed.

(** X27: The files [RunMigrations] considers are the names of the
    directory entries that are not directories and end in [.sql], each as
    often as it is listed, in increasing order; the test against
    ["atlas.sum"] excludes nothing, since that name does not end in
    [.sql]. *)
Theorem migration_files_are_the_sql_entries_in_order (files : list DirEntry) :
  ascending (migrationFiles files) = true /\
  migrationFiles files ≡ₚ
    Name <$> filter (fun f => IsDir f = false /\ HasSuffix (Name f) ".sql" = true) files.
Proof.
  split; [apply sort_Strings_ascending|].
  unfold migrationFiles. rewrite sort_Strings_Permutation.
  erewrite list_filter_iff; [reflexivity|]. intros f. apply is_migration_file_iff.
Qed.

(** X28: A transaction is only ever started after [db.AutoMigrate], the
    fetch of the recorded rows and [os.ReadDir] have all succeeded and the
    directory holds at least one migration file. *)
Theorem no_transaction_before_the_preliminaries (db : DB) (dir : string) :
  started (RunMigrations db dir).2 <> [] ->
  exists db1 rows db2 files,
    db_AutoMigrate db = (None, db1) /\
    db_Find db1 = (rows, None, db2) /\
    os_ReadDir dir = (files, None) /\
    migrationFiles files <> [].
Proof.
  unfold RunMigrations.
  destruct (db_AutoMigrate db) as [[e|] db1] eqn:Hauto; [cbn; congruence|].
  destruct (db_Find db1) as [[rows [e|]] db2] eqn:Hfind; [cbn; congruence|].
  destruct (os_ReadDir dir) as [files [e|]] eqn:Hdir.
  - destruct (os_IsNotExist e); cbn; congruence.
  - destruct (length (migrationFiles files) =? 0)%nat eqn:Hlen; [cbn; congruence|].
    intros _. exists db1, rows, db2, files.
    split; [reflexivity|]. split; [exact Hfind|]. split; [reflexivity|].
    intros Hnil. rewrite Hnil in Hlen. discriminate.
Qed.

(** X29: When every migration file whose name scans to a version has that
    version among the recorded rows, [RunMigrations] returns nil, starts no
    transaction and leaves the database as the fetch left it. *)
Theorem up_to_date_database_is_left_alone
    (db db1 db2 : DB) (dir : string)
    (rows : list SchemaMigration) (files : list DirEntry) :
  db_AutoMigrate db = (None, db1) ->
  db_Find db1 = (rows, None, db2) ->
  os_ReadDir dir = (files, None) ->
  (forall f v, f ∈ migrationFiles files -> Sscanf_d f = (v, None) ->
               v ∈ Version <$> rows) ->
  (RunMigrations db dir).1 = (None, db2) /\
  started (RunMigrations db dir).2 = [].
Proof.
  intros Hauto Hfind Hdir Hrec.
  assert (Hnone : filter (is_pending (executedVersions rows)) (migrationFiles files) = []).
  { destruct (filter _ _) as [|f l] eqn:Hf; [reflexivity|]. exfalso.
    assert (Hin : f ∈ filter (is_pending (executedVersions rows)) (migrationFiles files))
      by (rewrite Hf; apply elem_of_cons; left; reflexivity).
    apply list_elem_of_filter in Hin as [Hp Hin].
    unfold is_pending, pending in Hp.
    destruct (Sscanf_d f) as [v [e|]] eqn:Hscan; [discriminate|]. cbn in Hp.
    apply negb_true_iff in Hp.
    apply (Hrec f v Hin) in Hscan. apply executed_at_executedVersions in Hscan.
    congruence. }
  unfold RunMigrations. rewrite Hauto, Hfind, Hdir.
  destruct (length (migrationFiles files) =? 0)%nat; [split; reflexivity|].
  destruct (execute_pending_nothing dir (executedVersions rows) (migrationFiles files)
              db2 0 [Running_migrations] Hnone) as (out & -> & Hs).
  cbn. split; [reflexivity|]. rewrite started_app, Hs. reflexivity.
Qed.

(** X30: In a directory that holds one pair of files named as
    [GenerateMigrationFiles] names them, [<prefix>.up.sql] and
    [<prefix>.down.sql], whose version is not recorded, [RunMigrations]
    starts with the down file; and when that transaction succeeds it goes
    on to the up file, although both carry the same version: the recorded
    versions are looked up once, before the loop. *)
Theorem generated_pair_runs_the_down_file_first
    (db db1 db2 : DB) (dir : string)
    (rows : list SchemaMigration) (files : list DirEntry)
    (p : string) (v : Z) (sqlDown : string) :
  let up := p ++ ".up.sql" in
  let down := p ++ ".down.sql" in
  db_AutoMigrate db = (None, db1) ->
  db_Find db1 = (rows, None, db2) ->
  os_ReadDir dir = (files, None) ->
  files ≡ₚ [mkDirEntry up false; mkDirEntry down false] ->
  Sscanf_d up = (v, None) ->
  Sscanf_d down = (v, None) ->
  v ∉ Version <$> rows ->
  os_ReadFile (filepath_Join dir down) = (sqlDown, None) ->
  started (RunMigrations db dir).2 !! 0%nat = Some down /\
  (forall db3 sqlUp,
     db_Transaction down v sqlDown db2 = (None, db3) ->
     os_ReadFile (filepath_Join dir up) = (sqlUp, None) ->
     started (RunMigrations db dir).2 = [down; up]).
Proof.
  intros up down Hauto Hfind Hdir Hperm Hup Hdown Hv Hread.
  assert (Hfiles : migrationFiles files = [down; up]).
  { assert (Hu : is_migration_file (mkDirEntry up false) = true).
    { apply is_migration_file_iff. split; [reflexivity|]. apply (HasSuffix_sql p ".up"). }
    assert (Hd : is_migration_file (mkDirEntry down false) = true).
    { apply is_migration_file_iff. split; [reflexivity|]. apply (HasSuffix_sql p ".down"). }
    assert (Hle : String.leb up down = false)
      by (subst up down; rewrite leb_append_common; reflexivity).
    assert (Hle' : String.leb down up = true)
      by (subst up down; rewrite leb_append_common; reflexivity).
    unfold migrationFiles.
    apply Permutation_sym, Permutation_length_2_inv in Hperm as [->| ->].
    - rewrite !filter_cons_True, filter_nil by assumption. cbn. fold up down.
      now rewrite Hle.
    - rewrite !filter_cons_True, filter_nil by assumption. cbn. fold up down.
      now rewrite Hle'. }
  assert (Hnot : executed_at (executedVersions rows) v = false).
  { destruct (executed_at (executedVersions rows) v) eqn:Hex; [|reflexivity].
    apply executed_at_executedVersions in Hex. contradiction. }
  unfold RunMigrations. rewrite Hauto, Hfind, Hdir, Hfiles.
  cbn -[started]. fold up down. rewrite Hdown. cbn -[started]. rewrite Hnot, Hread.
  destruct (db_Transaction down v sqlDown db2) as [[e|] db3] eqn:Htx.
  - split; [reflexivity|]. intros ? ? [=].
  - rewrite Hup. cbn -[started]. rewrite Hnot.
    split.
    + destruct (os_ReadFile (filepath_Join dir up)) as [sqlUp [e|]]; [reflexivity|].
      destruct (db_Transaction up v sqlUp db3) as [[e|] db4]; [reflexivity|].
      destruct (goint.add (goint.add 0 1) 1 =? 0); reflexivity.
    + intros db3' sqlUp [= <-] ->.
      destruct (db_Transaction up v sqlUp db3) as [[e|] db4]; [reflexivity|].
      destruct (goint.add (goint.add 0 1) 1 =? 0); reflexivity.
Qed.

End MigrationRunner.

Lemma transactions_follow_the_pending_files_witness :
  migrations.started
    (migrations.RunMigrations (H := MigrationFixture.env) [] "migrations").2
  = ["000001_initial_schema.down.sql"; "000001_initial_schema.up.sql";
     "000007_add_carts.up.sql"].
Proof.
  pose proof (transactions_follow_the_pending_files (H := MigrationFixture.env)
                [] [] [] "migrations" [] migrator.listing
                eq_refl eq_refl eq_refl) as (_ & Hall & _).
  rewrite Hall; reflexivity.
Defined.

Lemma no_transaction_before_the_preliminaries_witness :
  exists db1 rows db2 files,
    migrations.db_AutoMigrate (Env := MigrationFixture.env) [] = (None, db1) /\
    migrations.db_Find db1 = (rows, None, db2) /\
    migrations.os_ReadDir "migrations" = (files, None) /\
    migrations.migrationFiles files <> [].
Proof.
  apply (no_transaction_before_the_preliminaries (H := MigrationFixture.env) []).
  vm_compute. discriminate.
Defined.

Lemma up_to_date_database_is_left_alone_witness :
  (migrations.RunMigrations MigrationFixture.up_to_date "migrations").1
    = (None, MigrationFixture.up_to_date) /\
  migrations.started
    (migrations.RunMigrations MigrationFixture.up_to_date "migrations").2 = [].
Proof.
  apply (up_to_date_database_is_left_alone (H := MigrationFixture.env)
           MigrationFixture.up_to_date MigrationFixture.up_to_date
           MigrationFixture.up_to_date "migrations"
           MigrationFixture.up_to_date migrator.listing eq_refl eq_refl eq_refl).
  intros f v Hin Hscan.
  assert (Hf : f ∈ ["000001_initial_schema.down.sql"; "000001_initial_schema.up.sql";
                    "000007_add_carts.up.sql"]) by exact Hin.
  repeat (apply elem_of_cons in Hf as [->|Hf];
          [vm_compute in Hscan; injection Hscan as <-; cbn; repeat constructor|]).
  inversion Hf.
Defined.

Lemma generated_pair_runs_the_down_file_first_witness :
  migrations.started
    (migrations.RunMigrations (H := MigrationFixture.env) [] "fresh").2 !! 0%nat
  = Some "000001_initial_schema.down.sql".
Proof.
  refine (proj1 (generated_pair_runs_the_down_file_first (H := MigrationFixture.env)
            [] [] [] "fresh" [] (take 2 migrator.listing)
            "000001_initial_schema" 1 "-- fresh/000001_initial_schema.down.sql"
            eq_refl eq_refl eq_refl _ eq_refl eq_refl _ eq_refl)).
  - reflexivity.
  - cbn. apply not_elem_of_nil.
Defined.
